(** * web-automation-agent: intent-to-plan compiler and action executor

    A shallow embedding of the Python sources

      - [agents/intent_config.py]     (keyword, site and city tables)
      - [agents/intent_parser_v2.py]  (intent detection, [parse_command])
      - [agents/intent_handlers.py]   (per-intent plan builders, [parse_date])
      - [agents/models.py]            (schema validation of action dicts)
      - [Automation/browser_executor.py] (the plan executor loop)
      - [Automation/make_my_trip.py]  (city-suggestion stage of the flight flow)

    Python [str] values are Rocq [string]s read as ASCII text; Python dicts
    that flow between the components are [gmap string pyval]; exceptions are
    an explicit [result] type; the browser session is an interface whose
    primitives may fail. *)

From Stdlib Require Import ZArith Lia List Bool Ascii String DecimalString.
From stdpp Require Import gmap strings list.

Local Open Scope string_scope.
Local Open Scope list_scope.
Local Open Scope Z_scope.

(* ===================================================================== *)
(** * Python string primitives                                            *)
(* ===================================================================== *)

Module PyStr.

Definition code (c : ascii) : N := N_of_ascii c.

(** [str.isspace] on the ASCII range: TAB..CR, FS..US and SPACE. *)
Definition is_space (c : ascii) : bool :=
  let n := code c in
  ((9 <=? n) && (n <=? 13) || (28 <=? n) && (n <=? 32))%N.

Definition is_digit (c : ascii) : bool :=
  let n := code c in ((48 <=? n) && (n <=? 57))%N.

Definition is_upper (c : ascii) : bool :=
  let n := code c in ((65 <=? n) && (n <=? 90))%N.

Definition is_lower (c : ascii) : bool :=
  let n := code c in ((97 <=? n) && (n <=? 122))%N.

(** the regular-expression class [\w] *)
Definition is_word (c : ascii) : bool :=
  is_upper c || is_lower c || is_digit c || Ascii.eqb c "_".

Definition lower_char (c : ascii) : ascii :=
  if is_upper c then ascii_of_N (code c + 32) else c.

(** [s.lower()] *)
Fixpoint lower (s : string) : string :=
  match s with
  | EmptyString => EmptyString
  | String c s' => String (lower_char c) (lower s')
  end.

(** [s.startswith(p)] *)
Fixpoint startswith (s p : string) : bool :=
  match p, s with
  | EmptyString, _ => true
  | String _ _, EmptyString => false
  | String a p', String b s' => Ascii.eqb a b && startswith s' p'
  end.

(** [s.endswith(suf)]: some suffix of [s] is [suf]. *)
Fixpoint endswith (s suf : string) : bool :=
  String.eqb s suf ||
  match s with
  | EmptyString => false
  | String _ s' => endswith s' suf
  end.

(** [sub in s] *)
Fixpoint contains (s sub : string) : bool :=
  startswith s sub ||
  match s with
  | EmptyString => false
  | String _ s' => contains s' sub
  end.

(** [s.replace(old, new)] for a non-empty [old]: occurrences are found
    left to right and do not overlap.  [skip] counts the characters of
    the occurrence just replaced that are still to be dropped. *)
Fixpoint replace_from (old new : string) (skip : nat) (s : string) : string :=
  match s with
  | EmptyString => EmptyString
  | String c s' =>
      match skip with
      | S n => replace_from old new n s'
      | O =>
          if startswith s old
          then new +:+ replace_from old new (Nat.pred (String.length old)) s'
          else String c (replace_from old new O s')
      end
  end.

(** [s.replace(old, new)] with [old] non-empty (every use in the sources). *)
Definition replace (s old new : string) : string :=
  replace_from old new O s.

(** [s.lstrip()], [s.rstrip()], [s.strip()] *)
Fixpoint lstrip (s : string) : string :=
  match s with
  | EmptyString => EmptyString
  | String c s' => if is_space c then lstrip s' else s
  end.

Fixpoint rstrip (s : string) : string :=
  match s with
  | EmptyString => EmptyString
  | String c s' =>
      match rstrip s' with
      | EmptyString => if is_space c then EmptyString else String c EmptyString
      | r => String c r
      end
  end.

Definition strip (s : string) : string := rstrip (lstrip s).

(** [s.split(sep)[0]] for a one-character [sep]: the text before the
    first separator (the whole string when there is none). *)
Fixpoint split_head (sep : ascii) (s : string) : string :=
  match s with
  | EmptyString => EmptyString
  | String c s' => if Ascii.eqb c sep then EmptyString else String c (split_head sep s')
  end.

Fixpoint take_word (s : string) : string :=
  match s with
  | EmptyString => EmptyString
  | String c s' => if is_space c then EmptyString else String c (take_word s')
  end.

(** [s.split()[0]]: the first whitespace-delimited word; [None] stands for
    the [IndexError] raised when [s] has no word at all. *)
Definition first_word (s : string) : option string :=
  match lstrip s with
  | EmptyString => None
  | w => Some (take_word w)
  end.

(** [s[n:]] and [s[:n]] for [n >= 0] *)
Fixpoint str_drop (n : nat) (s : string) : string :=
  match n, s with
  | O, _ => s
  | S _, EmptyString => EmptyString
  | S n', String _ s' => str_drop n' s'
  end.

Fixpoint str_take (n : nat) (s : string) : string :=
  match n, s with
  | O, _ => EmptyString
  | S _, EmptyString => EmptyString
  | S n', String c s' => String c (str_take n' s')
  end.

(** the one-character string holding a double quote *)
Definition dq : string := String (ascii_of_N 34) EmptyString.

(** decimal rendering, zero-padded to [width] digits ([%02d], [%04d]) *)
Definition digit_char (d : Z) : ascii := ascii_of_N (48 + Z.to_N d).

Fixpoint zpad (width : nat) (n : Z) : string :=
  match width with
  | O => EmptyString
  | S w => zpad w (n / 10) +:+ String (digit_char (n mod 10)) EmptyString
  end.

(** [int(s)] for a string of ASCII digits *)
Definition digit_val (c : ascii) : Z := Z.of_N (code c) - 48.

Fixpoint int_of_digits_acc (acc : Z) (s : string) : Z :=
  match s with
  | EmptyString => acc
  | String c s' => int_of_digits_acc (10 * acc + digit_val c) s'
  end.

Definition int_of_digits (s : string) : Z := int_of_digits_acc 0 s.

End PyStr.

(* ===================================================================== *)
(** * Regular expressions ([re]) as a backtracking matcher                *)
(* ===================================================================== *)

Module Re.
Import PyStr.

(** The fragment of [re] syntax the sources use.  [Star true r] is the
    greedy [r*], [Star false r] the lazy [r*?]; [Grp n r] is the [n]-th
    capturing group; [Eol] is [$] (end of text, or just before a final
    newline).  A leading [^] under [re.match] holds trivially and is not
    represented. *)
Inductive regex : Type :=
| Eps
| Lit (c : ascii)
| Dot
| Cls (p : ascii -> bool)
| Seq (r1 r2 : regex)
| Alt (r1 r2 : regex)
| Star (greedy : bool) (r : regex)
| Grp (n : nat) (r : regex)
| Eol.

Definition Plus (greedy : bool) (r : regex) : regex := Seq r (Star greedy r).
Definition Opt (r : regex) : regex := Alt r Eps.

Fixpoint Str (s : string) : regex :=
  match s with
  | EmptyString => Eps
  | String c s' => Seq (Lit c) (Str s')
  end.

Fixpoint Seqs (rs : list regex) : regex :=
  match rs with
  | [] => Eps
  | r :: rs' => Seq r (Seqs rs')
  end.

Fixpoint Alts (rs : list regex) : regex :=
  match rs with
  | [] => Cls (fun _ => false)
  | [r] => r
  | r :: rs' => Alt r (Alts rs')
  end.

(** [\s], [\s+], [\s*], [\d] *)
Definition Sp : regex := Cls is_space.
Definition Sp1 : regex := Plus true Sp.
Definition Sp0 : regex := Star true Sp.
Definition Digit : regex := Cls is_digit.

(** a capturing lazy [(.+?)] and greedy [(.+)] *)
Definition LazyGrp (n : nat) : regex := Grp n (Plus false Dot).
Definition GreedyGrp (n : nat) : regex := Grp n (Plus true Dot).

Definition char_eq (ignorecase : bool) (a b : ascii) : bool :=
  if ignorecase then Ascii.eqb (lower_char a) (lower_char b) else Ascii.eqb a b.

(** text consumed between the suffix [s] and its own suffix [s'] *)
Definition consumed (s s' : string) : string :=
  str_take (String.length s - String.length s')%nat s.

(** A matcher takes the text, the captures so far and a continuation for
    the rest of the text. *)
Definition matcher : Type :=
  string -> gmap nat string ->
  (string -> gmap nat string -> option (gmap nat string)) ->
  option (gmap nat string).

(** Repetition of the matcher [m1]: greedy repetition tries one more
    iteration before leaving the loop, lazy repetition leaves first.  An
    iteration must consume text, so [String.length s] iterations are all
    there can be; [fuel] counts them down. *)
Fixpoint star_loop (m1 : matcher) (greedy : bool)
    (k : string -> gmap nat string -> option (gmap nat string))
    (fuel : nat) (s : string) (caps : gmap nat string)
    {struct fuel} : option (gmap nat string) :=
  match fuel with
  | O => k s caps
  | S fuel' =>
      if greedy then
        match m1 s caps
                (fun s' caps' =>
                   if (String.length s' <? String.length s)%nat
                   then star_loop m1 greedy k fuel' s' caps' else None) with
        | Some c => Some c
        | None => k s caps
        end
      else
        match k s caps with
        | Some c => Some c
        | None =>
            m1 s caps
              (fun s' caps' =>
                 if (String.length s' <? String.length s)%nat
                 then star_loop m1 greedy k fuel' s' caps' else None)
        end
  end.

(** [rmatch ic r s caps k]: match [r] at the head of [s] and pass the rest
    of the text to the continuation [k]; alternatives are explored in the
    priority order of a backtracking engine, and the first success
    wins.  [ic] is the flag [re.IGNORECASE]. *)
Fixpoint rmatch (ic : bool) (r : regex) {struct r} : matcher :=
  fun s caps k =>
  match r with
  | Eps => k s caps
  | Lit c =>
      match s with
      | String c' s' => if char_eq ic c c' then k s' caps else None
      | EmptyString => None
      end
  | Dot =>
      match s with
      | String c' s' => if Ascii.eqb c' "010" then None else k s' caps
      | EmptyString => None
      end
  | Cls p =>
      match s with
      | String c' s' => if p c' then k s' caps else None
      | EmptyString => None
      end
  | Seq r1 r2 => rmatch ic r1 s caps (fun s' caps' => rmatch ic r2 s' caps' k)
  | Alt r1 r2 =>
      match rmatch ic r1 s caps k with
      | Some c => Some c
      | None => rmatch ic r2 s caps k
      end
  | Star greedy r1 => star_loop (rmatch ic r1) greedy k (String.length s) s caps
  | Grp n r1 =>
      rmatch ic r1 s caps (fun s' caps' => k s' (<[n := consumed s s']> caps'))
  | Eol =>
      match s with
      | EmptyString => k s caps
      | String c EmptyString => if Ascii.eqb c "010" then k s caps else None
      | _ => None
      end
  end.

(** A matcher is extensional when it depends on its continuation only
    through the continuation's answers, and strict when it has no answer of
    its own to give. *)
Definition extensional (m : matcher) : Prop :=
  forall s caps k1 k2,
    (forall s' caps', k1 s' caps' = k2 s' caps') -> m s caps k1 = m s caps k2.

Definition strict (m : matcher) : Prop :=
  forall s caps k, (forall s' caps', k s' caps' = None) -> m s caps k = None.

(** [re.match(r, s)]: a match anchored at the start of [s]. *)
Definition re_match (ic : bool) (r : regex) (s : string) : option (gmap nat string) :=
  rmatch ic r s ∅ (fun _ caps => Some caps).

(** [re.search(r, s)]: the leftmost match. *)
Fixpoint re_search (ic : bool) (r : regex) (s : string) : option (gmap nat string) :=
  match re_match ic r s with
  | Some c => Some c
  | None =>
      match s with
      | EmptyString => None
      | String _ s' => re_search ic r s'
      end
  end.

(** [m.group(n)] for a group that took part in the match, [None] otherwise *)
Definition group (m : gmap nat string) (n : nat) : option string := m !! n.

(** [m.group(n)] where the pattern makes group [n] part of every match *)
Definition group_text (m : gmap nat string) (n : nat) : string :=
  default EmptyString (group m n).

End Re.

(* ===================================================================== *)
(** * Exceptions and Python values                                        *)
(* ===================================================================== *)

Module Py.

(** Exception classes that occur in the modelled code.  [SessionError]
    stands for whatever a browser primitive raises (timeouts, detached
    elements, ...); every class here derives from [Exception]. *)
Inductive exn_class : Type :=
| ValueError
| OverflowError
| IndexError
| SessionError
| PlainException.

Record exn : Type := Exn { exn_cls : exn_class; exn_msg : string }.

Inductive result (A : Type) : Type :=
| Ok (a : A)
| Raise (e : exn).
Arguments Ok {A} a.
Arguments Raise {A} e.

Definition is_ValueError (e : exn) : bool :=
  match exn_cls e with ValueError => true | _ => false end.

(** sequencing of computations that may raise: [x ← m; k] *)
#[global] Instance result_ret : MRet result := fun A a => Ok a.
#[global] Instance result_bind : MBind result := fun A B f m =>
  match m with
  | Ok a => f a
  | Raise e => Raise e
  end.

(** [int(s)] on a string of ASCII digits.  The interpreter refuses to
    convert more than [sys.get_int_max_str_digits()] digits, 4300 unless
    it was configured otherwise, with a [ValueError]; leading zeros count. *)
Definition MAX_STR_DIGITS : Z := 4300.

Definition py_int (s : string) : result Z :=
  if MAX_STR_DIGITS <? Z.of_nat (String.length s)
  then Raise (Exn ValueError "Exceeds the limit (4300 digits) for integer string conversion")
  else Ok (PyStr.int_of_digits s).

(** Values stored in the dicts that travel between the components. *)
Inductive pyval : Type :=
| PStr (s : string)
| PInt (n : Z)
| PBool (b : bool).

(** Python truthiness *)
Definition truthy (v : pyval) : bool :=
  match v with
  | PStr s => negb (String.eqb s EmptyString)
  | PInt n => negb (n =? 0)
  | PBool b => b
  end.

(** a dict literal *)
Definition dict (kvs : list (string * pyval)) : gmap string pyval :=
  list_to_map kvs.

(** [d.get(k)] on a table kept in declaration order *)
Fixpoint table_get {V : Type} (t : list (string * V)) (k : string) : option V :=
  match t with
  | [] => None
  | (k', v) :: t' => if String.eqb k' k then Some v else table_get t' k
  end.

End Py.

(* ===================================================================== *)
(** * [datetime]: dates as proleptic Gregorian ordinals                   *)
(* ===================================================================== *)

Module PyDate.
Import PyStr Py.

(** [date.max.toordinal()], the ordinal of 9999-12-31 *)
Definition MAXORDINAL : Z := 3652059.

Definition DI400Y : Z := 146097.
Definition DI100Y : Z := 36524.
Definition DI4Y : Z := 1461.

Definition DAYS_IN_MONTH : list Z := [-1; 31; 28; 31; 30; 31; 30; 31; 31; 30; 31; 30; 31].
Definition DAYS_BEFORE_MONTH : list Z :=
  [-1; 0; 31; 59; 90; 120; 151; 181; 212; 243; 273; 304; 334].

Definition is_leap (year : Z) : bool :=
  (year mod 4 =? 0) && (negb (year mod 100 =? 0) || (year mod 400 =? 0)).

Definition days_before_year (year : Z) : Z :=
  let y := year - 1 in y * 365 + y / 4 - y / 100 + y / 400.

Definition days_in_month (year month : Z) : Z :=
  if (month =? 2) && is_leap year then 29
  else nth (Z.to_nat month) DAYS_IN_MONTH 0.

Definition days_before_month (year month : Z) : Z :=
  nth (Z.to_nat month) DAYS_BEFORE_MONTH 0
  + (if (2 <? month) && is_leap year then 1 else 0).

(** [_ymd2ord]: ordinal of a calendar date, 0001-01-01 being day 1 *)
Definition ymd2ord (year month day : Z) : Z :=
  days_before_year year + days_before_month year month + day.

(** [_ord2ymd]: calendar date of an ordinal *)
Definition ord2ymd (ordinal : Z) : Z * Z * Z :=
  let n := ordinal - 1 in
  let n400 := n / DI400Y in
  let n := n mod DI400Y in
  let year := n400 * 400 + 1 in
  let n100 := n / DI100Y in
  let n := n mod DI100Y in
  let n4 := n / DI4Y in
  let n := n mod DI4Y in
  let n1 := n / 365 in
  let n := n mod 365 in
  let year := year + n100 * 100 + n4 * 4 + n1 in
  if (n1 =? 4) || (n100 =? 4) then (year - 1, 12, 31)
  else
    let leapyear := (n1 =? 3) && (negb (n4 =? 24) || (n100 =? 3)) in
    let month := Z.shiftr (n + 50) 5 in
    let preceding :=
      nth (Z.to_nat month) DAYS_BEFORE_MONTH 0
      + (if (2 <? month) && leapyear then 1 else 0) in
    if n <? preceding then
      let month' := month - 1 in
      let preceding' :=
        preceding - (nth (Z.to_nat month') DAYS_IN_MONTH 0
                     + (if (month' =? 2) && leapyear then 1 else 0)) in
      (year, month', n - preceding' + 1)
    else (year, month, n - preceding + 1).

(** [d.weekday()]: Monday is 0, Sunday is 6 *)
Definition weekday (ordinal : Z) : Z := (ordinal + 6) mod 7.

(** [d + timedelta(days=n)]; leaving [date.min .. date.max] raises *)
Definition add_days (ordinal n : Z) : result Z :=
  let r := ordinal + n in
  if (1 <=? r) && (r <=? MAXORDINAL) then Ok r
  else Raise (Exn OverflowError "date value out of range").

(** [d.strftime('%Y-%m-%d')] for the years 1000 to 9999, where every
    platform writes the year with its four digits.  Below the year 1000
    the C library decides and may leave the year unpadded (999-01-01):
    the statements below use this rendering for dates from the year 1000
    on only. *)
Definition strftime_ymd (ordinal : Z) : string :=
  let '(y, m, d) := ord2ymd ordinal in
  zpad 4 y +:+ "-" +:+ zpad 2 m +:+ "-" +:+ zpad 2 d.

(** the shape [YYYY-MM-DD]: digits around two hyphens *)
Definition iso_shape (s : string) : bool :=
  match s with
  | String y1 (String y2 (String y3 (String y4 (String h1
      (String m1 (String m2 (String h2 (String d1 (String d2 EmptyString))))))))) =>
      is_digit y1 && is_digit y2 && is_digit y3 && is_digit y4 && Ascii.eqb h1 "-"
      && is_digit m1 && is_digit m2 && Ascii.eqb h2 "-" && is_digit d1 && is_digit d2
  | _ => false
  end.

(** The days on which the clock is taken to stand: dates whose year has
    four digits, with a week to spare before [date.max]. *)
Definition clock_date (today : Z) : Prop :=
  ymd2ord 1000 1 1 <= today /\ today + 7 <= MAXORDINAL.

End PyDate.

(* ===================================================================== *)
(** * [agents/intent_config.py]                                           *)
(* ===================================================================== *)

Module Config.
Import Py.

(** tables are kept in declaration order: [extract_website] iterates
    over [WEBSITE_MAP.keys()] *)
Definition WEBSITE_MAP : list (string * string) :=
  [ ("google", "https://www.google.com");
    ("google.com", "https://www.google.com");
    ("youtube", "https://www.youtube.com");
    ("youtube.com", "https://www.youtube.com");
    ("github", "https://www.github.com");
    ("github.com", "https://www.github.com");
    ("stackoverflow", "https://stackoverflow.com");
    ("stackoverflow.com", "https://stackoverflow.com");
    ("reddit", "https://www.reddit.com");
    ("reddit.com", "https://www.reddit.com");
    ("wikipedia", "https://www.wikipedia.org");
    ("wikipedia.org", "https://www.wikipedia.org");
    ("amazon", "https://www.amazon.in");
    ("amazon.in", "https://www.amazon.in");
    ("amazon.com", "https://www.amazon.com");
    ("twitter", "https://www.twitter.com");
    ("twitter.com", "https://www.twitter.com");
    ("linkedin", "https://www.linkedin.com");
    ("linkedin.com", "https://www.linkedin.com");
    ("facebook", "https://www.facebook.com");
    ("facebook.com", "https://www.facebook.com") ].

Definition q_selector : string :=
  "input[name='q'], textarea[name='q'], input[type='search']".

Definition FIELD_SELECTOR_MAP : list (string * string) :=
  [ ("search box", q_selector);
    ("search field", q_selector);
    ("email", "input[type='email']");
    ("password", "input[type='password']");
    ("username", "input[name='username'], input[name='user']");
    ("name", "input[name='name'], input[name='fullname']") ].

Definition ELEMENT_SELECTOR_MAP : list (string * string) :=
  [ ("submit button", "input[type='submit'], button[type='submit'], button.submit");
    ("search button", "input[type='submit'], button[type='submit'], button.search");
    ("login button", "input[type='submit'], button[type='submit'], button.login");
    ("first result", "div.g a");
    ("first link", "a:first-of-type");
    ("button", "button") ].

Definition CITY_MAPPING : list (string * string) :=
  [ ("nyc", "New York");
    ("new york city", "New York");
    ("sf", "San Francisco");
    ("san fran", "San Francisco");
    ("sfo", "San Francisco");
    ("la", "Los Angeles");
    ("lax", "Los Angeles");
    ("chi", "Chicago");
    ("ord", "Chicago");
    ("dc", "Washington DC");
    ("washington d.c.", "Washington DC");
    ("mumbai", "Mumbai");
    ("bombay", "Mumbai");
    ("bom", "Mumbai");
    ("delhi", "Delhi");
    ("del", "Delhi");
    ("new delhi", "Delhi");
    ("bengaluru", "Bengaluru");
    ("bangalore", "Bengaluru");
    ("blr", "Bengaluru");
    ("chennai", "Chennai");
    ("madras", "Chennai");
    ("maa", "Chennai");
    ("kolkata", "Kolkata");
    ("calcutta", "Kolkata");
    ("ccu", "Kolkata");
    ("london", "London");
    ("lon", "London");
    ("lhr", "London");
    ("paris", "Paris");
    ("cdg", "Paris");
    ("miami", "Miami");
    ("mia", "Miami") ].

(** a site's configuration: its search selector and, for youtube, the
    selector of the first video *)
Record site_config : Type := SiteConfig {
  search_selector : string;
  first_video_selector : option string
}.

Definition youtube_config : site_config :=
  SiteConfig "input[name='search_query']"
    (Some "ytd-video-renderer a#video-title[href*='watch']:not([href*='shorts'])").

Definition google_config : site_config := SiteConfig "textarea[name='q']" None.

Definition WEBSITE_CONFIGS : list (string * site_config) :=
  [ ("youtube", youtube_config);
    ("google", google_config);
    ("wikipedia", SiteConfig "#searchInput" None);
    ("wikipedia.org", SiteConfig "#searchInput" None);
    ("amazon", SiteConfig "input[name='field-keywords']" None) ].

Definition ACTION_KEYWORDS : list (string * list string) :=
  [ ("navigate", ["go to"; "navigate to"; "open"; "visit"]);
    ("search", ["search"; "find"; "look for"; "look up"]);
    ("fill", ["fill"; "enter"; "input"; "type in"]);
    ("click", ["click"; "press"; "tap"]);
    ("wait", ["wait"; "pause"; "delay"]);
    ("screenshot", ["screenshot"; "capture"; "take a picture"; "snap"]);
    ("book_flight",
     ["book flight"; "book a flight"; "search flight"; "find flight"; "fly from"]);
    ("play", ["play"; "watch"; "listen to"]) ].

(** [ACTION_KEYWORDS[kind]]; every [kind] used by the parser is a key *)
Definition keywords (kind : string) : list string :=
  default [] (table_get ACTION_KEYWORDS kind).

End Config.

(* ===================================================================== *)
(** * [agents/intent_handlers.py]                                         *)
(* ===================================================================== *)

Module Handlers.
Import PyStr Re Py PyDate Config.

(** [for keyword in kws: text = text.replace(keyword, '')] *)
Definition remove_all (text : string) (kws : list string) : string :=
  fold_left (fun acc kw => replace acc kw EmptyString) kws text.

Definition goto_action (url : string) : gmap string pyval :=
  dict [("action", PStr "goto"); ("value", PStr url)].

Definition handle_navigate (command : string) (entities : gmap string pyval)
  : result (list (gmap string pyval)) :=
  let url_part := strip (remove_all command ["go to"; "navigate to"; "open"; "visit"]) in
  let url :=
    match table_get WEBSITE_MAP (lower url_part) with
    | Some u => u
    | None =>
        if startswith url_part "http://" || startswith url_part "https://"
        then url_part
        else "https://www." +:+ url_part
    end in
  Ok [goto_action url].

Definition handle_search (command : string) (entities : gmap string pyval)
  : result (list (gmap string pyval)) :=
  let take_screenshot :=
    match entities !! "screenshot" with Some v => truthy v | None => false end in
  let search_term :=
    remove_all command
      ["search for"; "search"; "find"; "look for"; "look up"; "on google"; "google"] in
  let search_term :=
    if take_screenshot
    then remove_all search_term ["and take a screenshot"; "take a screenshot"; "screenshot"]
    else search_term in
  let search_term := strip search_term in
  let website :=
    match entities !! "website" with
    | Some (PStr w) => Some w
    | Some _ => None
    | None => Some "google"
    end in
  let config := default google_config (website ≫= table_get WEBSITE_CONFIGS) in
  let website_url := default "https://www.google.com" (website ≫= table_get WEBSITE_MAP) in
  let actions :=
    [ goto_action website_url;
      dict [("action", PStr "fill"); ("selector", PStr (search_selector config));
            ("value", PStr search_term)];
      dict [("action", PStr "press"); ("selector", PStr (search_selector config));
            ("key", PStr "Enter")] ] in
  Ok (if take_screenshot
      then actions ++ [dict [("action", PStr "screenshot"); ("filename", PStr "search_results.png")]]
      else actions).

Definition handle_play (command : string) (entities : gmap string pyval)
  : result (list (gmap string pyval)) :=
  let search_term :=
    strip (remove_all command
             ["play"; "watch"; "listen to"; "search youtube for"; "find on youtube"; "on youtube"]) in
  let sel := search_selector youtube_config in
  Ok [ goto_action "https://www.youtube.com";
       dict [("action", PStr "fill"); ("selector", PStr sel); ("value", PStr search_term)];
       dict [("action", PStr "press"); ("selector", PStr sel); ("key", PStr "Enter")];
       dict [("action", PStr "wait"); ("timeout", PInt 3000)];
       dict [("action", PStr "click");
             ("selector", PStr (default EmptyString (first_video_selector youtube_config)))] ].

(** [(?:the\s+)?] *)
Definition opt_the : regex := Opt (Seq (Str "the") Sp1).

(** [input[name='{field}'], textarea[name='{field}']] *)
Definition field_selector (field : string) : string :=
  default ("input[name='" +:+ field +:+ "'], textarea[name='" +:+ field +:+ "']")
          (table_get FIELD_SELECTOR_MAP (lower field)).

(** [(?:fill|enter|input|type\s+in)\s+(?:the\s+)?(.+?)\s+with\s+(.+)] *)
Definition fill_pattern : regex :=
  Seqs [ Alts [Str "fill"; Str "enter"; Str "input"; Seqs [Str "type"; Sp1; Str "in"]];
         Sp1; opt_the; LazyGrp 1; Sp1; Str "with"; Sp1; GreedyGrp 2 ].

Definition handle_fill (command : string) (entities : gmap string pyval)
  : result (list (gmap string pyval)) :=
  match re_search false fill_pattern command with
  | None => Ok []
  | Some m =>
      let field := strip (group_text m 1) in
      let value := strip (group_text m 2) in
      Ok [dict [("action", PStr "fill"); ("selector", PStr (field_selector field));
                ("value", PStr value)]]
  end.

(** [(?:click|press|tap)\s+(?:the\s+)?(.+)] *)
Definition click_pattern : regex :=
  Seqs [ Alts [Str "click"; Str "press"; Str "tap"]; Sp1; opt_the; GreedyGrp 1 ].

Definition handle_click (command : string) (entities : gmap string pyval)
  : result (list (gmap string pyval)) :=
  if contains command "first" then Ok [dict [("action", PStr "click_result")]]
  else
    match re_search false click_pattern command with
    | None => Ok []
    | Some m =>
        let element := strip (group_text m 1) in
        let selector :=
          default ("button, input[type='button'], a[href*='" +:+ element +:+ "']")
                  (table_get ELEMENT_SELECTOR_MAP (lower element)) in
        Ok [dict [("action", PStr "click"); ("selector", PStr selector)]]
    end.

(** [press\s+(.+?)(?:\s+in|\s+on)\s+(?:the\s+)?(.+)] *)
Definition press_pattern : regex :=
  Seqs [ Str "press"; Sp1; LazyGrp 1;
         Alt (Seq Sp1 (Str "in")) (Seq Sp1 (Str "on")); Sp1; opt_the; GreedyGrp 2 ].

Definition handle_press_key (command : string) (entities : gmap string pyval)
  : result (list (gmap string pyval)) :=
  match re_search false press_pattern command with
  | None => Ok []
  | Some m =>
      let key := strip (group_text m 1) in
      let field := strip (group_text m 2) in
      Ok [dict [("action", PStr "press"); ("selector", PStr (field_selector field));
                ("key", PStr key)]]
  end.

(** [(?:wait|pause|delay)\s+(?:for\s+)?(\d+)(?:\s*(ms|milliseconds|seconds|sec|s))?] *)
Definition wait_pattern : regex :=
  Seqs [ Alts [Str "wait"; Str "pause"; Str "delay"]; Sp1; Opt (Seq (Str "for") Sp1);
         Grp 1 (Plus true Digit);
         Opt (Seq Sp0 (Grp 2 (Alts [Str "ms"; Str "milliseconds"; Str "seconds";
                                    Str "sec"; Str "s"]))) ].

Definition handle_wait (command : string) (entities : gmap string pyval)
  : result (list (gmap string pyval)) :=
  match re_search false wait_pattern command with
  | None => Ok []
  | Some m =>
      time_value ← py_int (group_text m 1);
      let timeout :=
        match group m 2 with
        | Some unit =>
            if negb (String.eqb unit EmptyString) && startswith (lower unit) "s"
            then time_value * 1000 else time_value
        | None => time_value
        end in
      Ok [dict [("action", PStr "wait"); ("timeout", PInt timeout)]]
  end.

(** [(?:screenshot|capture)\s+(?:of\s+)?(.+)] *)
Definition screenshot_pattern : regex :=
  Seqs [ Alt (Str "screenshot") (Str "capture"); Sp1; Opt (Seq (Str "of") Sp1); GreedyGrp 1 ].

Definition handle_screenshot (command : string) (entities : gmap string pyval)
  : result (list (gmap string pyval)) :=
  let filename :=
    match re_search false screenshot_pattern command with
    | Some m => strip (remove_all (strip (group_text m 1)) ["and"; "take"; "a"; "the"])
    | None => "screenshot.png"
    end in
  Ok [dict [("action", PStr "screenshot"); ("filename", PStr filename)]].

(** ** Flight booking and date normalisation

      [strptime date_str fmt] is [datetime.strptime] of the standard
      library, returning the ordinal of the parsed date; it raises
      [ValueError] when the text does not match the format.  [today] is the
      ordinal of [datetime.now()]'s date: one call of [parse_date] sees one
      calendar day. *)
Section BookFlight.
Variable strptime : string -> string -> result Z.
Variable today : Z.

Definition weekdays : list string :=
  ["monday"; "tuesday"; "wednesday"; "thursday"; "friday"; "saturday"; "sunday"].

Definition date_formats : list string :=
  [ "%Y-%m-%d"; "%Y/%m/%d"; "%m/%d/%Y"; "%d-%m-%Y";
    "%B %d, %Y"; "%b %d, %Y"; "%d %B %Y"; "%d %b %Y";
    "%d/%m/%Y"; "%m-%d-%Y" ].

(** the [enumerate(weekdays)] loop: index of the first day name that
    starts with [prefix] *)
Fixpoint find_day (prefix : string) (days : list string) (idx : Z) : option Z :=
  match days with
  | [] => None
  | day :: rest =>
      if startswith day prefix then Some idx else find_day prefix rest (idx + 1)
  end.

(** the loop over [date_formats]: the first format that parses wins, a
    [ValueError] moves on to the next format, anything else propagates *)
Fixpoint try_formats (date_str : string) (fmts : list string) : result (option Z) :=
  match fmts with
  | [] => Ok None
  | fmt :: rest =>
      match strptime date_str fmt with
      | Ok d => Ok (Some d)
      | Raise e => if is_ValueError e then try_formats date_str rest else Raise e
      end
  end.

(** lines 333-335: the days from today to the next [day_idx], a full
    week when today is that weekday *)
Definition days_ahead (day_idx : Z) : Z :=
  let days_ahead := (day_idx - weekday today + 7) mod 7 in
  if days_ahead =? 0 then 7 else days_ahead.

(** the body of the [try] block of [parse_date] *)
Definition parse_date_body (date_str : string) : result string :=
  let date_str := lower (strip date_str) in
  date_obj ←
    (if String.eqb date_str "tomorrow" then add_days today 1
     else if startswith date_str "next " then
       let day_name := strip (str_drop 5 date_str) in
       match find_day (str_take 3 day_name) weekdays 0 with
       | Some day_idx => add_days today (days_ahead day_idx)
       | None => add_days today 7
       end
     else
       parsed ← try_formats date_str date_formats;
       match parsed with
       | Some d => Ok d
       | None => add_days today 7
       end);
  Ok (strftime_ymd date_obj).

(** [parse_date]: any exception of the body is answered with today + 7 *)
Definition parse_date (date_str : string) : result string :=
  match parse_date_body date_str with
  | Ok formatted => Ok formatted
  | Raise _ => d ← add_days today 7; Ok (strftime_ymd d)
  end.

Definition verb : regex := Alts [Str "search"; Str "book"; Str "find"].
Definition flights : regex := Seq (Str "flight") (Opt (Lit "s")).

(** the date separator, the non-capturing alternation of [\s+on\s+],
    [\s+for\s+] and [\s+date\s*:?\s*] *)
Definition date_sep : regex :=
  Alts [ Seqs [Sp1; Str "on"; Sp1];
         Seqs [Sp1; Str "for"; Sp1];
         Seqs [Sp1; Str "date"; Sp0; Opt (Lit ":"); Sp0] ].

(** [\s+(.+?)\s+to\s+(.+?)] followed by the date separator and [(.+)] *)
Definition from_to (sep : regex) : list regex :=
  [Sp1; LazyGrp 1; Sp1; Str "to"; Sp1; LazyGrp 2; sep; GreedyGrp 3].

(** [(?:search|book|find)\s+(?:for\s+)?(?:a\s+)?flights?\s+from\s+(.+?)\s+to\s+(.+?)\s+(.+)] *)
Definition flight_pattern_1 : regex :=
  Seqs ([verb; Sp1; Opt (Seq (Str "for") Sp1); Opt (Seq (Str "a") Sp1); flights;
         Sp1; Str "from"] ++ from_to Sp1).

(** [(?:search|book|find)(?:\s+for)?(?:\s+a)?(?:\s+flights?)?(?:\s+from)\s+(.+?)\s+to\s+(.+?)]
    then the date separator and [(.+)] *)
Definition flight_pattern_2 : regex :=
  Seqs ([verb; Opt (Seq Sp1 (Str "for")); Opt (Seq Sp1 (Str "a"));
         Opt (Seq Sp1 flights); Seq Sp1 (Str "from")] ++ from_to date_sep).

(** [(?:i\s+want\s+to\s+fly|i\s+need\s+a\s+flight|i\s+would\s+like\s+to\s+book)(?:\s+from)?\s+(.+?)\s+to\s+(.+?)]
    then the date separator and [(.+)] *)
Definition flight_pattern_3 : regex :=
  Seqs ([Alts [ Seqs [Str "i"; Sp1; Str "want"; Sp1; Str "to"; Sp1; Str "fly"];
                Seqs [Str "i"; Sp1; Str "need"; Sp1; Str "a"; Sp1; Str "flight"];
                Seqs [Str "i"; Sp1; Str "would"; Sp1; Str "like"; Sp1; Str "to";
                      Sp1; Str "book"] ];
         Opt (Seq Sp1 (Str "from"))] ++ from_to date_sep).

(** [(?:fly|flights?|trip)\s+from\s+(.+?)\s+to\s+(.+?)] then the date
    separator and [(.+)] *)
Definition flight_pattern_4 : regex :=
  Seqs ([Alts [Str "fly"; flights; Str "trip"]; Sp1; Str "from"] ++ from_to date_sep).

Definition flight_patterns : list regex :=
  [flight_pattern_1; flight_pattern_2; flight_pattern_3; flight_pattern_4].

(** [re.sub(r'\s+', ' ', s)] *)
Fixpoint collapse_spaces_from (in_run : bool) (s : string) : string :=
  match s with
  | EmptyString => EmptyString
  | String c s' =>
      if is_space c then
        if in_run then collapse_spaces_from true s'
        else String " " (collapse_spaces_from true s')
      else String c (collapse_spaces_from false s')
  end.

Definition collapse_spaces (s : string) : string := collapse_spaces_from false s.

(** [CITY_MAPPING.get(city.lower(), city)] *)
Definition normalize_city (city : string) : string :=
  default city (table_get CITY_MAPPING (lower city)).

Fixpoint book_flight_loop (command : string) (patterns : list regex)
  : result (list (gmap string pyval)) :=
  match patterns with
  | [] => Ok []
  | pattern :: rest =>
      match re_search true pattern command with
      | Some m =>
          let from_city := strip (group_text m 1) in
          let to_city := strip (group_text m 2) in
          let date_str := strip (group_text m 3) in
          let from_city := strip (collapse_spaces from_city) in
          let to_city := strip (collapse_spaces to_city) in
          let from_city := normalize_city from_city in
          let to_city := normalize_city to_city in
          formatted_date ← parse_date date_str;
          Ok [dict [("action", PStr "book_flight"); ("from", PStr from_city);
                    ("to", PStr to_city); ("date", PStr formatted_date)]]
      | None => book_flight_loop command rest
      end
  end.

Definition handle_book_flight (command : string) (entities : gmap string pyval)
  : result (list (gmap string pyval)) :=
  book_flight_loop command flight_patterns.

Definition HANDLER_REGISTRY
  : list (string * (string -> gmap string pyval -> result (list (gmap string pyval)))) :=
  [ ("navigate", handle_navigate);
    ("search", handle_search);
    ("play", handle_play);
    ("fill", handle_fill);
    ("click", handle_click);
    ("press_key", handle_press_key);
    ("wait", handle_wait);
    ("screenshot", handle_screenshot);
    ("book_flight", handle_book_flight) ].

End BookFlight.

End Handlers.

(* ===================================================================== *)
(** * [agents/intent_parser_v2.py]                                        *)
(* ===================================================================== *)

Module Parser.
Import PyStr Py Config Handlers.

(** [any(keyword in command for keyword in kws)] *)
Definition any_in (command : string) (kws : list string) : bool :=
  existsb (contains command) kws.

(** first key of [WEBSITE_MAP], in declaration order, found in the command *)
Fixpoint first_site (sites : list (string * string)) (command : string) : option string :=
  match sites with
  | [] => None
  | (website, _) :: rest =>
      if contains command website then Some website else first_site rest command
  end.

Definition extract_website (command : string) : option string :=
  first_site WEBSITE_MAP command.

(** [entities['website'] = website] when a non-empty site name was found *)
Definition with_website (command : string) (entities : gmap string pyval)
  : gmap string pyval :=
  match extract_website command with
  | Some website =>
      if String.eqb website EmptyString then entities else <["website" := PStr website]> entities
  | None => entities
  end.

Definition detect_intent (command : string) : option string * gmap string pyval :=
  let entities : gmap string pyval := ∅ in
  (* Priority 1: flight booking *)
  if any_in command (keywords "book_flight") then (Some "book_flight", entities)
  else if (contains command "from" && contains command "to")
          && any_in command ["flight"; "fly"; "trip"]
  then (Some "book_flight", entities)
  (* Priority 2: media playback *)
  else if any_in command (keywords "play") then
    (Some "play",
     if contains command "youtube" || contains command "video"
     then <["platform" := PStr "youtube"]> entities else entities)
  else
    (* Priority 3: screenshot flag *)
    let has_screenshot := any_in command (keywords "screenshot") in
    let entities :=
      if has_screenshot then <["screenshot" := PBool true]> entities else entities in
    (* Priority 4: search *)
    if any_in command (keywords "search") then (Some "search", with_website command entities)
    (* Priority 5: navigation *)
    else if any_in command (keywords "navigate") then
      (Some "navigate", with_website command entities)
    (* Priority 6: fill *)
    else if any_in command (keywords "fill") && contains command "with" then
      (Some "fill", entities)
    (* Priority 7: click *)
    else if any_in command (keywords "click") then (Some "click", entities)
    (* Priority 8: press key *)
    else if contains command "press" && contains command "in" then
      (Some "press_key", entities)
    (* Priority 9: wait *)
    else if any_in command (keywords "wait") then (Some "wait", entities)
    (* Priority 10: screenshot only *)
    else if has_screenshot then (Some "screenshot", entities)
    else (None, ∅).

Section ParseCommand.
Variable strptime : string -> string -> result Z.
Variable today : Z.

(** [parse_command]: [None] is Python's [None] ("could not parse") *)
Definition parse_command (command : string) : option (list (gmap string pyval)) :=
  if String.eqb command EmptyString || String.eqb (strip command) EmptyString then None
  else
    let command_lower := strip (lower command) in
    match detect_intent command_lower with
    | (None, _) => None
    | (Some intent, entities) =>
        if String.eqb intent EmptyString then None
        else
          match table_get (HANDLER_REGISTRY strptime today) intent with
          | None => None
          | Some handler =>
              match handler command_lower entities with
              | Ok [] => None
              | Ok actions => Some actions
              | Raise _ => None
              end
          end
    end.

End ParseCommand.

End Parser.

(* ===================================================================== *)
(** * [agents/intent_parser.py]                                           *)
(* ===================================================================== *)

Module IntentParser.
Import PyStr Py.

Section ParseCommand.
Variable strptime : string -> string -> result Z.
Variable today : Z.

(** the entry point kept for older callers; the import of the refactored
    parser has succeeded ([USE_V2] is [True]) *)
Definition parse_command (command : string) : option (list (gmap string pyval)) :=
  if String.eqb command EmptyString || String.eqb (strip command) EmptyString then None
  else Parser.parse_command strptime today command.

End ParseCommand.

End IntentParser.

(* ===================================================================== *)
(** * [agents/models.py]                                                  *)
(* ===================================================================== *)

Module Models.
Import PyStr Re Py.

(** The validated action models.  [BookFlightAction]'s first field is
    [from_], filled from the external key ["from"]. *)
Inductive Action : Type :=
| GotoAction (value : string)
| FillAction (selector value : string)
| ClickAction (selector : string)
| PressAction (selector key : string)
| ClickResultAction
| ScreenshotAction (filename : string)
| BookFlightAction (from_ to date : string)
| WaitAction (timeout : Z).

(** the [action] field of a validated model *)
Definition action_tag (a : Action) : string :=
  match a with
  | GotoAction _ => "goto"
  | FillAction _ _ => "fill"
  | ClickAction _ => "click"
  | PressAction _ _ => "press"
  | ClickResultAction => "click_result"
  | ScreenshotAction _ => "screenshot"
  | BookFlightAction _ _ _ => "book_flight"
  | WaitAction _ => "wait"
  end.

Definition value_error {A : Type} (msg : string) : result A :=
  Raise (Exn ValueError msg).

(** A required [str] field.  Extra keys of the dict are ignored; a value
    of another type is rejected (coercions between value types are not
    part of this model). *)
Definition str_field (data : gmap string pyval) (name : string) : result string :=
  match data !! name with
  | Some (PStr s) => Ok s
  | Some _ => value_error (name +:+ ": str type expected")
  | None => value_error (name +:+ ": field required")
  end.

(** [GotoAction.validate_url] *)
Definition validate_url (v : string) : result string :=
  if negb (startswith v "http://" || startswith v "https://")
  then value_error "URL must start with http:// or https://"
  else Ok v.

(** the character class [[\w\-. ]] *)
Definition filename_char (c : ascii) : bool :=
  is_word c || Ascii.eqb c "-" || Ascii.eqb c "." || Ascii.eqb c " ".

(** [^[\w\-. ]+$] *)
Definition filename_pattern : regex := Seq (Plus true (Cls filename_char)) Eol.

(** [ScreenshotAction.validate_filename] *)
Definition validate_filename (v : string) : result string :=
  let v := if negb (endswith v ".png") then v +:+ ".png" else v in
  match re_match false filename_pattern v with
  | None => value_error "Filename contains invalid characters"
  | Some _ => Ok v
  end.

Section Validation.
(** [date.fromisoformat] of the standard library *)
Variable fromisoformat : string -> result Z.

(** [BookFlightAction.validate_date] *)
Definition validate_date (v : string) : result string :=
  match fromisoformat v with
  | Ok _ => Ok v
  | Raise _ => value_error "Date must be in YYYY-MM-DD format"
  end.

Definition make_goto (data : gmap string pyval) : result Action :=
  v ← str_field data "value"; url ← validate_url v; Ok (GotoAction url).

Definition make_fill (data : gmap string pyval) : result Action :=
  sel ← str_field data "selector"; v ← str_field data "value"; Ok (FillAction sel v).

Definition make_click (data : gmap string pyval) : result Action :=
  sel ← str_field data "selector"; Ok (ClickAction sel).

Definition make_press (data : gmap string pyval) : result Action :=
  sel ← str_field data "selector"; key ← str_field data "key"; Ok (PressAction sel key).

Definition make_click_result (data : gmap string pyval) : result Action :=
  Ok ClickResultAction.

Definition make_screenshot (data : gmap string pyval) : result Action :=
  v ← str_field data "filename"; f ← validate_filename v; Ok (ScreenshotAction f).

Definition make_book_flight (data : gmap string pyval) : result Action :=
  from_ ← str_field data "from";
  to ← str_field data "to";
  v ← str_field data "date";
  date ← validate_date v;
  Ok (BookFlightAction from_ to date).

(** [timeout: int = Field(1000, ...)] *)
Definition make_wait (data : gmap string pyval) : result Action :=
  match data !! "timeout" with
  | None => Ok (WaitAction 1000)
  | Some (PInt n) => Ok (WaitAction n)
  | Some _ => value_error "timeout: int type expected"
  end.

Definition action_models : list (string * (gmap string pyval -> result Action)) :=
  [ ("goto", make_goto);
    ("fill", make_fill);
    ("click", make_click);
    ("press", make_press);
    ("click_result", make_click_result);
    ("screenshot", make_screenshot);
    ("book_flight", make_book_flight);
    ("wait", make_wait) ].

Definition show_index (i : nat) : string :=
  DecimalString.NilEmpty.string_of_uint (Nat.to_uint i).

(** the body of the loop of [validate_actions] for the dict at index [i] *)
Definition validate_action (i : nat) (action_data : gmap string pyval) : result Action :=
  match action_data !! "action" with
  | None => value_error ("Action at index " +:+ show_index i +:+ " missing 'action' field")
  | Some tag =>
      if negb (truthy tag)
      then value_error ("Action at index " +:+ show_index i +:+ " missing 'action' field")
      else
        match tag with
        | PStr action_type =>
            match table_get action_models action_type with
            | None =>
                value_error ("Unknown action type '" +:+ action_type
                             +:+ "' at index " +:+ show_index i)
            | Some model =>
                match model action_data with
                | Ok validated => Ok validated
                | Raise e =>
                    value_error ("Invalid " +:+ action_type +:+ " action at index "
                                 +:+ show_index i +:+ ": " +:+ exn_msg e)
                end
            end
        | _ => value_error ("Unknown action type at index " +:+ show_index i)
        end
  end.

Fixpoint validate_from (i : nat) (actions_data : list (gmap string pyval))
  : result (list Action) :=
  match actions_data with
  | [] => Ok []
  | action_data :: rest =>
      validated ← validate_action i action_data;
      more ← validate_from (S i) rest;
      Ok (validated :: more)
  end.

(** [validate_actions]: the validated models, or the [ValueError] of the
    first invalid dict *)
Definition validate_actions (actions_data : list (gmap string pyval))
  : result (list Action) :=
  validate_from O actions_data.

End Validation.

End Models.

(* ===================================================================== *)
(** * [Automation/browser_executor.py]                                    *)
(* ===================================================================== *)

Module Executor.
Import PyStr Py Models.

(** What the executor prints, as structured lines. *)
Inductive event : Type :=
| EInvalidPlan (e : exn)            (* "Invalid action plan: ..." *)
| EInitializing                     (* "Initializing Playwright..." *)
| ELaunched                         (* "Browser launched successfully!" *)
| ELaunchError (e : exn)            (* "Error launching browser: ..." *)
| EStart (a : Action)               (* first line of an action's branch *)
| ENote (msg : string) (e : exn)    (* notes of inner handlers *)
| ESaved (path : string)            (* "Saved screenshot to ..." *)
| EFlightDone (ok : bool)           (* search completed / completed with warnings *)
| EError (a : Action) (e : exn)     (* "Error executing {action}: ..." *)
| ECompleted                        (* "Actions completed! Press Enter ..." *)
| ECloseNote (e : exn).             (* "Note: Browser closing: ..." *)

(** The external collaborators of the executor: the Playwright session
    over a browser state [B], the process environment, and the two
    composite routines that this module only calls.  Every primitive may
    raise, and may change the browser even when it does. *)
Class Session (B : Type) : Type := {
  (* lines 40-48: the profile directory chosen from the environment *)
  profile_dir : result string;
  launch_persistent_context : string -> result B;
  new_page : B -> result unit * B;
  page_goto : string -> B -> result unit * B;
  wait_for_load_state : string -> B -> result unit * B;
  wait_for_selector : string -> Z -> B -> result unit * B;
  wait_for_timeout : Z -> B -> result unit * B;
  is_visible : string -> B -> result bool * B;
  expect_visible : string -> B -> result unit * B;
  locator_click : string -> B -> result unit * B;
  locator_fill : string -> string -> B -> result unit * B;
  locator_press : string -> string -> B -> result unit * B;
  (* the call [page.url()] *)
  page_url : B -> result string * B;
  (* lines 118-236: the search for a first non-ad video to click *)
  youtube_click_video : B -> result unit * B;
  makedirs : string -> B -> result unit * B;
  page_screenshot : string -> B -> result unit * B;
  (* [FlightBookingHandler.handle_booking], which catches every exception *)
  handle_booking : string -> string -> string -> B -> bool * B;
  (* [input()] *)
  wait_for_enter : B -> result unit * B;
  context_close : B -> result unit * B
}.

Section Run.
Context {B : Type} `{Session B}.
Variable fromisoformat : string -> result Z.

(** a step of the executor: its result, the browser afterwards, and the
    lines it printed *)
Definition M (A : Type) : Type := B -> result A * B * list event.

#[global] Instance M_ret : MRet M := fun A a b => (Ok a, b, []).
#[global] Instance M_bind : MBind M := fun A C f m b =>
  match m b with
  | (Ok a, b', l1) => let '(r, b'', l2) := f a b' in (r, b'', l1 ++ l2)
  | (Raise e, b', l1) => (Raise e, b', l1)
  end.

Definition lift {A : Type} (op : B -> result A * B) : M A :=
  fun b => let '(r, b') := op b in (r, b', []).

Definition emit (e : event) : M unit := fun b => (Ok tt, b, [e]).

Definition raise {A : Type} (e : exn) : M A := fun b => (Raise e, b, []).

(** [try: m except Exception as e: h e] *)
Definition try_except {A : Type} (m : M A) (h : exn -> M A) : M A := fun b =>
  match m b with
  | (Ok a, b', l1) => (Ok a, b', l1)
  | (Raise e, b', l1) => let '(r, b'', l2) := h e b' in (r, b'', l1 ++ l2)
  end.

(** [for selector in selectors: try: wait_for_selector(...); break
     except Exception: continue] *)
Fixpoint first_selector (selectors : list string) : M unit :=
  match selectors with
  | [] => mret tt
  | sel :: rest =>
      try_except (lift (wait_for_selector sel 3000)) (fun _ => first_selector rest)
  end.

(** the selector [button:has-text("Accept all")] *)
Definition consent_button : string :=
  "button:has-text(" +:+ dq +:+ "Accept all" +:+ dq +:+ ")".

(** lines 81-105: consent handling after loading a YouTube page *)
Definition youtube_settle (value : string) : M unit :=
  try_except
    (lift (wait_for_load_state "domcontentloaded");;
     lift (wait_for_load_state "networkidle");;
     try_except
       (visible ← lift (is_visible consent_button);
        if visible : bool
        then lift (locator_click consent_button);;
             lift (wait_for_timeout 1000)
        else mret tt)
       (fun _ => mret tt);;
     if String.eqb value "https://www.youtube.com"
     then first_selector ["input#search"; "input[name=" +:+ dq +:+ "search_query" +:+ dq +:+ "]"]
     else mret tt)
    (fun e => emit (ENote "YouTube page handling" e)).

(** the body of the loop of [execute_actions] for one action *)
Definition run_action (action : Action) : M unit :=
  match action with
  | GotoAction value =>
      emit (EStart action);;
      lift (page_goto value);;
      if contains value "youtube.com" then youtube_settle value else mret tt
  | FillAction selector value =>
      emit (EStart action);;
      lift (expect_visible selector);;
      lift (locator_fill selector value)
  | ClickAction selector =>
      emit (EStart action);;
      url ← lift page_url;
      if contains url "youtube.com"
         && (contains selector "ytd-video-renderer" || contains selector "video-title")
      then
        try_except (lift youtube_click_video)
          (fun e => emit (ENote "Failed to click YouTube video" e);; raise e)
      else
        lift (expect_visible selector);;
        lift (locator_click selector)
  | PressAction selector key =>
      emit (EStart action);;
      lift (expect_visible selector);;
      lift (locator_press selector key)
  | ClickResultAction =>
      emit (EStart action);;
      lift (wait_for_selector "div.g a" 10000);;
      lift (locator_click "div.g a")
  | ScreenshotAction filename =>
      emit (EStart action);;
      lift (makedirs "screenshots");;
      let filepath := "screenshots/" +:+ filename in
      lift (page_screenshot filepath);;
      emit (ESaved filepath)
  | BookFlightAction from_ to date =>
      emit (EStart action);;
      ok ← lift (fun b => let '(r, b') := handle_booking from_ to date b in (Ok r, b'));
      emit (EFlightDone ok)
  | WaitAction timeout =>
      emit (EStart action);;
      lift (wait_for_timeout timeout)
  end.

(** [for action in actions: try: ... except Exception as e: print(...)] *)
Fixpoint run_plan (actions : list Action) : M unit :=
  match actions with
  | [] => mret tt
  | action :: rest =>
      try_except (run_action action) (fun e => emit (EError action e));;
      run_plan rest
  end.

(** What a call of [execute_actions] comes to: how it ended, what it
    printed, and the browser it leaves behind ([None] when no browser was
    ever launched). *)
Record run : Type := Run {
  outcome : result unit;
  printed : list event;
  browser : option B
}.

Definition execute_actions (actions_data : list (gmap string pyval)) : run :=
  match validate_actions fromisoformat actions_data with
  | Raise e =>
      if is_ValueError e then Run (Ok tt) [EInvalidPlan e] None
      else Run (Raise e) [] None
  | Ok actions =>
      match profile_dir with
      | Raise e => Run (Raise e) [EInitializing] None
      | Ok user_data_dir =>
          match launch_persistent_context user_data_dir with
          | Raise e => Run (Raise e) [EInitializing; ELaunchError e] None
          | Ok b0 =>
              match new_page b0 with
              | (Raise e, b1) => Run (Raise e) [EInitializing; ELaunched] (Some b1)
              | (Ok _, b1) =>
                  let '(r, b2, l) :=
                    (run_plan actions;; emit ECompleted;; lift wait_for_enter) b1 in
                  (* finally: close the context, noting a failure to do so *)
                  let '(rc, b3) := context_close b2 in
                  Run r
                      ([EInitializing; ELaunched] ++ l ++
                       match rc with Ok _ => [] | Raise e => [ECloseNote e] end)
                      (Some b3)
              end
          end
      end
  end.

(** the actions whose branch was entered, in the order of the output *)
Definition attempted (l : list event) : list Action :=
  omap (fun e => match e with EStart a => Some a | _ => None end) l.

(** a step that enters no action branch *)
Definition quiet {A : Type} (m : M A) : Prop :=
  forall b, attempted (m b).2 = [].

End Run.

End Executor.

(* ===================================================================== *)
(** * [Automation/make_my_trip.py]: the city stages of the flight flow    *)
(* ===================================================================== *)

Module Flights.
Import PyStr Py.

(** One [role="option"] element of the suggestion list, as the stage
    observes it: whether it is visible, its text content, and whether a
    click on it goes through. *)
Record suggestion : Type := Suggestion {
  opt_visible : bool;
  opt_text : option string;
  opt_clickable : bool
}.

(** The awaited calls of a city stage, other than those on the input and
    on the options.  Each of them may raise.  The lines are those of the
    departure stage; the destination stage has the same calls at lines
    352 to 418. *)
Inductive await : Type :=
| NotFoundShot     (* 240: the screenshot taken when no locator found the input *)
| SettlePause      (* 260: wait_for_timeout(500) after typing *)
| FallbackPause    (* 282: wait_for_timeout(1000) after the click on the first option *)
| UiPause          (* 285: wait_for_timeout(1000) before the value is checked *)
| ValueCheck       (* 286-292: the value of the input matches the city or, if
                      not, can at least be read *)
| RecoveryShot     (* 297: the screenshot of the handler *)
| RecoveryEnter    (* 299: keyboard.press('Enter') *)
| RecoveryPause    (* 300: wait_for_timeout(1000) *)
| ErrorShot.       (* 306: the screenshot taken before the exception is raised again *)

(** The page as a city stage finds it. *)
Record city_page : Type := CityPage {
  (* one of the three locator strategies yields a visible, enabled input *)
  input_found : bool;
  (* scrolling to, clicking, clearing and typing into the input succeed *)
  input_typable : bool;
  (* the network settles within 5 s after typing *)
  network_idle : bool;
  (* the listbox related to the input is visible *)
  listbox_visible : bool;
  options : list suggestion;
  (* whether an awaited call returns instead of raising *)
  returns : await -> bool
}.

(** interactions of the stage with the page *)
Inductive interaction : Type :=
| TypeCity (city : string)
| ClickOption (i : nat)
| PressEnter
| Pause (ms : Z)
| Shot (path : string).

(** the four patterns of [_select_city_from_suggestions];
    [city_lower.split()[0]] raises [IndexError] on a blank city *)
Definition city_patterns (city_name : string) : result (list string) :=
  let city_lower := strip (lower city_name) in
  match first_word city_lower with
  | None => Raise (Exn IndexError "list index out of range")
  | Some w =>
      Ok [ city_lower;
           strip (split_head "," city_lower);
           strip (split_head "(" city_lower);
           w ]
  end.

(** [any(pattern and pattern in text_lower for pattern in patterns)] *)
Definition matches_any (patterns : list string) (text_lower : string) : bool :=
  existsb (fun pattern => negb (String.eqb pattern EmptyString) && contains text_lower pattern)
          patterns.

(** the loop over the options, [i] being the index of the head of [opts] *)
Fixpoint scan_options (patterns : list string) (i : nat) (opts : list suggestion)
  : bool * list interaction :=
  match opts with
  | [] => (false, [])
  | option :: rest =>
      if negb (opt_visible option) then scan_options patterns (S i) rest
      else
        match opt_text option with
        | None => scan_options patterns (S i) rest
        | Some text =>
            if String.eqb text EmptyString then scan_options patterns (S i) rest
            else if matches_any patterns (lower (strip text)) then
              if opt_clickable option then (true, [ClickOption i; Pause 500])
              else
                (* the click raised: on to the next option *)
                let '(found, l) := scan_options patterns (S i) rest in
                (found, ClickOption i :: l)
            else scan_options patterns (S i) rest
        end
  end.

(** [_select_city_from_suggestions]: only the first ten options are
    looked at; any exception of the body answers [False] *)
Definition select_city_from_suggestions (city_name : string) (opts : list suggestion)
  : bool * list interaction :=
  match city_patterns city_name with
  | Raise _ => (false, [])
  | Ok patterns => scan_options patterns O (firstn 10 opts)
  end.

(** A run of a stage: its result and the interactions with the page that
    were begun, in order.  An interaction that raises is recorded too. *)
Definition stage_run (A : Type) : Type := result A * list interaction.

#[global] Instance stage_ret : MRet stage_run := fun A a => (Ok a, []).
#[global] Instance stage_bind : MBind stage_run := fun A C f m =>
  match m with
  | (Ok a, l) => let '(r, l') := f a in (r, l ++ l')
  | (Raise e, l) => (Raise e, l)
  end.

Definition session_error (what : string) : exn := Exn SessionError what.

(** an awaited interaction: it raises [e] unless it goes through *)
Definition attempt (ok : bool) (i : interaction) (e : exn) : stage_run unit :=
  (if ok then Ok tt else Raise e, [i]).

(** an awaited observation, which leaves the page as it is *)
Definition observe (ok : bool) (e : exn) : stage_run unit :=
  (if ok then Ok tt else Raise e, []).

Definition stage_raise {A : Type} (e : exn) : stage_run A := (Raise e, []).

(** [try: m except Exception as e: h e] *)
Definition stage_try {A : Type} (m : stage_run A) (h : exn -> stage_run A) : stage_run A :=
  match m with
  | (Ok a, l) => (Ok a, l)
  | (Raise e, l) => let '(r, l') := h e in (r, l ++ l')
  end.

(** the [try] block that handles the suggestions (lines 265-292 for the
    departure, 377-404 for the destination) *)
Definition choose_suggestion (pg : city_page) (city : string) : stage_run unit :=
  match listbox_visible pg, options pg with
  | true, first_option :: _ =>
      observe (opt_visible first_option) (session_error "option not visible") ;;
      city_found ← ((let '(found, l) := select_city_from_suggestions city (options pg) in
                     (Ok found, l)) : stage_run bool);
      (if city_found : bool
       then (mret tt : stage_run unit)
       else
         attempt (opt_clickable first_option) (ClickOption 0) (session_error "click failed") ;;
         attempt (returns pg FallbackPause) (Pause 1000) (session_error "page closed")) ;;
      attempt (returns pg UiPause) (Pause 1000) (session_error "page closed") ;;
      observe (returns pg ValueCheck) (session_error "input value not readable")
  | _, _ => stage_raise (session_error "suggestions not visible")
  end.

(** the handler of that block (lines 294-300, 406-412) *)
Definition recover (field : string) (pg : city_page) : stage_run unit :=
  attempt (returns pg RecoveryShot) (Shot ("no_suggestions_" +:+ field +:+ ".png"))
          (session_error "screenshot failed") ;;
  attempt (returns pg RecoveryEnter) PressEnter (session_error "key press failed") ;;
  attempt (returns pg RecoveryPause) (Pause 1000) (session_error "page closed").

(** [_set_departure_city] and [_set_destination_city], which differ only
    in the label they look for and in the names of their screenshots.  The
    outer handler takes a screenshot and raises the exception again; an
    exception of that screenshot takes its place. *)
Definition set_city (field : string) (pg : city_page) (city : string) : stage_run bool :=
  stage_try
    ((if input_found pg
      then (mret tt : stage_run unit)
      else
        attempt (returns pg NotFoundShot) (Shot (field +:+ "_input_not_found.png"))
                (session_error "screenshot failed") ;;
        stage_raise (Exn PlainException ("Could not find " +:+ field +:+ " city input field"))) ;;
     observe (input_typable pg) (session_error "input not actionable") ;;
     attempt (network_idle pg) (TypeCity city) (session_error "Timeout 5000ms exceeded") ;;
     attempt (returns pg SettlePause) (Pause 500) (session_error "page closed") ;;
     stage_try (choose_suggestion pg city) (fun _ => recover field pg) ;;
     mret true)
    (fun e =>
       attempt (returns pg ErrorShot) (Shot (field +:+ "_error.png"))
               (session_error "screenshot failed") ;;
       stage_raise e).

Definition set_departure_city : city_page -> string -> stage_run bool :=
  set_city "departure".
Definition set_destination_city : city_page -> string -> stage_run bool :=
  set_city "destination".

End Flights.

(* ===================================================================== *)
(** * Concrete collaborators                                              *)
(* ===================================================================== *)

(** Executable stand-ins for the library functions and for the browser,
    on which the statements below are run. *)
Module Reference.
Import PyStr Re Py PyDate Models Executor.

Definition in_range (lo hi : N) (c : ascii) : bool :=
  ((lo <=? code c) && (code c <=? hi))%N.

Definition month_names : list string :=
  [ "january"; "february"; "march"; "april"; "may"; "june"; "july";
    "august"; "september"; "october"; "november"; "december" ].

Definition month_abbrs : list string := map (str_take 3) month_names.

(** the pattern of a [strptime] directive; groups: 1 day, 2 month,
    3 year, 4 month name, 5 abbreviated month name *)
Definition directive (d : ascii) : option regex :=
  if Ascii.eqb d "d" then
    Some (Grp 1 (Alts [ Seq (Lit "3") (Cls (in_range 48 49));
                        Seq (Cls (in_range 49 50)) Digit;
                        Seq (Lit "0") (Cls (in_range 49 57));
                        Cls (in_range 49 57);
                        Seq (Lit " ") (Cls (in_range 49 57)) ]))
  else if Ascii.eqb d "m" then
    Some (Grp 2 (Alts [ Seq (Lit "1") (Cls (in_range 48 50));
                        Seq (Lit "0") (Cls (in_range 49 57));
                        Cls (in_range 49 57) ]))
  else if Ascii.eqb d "Y" then Some (Grp 3 (Seqs [Digit; Digit; Digit; Digit]))
  else if Ascii.eqb d "B" then Some (Grp 4 (Alts (map Str month_names)))
  else if Ascii.eqb d "b" then Some (Grp 5 (Alts (map Str month_abbrs)))
  else None.

(** the pattern of a format: directives are replaced by their patterns,
    a run of whitespace by [\s+], anything else stands for itself *)
Fixpoint format_regex (in_space : bool) (fmt : string) : option regex :=
  match fmt with
  | EmptyString => Some Eps
  | String c rest =>
      if Ascii.eqb c "%" then
        match rest with
        | String d rest' =>
            r ← directive d; r' ← format_regex false rest'; Some (Seq r r')
        | EmptyString => None
        end
      else if is_space c then
        r' ← format_regex true rest; Some (if in_space then r' else Seq Sp1 r')
      else r' ← format_regex false rest; Some (Seq (Lit c) r')
  end.

Fixpoint index_of (x : string) (l : list string) (i : Z) : option Z :=
  match l with
  | [] => None
  | y :: l' => if String.eqb x y then Some i else index_of x l' (i + 1)
  end.

(** [datetime.strptime] in the C locale for the directives
    [%Y %m %d %B %b]: the text must match the format's pattern as a
    whole and name a date of the calendar *)
Definition strptime (data_string fmt : string) : result Z :=
  match format_regex false fmt with
  | None => value_error "bad directive in format"
  | Some r =>
      match re_match true (Seq r (Grp 9 (Star true (Cls (fun _ => true))))) data_string with
      | None => value_error "time data does not match format"
      | Some m =>
          if negb (String.eqb (default EmptyString (group m 9)) EmptyString)
          then value_error "unconverted data remains"
          else
            let year := from_option int_of_digits 1900 (group m 3) in
            let day := from_option (fun s => int_of_digits (strip s)) 1 (group m 1) in
            let month :=
              match group m 2, group m 4, group m 5 with
              | Some s, _, _ => int_of_digits s
              | None, Some s, _ => default 1 (index_of (lower s) month_names 1)
              | None, None, Some s => default 1 (index_of (lower s) month_abbrs 1)
              | None, None, None => 1
              end in
            if (1 <=? year) && (1 <=? day) && (day <=? days_in_month year month)
            then Ok (ymd2ord year month day)
            else value_error "day is out of range for month"
      end
  end.

(** [date.fromisoformat] on the form [YYYY-MM-DD] *)
Definition fromisoformat (s : string) : result Z :=
  if (String.length s =? 10)%nat then strptime s "%Y-%m-%d"
  else value_error "Invalid isoformat string".

(** A simulated browser: the address of the page shown and the files
    written so far.  Only [h1] and [p] elements can be seen. *)
Record sim : Type := Sim { sim_url : string; sim_files : list string }.

Definition sim_ok (b : sim) : result unit * sim := (Ok tt, b).

Definition sim_sees (selector : string) : bool :=
  String.eqb selector "h1" || String.eqb selector "p".

Definition sim_expect (selector : string) (b : sim) : result unit * sim :=
  if sim_sees selector then (Ok tt, b)
  else (Raise (Exn SessionError "Timeout 10000ms exceeded"), b).

#[global] Instance sim_session : Session sim := {|
  profile_dir := Ok "browser_profiles/temp_profile";
  launch_persistent_context := fun _ => Ok (Sim "about:blank" []);
  new_page := sim_ok;
  page_goto := fun url b => (Ok tt, Sim url (sim_files b));
  wait_for_load_state := fun _ => sim_ok;
  wait_for_selector := fun sel _ => sim_expect sel;
  wait_for_timeout := fun _ => sim_ok;
  is_visible := fun sel b => (Ok (sim_sees sel), b);
  expect_visible := sim_expect;
  locator_click := fun _ => sim_ok;
  locator_fill := fun _ _ => sim_ok;
  locator_press := fun _ _ => sim_ok;
  page_url := fun b => (Ok (sim_url b), b);
  youtube_click_video := fun b => (Raise (Exn PlainException "YouTube search results not found"), b);
  makedirs := fun _ => sim_ok;
  page_screenshot := fun path b => (Ok tt, Sim (sim_url b) (sim_files b ++ [path]));
  handle_booking := fun _ _ _ b => (false, b);
  wait_for_enter := sim_ok;
  context_close := sim_ok
|}.

End Reference.

(* ===================================================================== *)
(** * Properties                                                          *)
(* ===================================================================== *)

Import PyStr Re Py PyDate Config Handlers Parser Models Executor Flights.

(** ** Strings *)

Section StringFacts.

Lemma startswith_refl_app (p rest : string) : startswith (p +:+ rest) p = true.
Proof.
  induction p as [|c p IH]; simpl.
  - now destruct rest.
  - now rewrite Ascii.eqb_refl, IH.
Qed.

Lemma endswith_app (v suf : string) : endswith (v +:+ suf) suf = true.
Proof.
  induction v as [|c v IH]; simpl.
  - destruct suf; simpl; [reflexivity|].
    now rewrite Ascii.eqb_refl, String.eqb_refl.
  - rewrite IH. apply orb_true_r.
Qed.

(** the characters of an occurrence that was just replaced are skipped *)
Lemma replace_from_skip (old new x rest : string) :
  replace_from old new (String.length x) (x +:+ rest) = replace_from old new O rest.
Proof.
  induction x as [|c x IH]; simpl.
  - destruct rest; reflexivity.
  - exact IH.
Qed.

(** [str.replace] deletes the first occurrence of [old], whatever stands
    next to it, and goes on after it *)
Lemma replace_first_occurrence (old pre post : string) :
  old <> EmptyString ->
  (forall i, (i < String.length pre)%nat ->
             startswith (str_drop i (pre +:+ old +:+ post)) old = false) ->
  replace (pre +:+ old +:+ post) old EmptyString
  = pre +:+ replace post old EmptyString.
Proof.
  unfold replace. intros Hne.
  induction pre as [|c pre IH]; intros Hfirst.
  - destruct old as [|a old']; [congruence|].
    change (EmptyString +:+ String a old' +:+ post) with (String a (old' +:+ post)).
    cbn [replace_from].
    change (String a (old' +:+ post)) with (String a old' +:+ post).
    rewrite startswith_refl_app.
    cbn [String.length Nat.pred]. rewrite replace_from_skip. reflexivity.
  - change (String c pre +:+ old +:+ post) with (String c (pre +:+ old +:+ post)).
    cbn [replace_from].
    pose proof (Hfirst O ltac:(simpl; lia)) as H0. cbn [str_drop] in H0.
    change (String c pre +:+ old +:+ post) with (String c (pre +:+ old +:+ post)) in H0.
    rewrite H0.
    change (String c pre +:+ replace_from old EmptyString 0 post)
      with (String c (pre +:+ replace_from old EmptyString 0 post)).
    f_equal. apply IH.
    intros i Hi. apply (Hfirst (S i)). simpl. lia.
Qed.

End StringFacts.

(** the primitives on the cases the sources rely on *)
Example string_primitives :
  replace "visit openai.com" "open" EmptyString = "visit ai.com"
  /\ replace "opopenen" "open" EmptyString = "open"
  /\ strip "  new   york " = "new   york"
  /\ lower "Next Monday" = "next monday"
  /\ split_head "," "paris, france" = "paris"
  /\ first_word "  new york" = Some "new"
  /\ first_word "   " = None
  /\ contains "find flights" "find flight" = true
  /\ endswith "shot.png" ".png" = true
  /\ endswith "shot.png.bak" ".png" = false.
Proof. repeat split; reflexivity. Qed.

(** ** The matcher: the fuel of a repetition never runs out *)

Section MatcherFacts.

Lemma star_loop_ext (m1 : matcher) (greedy : bool) k1 k2 :
  extensional m1 ->
  (forall s caps, k1 s caps = k2 s caps) ->
  forall fuel s caps,
    star_loop m1 greedy k1 fuel s caps = star_loop m1 greedy k2 fuel s caps.
Proof.
  intros Hext Hk. induction fuel as [|fuel IH]; intros s caps; cbn [star_loop].
  - apply Hk.
  - rewrite (Hk s caps).
    rewrite (Hext s caps _
               (fun s' caps' =>
                  if (String.length s' <? String.length s)%nat
                  then star_loop m1 greedy k2 fuel s' caps' else None)); [reflexivity|].
    intros s' caps'. destruct (String.length s' <? String.length s)%nat; [apply IH|reflexivity].
Qed.

Lemma star_loop_strict (m1 : matcher) (greedy : bool) k :
  strict m1 ->
  (forall s caps, k s caps = None) ->
  forall fuel s caps, star_loop m1 greedy k fuel s caps = None.
Proof.
  intros Hstrict Hk. induction fuel as [|fuel IH]; intros s caps; cbn [star_loop].
  - apply Hk.
  - rewrite (Hk s caps), Hstrict; [now destruct greedy|].
    intros s' caps'. destruct (String.length s' <? String.length s)%nat; [apply IH|reflexivity].
Qed.

Lemma rmatch_ext (ic : bool) (r : regex) : extensional (rmatch ic r).
Proof.
  induction r as [| c | | p | r1 IH1 r2 IH2 | r1 IH1 r2 IH2 | greedy r1 IH1 | n r1 IH1 |];
    intros s caps k1 k2 Hk; cbn [rmatch].
  - apply Hk.
  - destruct s as [|c' s']; [reflexivity|]. destruct (char_eq ic c c'); [apply Hk|reflexivity].
  - destruct s as [|c' s']; [reflexivity|]. destruct (Ascii.eqb c' "010"); [reflexivity|apply Hk].
  - destruct s as [|c' s']; [reflexivity|]. destruct (p c'); [apply Hk|reflexivity].
  - apply IH1. intros s' caps'. apply IH2, Hk.
  - rewrite (IH1 s caps k1 k2 Hk), (IH2 s caps k1 k2 Hk). reflexivity.
  - apply star_loop_ext; assumption.
  - apply IH1. intros s' caps'. apply Hk.
  - destruct s as [|c [|c' s']]; [apply Hk | | reflexivity].
    destruct (Ascii.eqb c "010"); [apply Hk|reflexivity].
Qed.

Lemma rmatch_strict (ic : bool) (r : regex) : strict (rmatch ic r).
Proof.
  induction r as [| c | | p | r1 IH1 r2 IH2 | r1 IH1 r2 IH2 | greedy r1 IH1 | n r1 IH1 |];
    intros s caps k Hk; cbn [rmatch].
  - apply Hk.
  - destruct s as [|c' s']; [reflexivity|]. destruct (char_eq ic c c'); [apply Hk|reflexivity].
  - destruct s as [|c' s']; [reflexivity|]. destruct (Ascii.eqb c' "010"); [reflexivity|apply Hk].
  - destruct s as [|c' s']; [reflexivity|]. destruct (p c'); [apply Hk|reflexivity].
  - apply IH1. intros s' caps'. apply IH2, Hk.
  - rewrite (IH1 s caps k Hk), (IH2 s caps k Hk). reflexivity.
  - apply star_loop_strict; assumption.
  - apply IH1. intros s' caps'. apply Hk.
  - destruct s as [|c [|c' s']]; [apply Hk | | reflexivity].
    destruct (Ascii.eqb c "010"); [apply Hk|reflexivity].
Qed.

(** any two amounts of fuel that cover the text give the same answer *)
Lemma star_loop_fuel (m1 : matcher) (greedy : bool) k :
  extensional m1 -> strict m1 ->
  forall n s, (String.length s <= n)%nat ->
  forall f1 f2 caps,
    (String.length s <= f1)%nat -> (String.length s <= f2)%nat ->
    star_loop m1 greedy k f1 s caps = star_loop m1 greedy k f2 s caps.
Proof.
  intros Hext Hstrict. induction n as [|n IH]; intros s Hn f1 f2 caps H1 H2.
  - (* the text is empty: no iteration can consume anything *)
    assert (Hstop : forall f, star_loop m1 greedy k f s caps = k s caps).
    { intros [|f]; cbn [star_loop]; [reflexivity|].
      rewrite Hstrict; [now destruct greedy, (k s caps)|].
      intros s' caps'.
      destruct (Nat.ltb_spec (String.length s') (String.length s)); [lia|reflexivity]. }
    now rewrite !Hstop.
  - destruct f1 as [|f1], f2 as [|f2]; cbn [star_loop].
    + reflexivity.
    + apply (IH s ltac:(lia) O (S f2) caps); lia.
    + apply (IH s ltac:(lia) (S f1) O caps); lia.
    + rewrite (Hext s caps _
                 (fun s' caps' =>
                    if (String.length s' <? String.length s)%nat
                    then star_loop m1 greedy k f2 s' caps' else None)); [reflexivity|].
      intros s' caps'.
      destruct (Nat.ltb_spec (String.length s') (String.length s)); [|reflexivity].
      apply IH; lia.
Qed.

(** the repetition [r*] or [r*?] with any fuel that covers the text *)
Lemma star_fuel_enough (ic greedy : bool) (r : regex) k (fuel : nat) s caps :
  (String.length s <= fuel)%nat ->
  star_loop (rmatch ic r) greedy k fuel s caps = rmatch ic (Star greedy r) s caps k.
Proof.
  intros Hfuel. cbn [rmatch].
  apply (star_loop_fuel _ _ _ (rmatch_ext ic r) (rmatch_strict ic r) fuel s Hfuel); lia.
Qed.

End MatcherFacts.

(** ** Intent detection *)

(** the booking phrases of [ACTION_KEYWORDS] *)
Lemma booking_keywords :
  keywords "book_flight"
  = ["book flight"; "book a flight"; "search flight"; "find flight"; "fly from"].
Proof. reflexivity. Qed.

(** C1: a command that contains one of the booking phrases is classified
    as book_flight, whatever else it contains (search or navigation words
    included): the booking test comes first. *)
Theorem booking_phrase_wins (command kw : string) :
  In kw ["book flight"; "book a flight"; "search flight"; "find flight"; "fly from"] ->
  contains command kw = true ->
  detect_intent command = (Some "book_flight", ∅).
Proof.
  intros Hin Hkw. unfold detect_intent.
  replace (any_in command (keywords "book_flight")) with true; [reflexivity|].
  symmetry. unfold any_in. apply existsb_exists.
  exists kw. rewrite booking_keywords. split; assumption.
Qed.

Lemma booking_phrase_wins_witness :
  (contains "find flight deals, then open google and search" "find flight" = true
   /\ any_in "find flight deals, then open google and search" (keywords "search") = true
   /\ any_in "find flight deals, then open google and search" (keywords "navigate") = true)
  /\ detect_intent "find flight deals, then open google and search" = (Some "book_flight", ∅).
Proof.
  split; [repeat split; reflexivity|].
  apply (booking_phrase_wins _ "find flight"); [simpl; tauto | reflexivity].
Defined.

(** commands of the parser's own test list *)
Example detect_intent_samples :
  detect_intent "go to github.com" = (Some "navigate", {["website" := PStr "github"]})
  /\ detect_intent "search for python tutorials" = (Some "search", ∅)
  /\ detect_intent "search for flights from nyc to london tomorrow" = (Some "book_flight", ∅)
  /\ detect_intent "i want to fly from san francisco to paris on 2024-12-25"
     = (Some "book_flight", ∅)
  /\ detect_intent "take a screenshot" = (Some "screenshot", {["screenshot" := PBool true]})
  /\ detect_intent "wait 3 seconds" = (Some "wait", ∅)
  /\ detect_intent "hello there" = (None, ∅).
Proof. repeat split; vm_compute; reflexivity. Qed.

Example search_and_wait_plans :
  parse_command Reference.strptime (ymd2ord 2026 11 4) "search for python tutorials"
  = Some [ goto_action "https://www.google.com";
           dict [("action", PStr "fill"); ("selector", PStr "textarea[name='q']");
                 ("value", PStr "python tutorials")];
           dict [("action", PStr "press"); ("selector", PStr "textarea[name='q']");
                 ("key", PStr "Enter")] ]
  /\ parse_command Reference.strptime (ymd2ord 2026 11 4) "wait 3 seconds"
     = Some [dict [("action", PStr "wait"); ("timeout", PInt 3000)]]
  /\ parse_command Reference.strptime (ymd2ord 2026 11 4) "wait 300"
     = Some [dict [("action", PStr "wait"); ("timeout", PInt 300)]].
Proof. repeat split; vm_compute; reflexivity. Qed.

(** ** Schema validation *)

Section ValidationFacts.
Variable fromisoformat : string -> result Z.

(** [validate_actions] raises nothing but [ValueError] *)
Lemma validate_action_raises i data e :
  validate_action fromisoformat i data = Raise e -> is_ValueError e = true.
Proof.
  unfold validate_action, value_error. intros Hr.
  repeat case_match; simplify_eq; reflexivity.
Qed.

Lemma validate_from_raises data : forall i e,
  validate_from fromisoformat i data = Raise e -> is_ValueError e = true.
Proof.
  induction data as [|d data IH]; intros i e; simpl; [discriminate|].
  destruct (validate_action fromisoformat i d) eqn:Hd; simpl.
  - destruct (validate_from fromisoformat (S i) data) eqn:Hrest; simpl; [discriminate|].
    intros [= <-]. eauto.
  - intros [= <-]. eauto using validate_action_raises.
Qed.

(** C5: a goto dict whose value carries an http(s) scheme validates to a
    [GotoAction] with that very value; without the scheme it is rejected;
    so rejection happens exactly when the scheme is absent. *)
Theorem goto_url_kept_or_rejected (data : gmap string pyval) (url : string) :
  data !! "action" = Some (PStr "goto") ->
  data !! "value" = Some (PStr url) ->
  (startswith url "http://" || startswith url "https://" = true ->
     validate_actions fromisoformat [data] = Ok [GotoAction url])
  /\ (startswith url "http://" || startswith url "https://" = false ->
        exists e, validate_actions fromisoformat [data] = Raise e
                  /\ exn_cls e = ValueError)
  /\ ((exists e, validate_actions fromisoformat [data] = Raise e)
      <-> startswith url "http://" || startswith url "https://" = false).
Proof.
  intros Ha Hv.
  assert (Hval : validate_actions fromisoformat [data]
                 = if startswith url "http://" || startswith url "https://"
                   then Ok [GotoAction url]
                   else value_error ("Invalid goto action at index 0: "
                                     +:+ "URL must start with http:// or https://")).
  { unfold validate_actions, validate_from, validate_action. rewrite Ha.
    cbn [truthy negb String.eqb Ascii.eqb Bool.eqb].
    change (table_get (action_models fromisoformat) "goto") with (Some make_goto).
    unfold make_goto, str_field. rewrite Hv. unfold validate_url.
    cbn [mbind result_bind].
    destruct (startswith url "http://" || startswith url "https://"); reflexivity. }
  rewrite Hval.
  destruct (startswith url "http://" || startswith url "https://"); repeat split.
  - discriminate.
  - intros [e He]. discriminate.
  - discriminate.
  - discriminate.
  - intros _. eexists. split; reflexivity.
  - intros _. eexists. reflexivity.
Qed.

End ValidationFacts.

(** the cases of [tests/test_models.py] *)
Example test_models_cases :
  validate_actions Reference.fromisoformat [goto_action "https://www.google.com"]
  = Ok [GotoAction "https://www.google.com"]
  /\ validate_actions Reference.fromisoformat
       [dict [("action", PStr "screenshot"); ("filename", PStr "test")]]
     = Ok [ScreenshotAction "test.png"]
  /\ validate_actions Reference.fromisoformat
       [dict [("action", PStr "screenshot"); ("filename", PStr "test/invalid/path.png")]]
     = value_error ("Invalid screenshot action at index 0: "
                    +:+ "Filename contains invalid characters")
  /\ validate_actions Reference.fromisoformat
       [dict [("action", PStr "book_flight"); ("from", PStr "Mumbai"); ("to", PStr "Delhi");
              ("date", PStr "2025-10-28")]]
     = Ok [BookFlightAction "Mumbai" "Delhi" "2025-10-28"]
  /\ validate_actions Reference.fromisoformat
       [dict [("action", PStr "book_flight"); ("from", PStr "Mumbai"); ("to", PStr "Delhi");
              ("date", PStr "invalid-date")]]
     = value_error ("Invalid book_flight action at index 0: "
                    +:+ "Date must be in YYYY-MM-DD format")
  /\ validate_actions Reference.fromisoformat
       [dict [("action", PStr "invalid_action"); ("value", PStr "test")]]
     = value_error "Unknown action type 'invalid_action' at index 0"
  /\ validate_actions Reference.fromisoformat [dict [("action", PStr "click_result")]]
     = Ok [ClickResultAction]
  /\ validate_actions Reference.fromisoformat [dict [("action", PStr "wait")]]
     = Ok [WaitAction 1000].
Proof. repeat split; vm_compute; reflexivity. Qed.

Lemma goto_url_kept_or_rejected_witness :
  validate_actions Reference.fromisoformat [goto_action "https://x"] = Ok [GotoAction "https://x"]
  /\ exists e, validate_actions Reference.fromisoformat [goto_action "x.com"] = Raise e.
Proof.
  split.
  - apply (goto_url_kept_or_rejected Reference.fromisoformat (goto_action "https://x") "https://x");
      reflexivity.
  - apply (goto_url_kept_or_rejected Reference.fromisoformat (goto_action "x.com") "x.com");
      reflexivity.
Defined.

(** C6: filename normalisation is idempotent: "shot" and "shot.png" both
    come out as "shot.png", and validating a validated filename again gives
    it back unchanged. *)
Theorem validate_filename_idempotent :
  validate_filename "shot" = Ok "shot.png"
  /\ validate_filename "shot.png" = Ok "shot.png"
  /\ forall v w, validate_filename v = Ok w -> validate_filename w = Ok w.
Proof.
  split; [reflexivity|]. split; [reflexivity|].
  intros v w. unfold validate_filename.
  set (v' := if negb (endswith v ".png") then v +:+ ".png" else v).
  assert (Hends : endswith v' ".png" = true).
  { subst v'. destruct (endswith v ".png") eqn:E; simpl; [exact E | apply endswith_app]. }
  destruct (re_match false filename_pattern v') eqn:Hm; [|discriminate].
  intros [= <-]. rewrite Hends. simpl negb. cbv iota. rewrite Hm. reflexivity.
Qed.

Lemma validate_filename_idempotent_witness :
  validate_filename "my shot" = Ok "my shot.png"
  /\ validate_filename "my shot.png" = Ok "my shot.png".
Proof.
  split; [reflexivity|].
  apply (proj2 (proj2 validate_filename_idempotent) "my shot"). reflexivity.
Defined.

(** ** The navigate handler *)

(** C10: the navigate handler deletes its trigger phrases as raw
    substrings: an occurrence goes whatever characters surround it (no
    word boundary is looked for).  So "visit openai.com" is sent to
    "https://www.ai.com", a URL that no longer holds the domain that was
    named. *)
Theorem navigate_strips_inside_words (strptime : string -> string -> result Z) (today : Z) :
  (forall kw pre post,
      In kw ["go to"; "navigate to"; "open"; "visit"] ->
      (forall i, (i < String.length pre)%nat ->
                 startswith (str_drop i (pre +:+ kw +:+ post)) kw = false) ->
      replace (pre +:+ kw +:+ post) kw EmptyString
      = pre +:+ replace post kw EmptyString)
  /\ remove_all "visit openai.com" ["go to"; "navigate to"; "open"; "visit"] = " ai.com"
  /\ handle_navigate "visit openai.com" ∅ = Ok [goto_action "https://www.ai.com"]
  /\ parse_command strptime today "visit openai.com" = Some [goto_action "https://www.ai.com"]
  /\ contains "https://www.ai.com" "openai.com" = false.
Proof.
  split; [|repeat split; reflexivity].
  intros kw pre post Hin Hfirst. apply replace_first_occurrence; [|exact Hfirst].
  simpl in Hin. intuition (subst; discriminate).
Qed.

Lemma navigate_strips_inside_words_witness :
  replace "visit openai.com" "open" EmptyString
  = "visit " +:+ replace "ai.com" "open" EmptyString.
Proof.
  apply (proj1 (navigate_strips_inside_words Reference.strptime 739924) "open" "visit " "ai.com").
  - simpl. tauto.
  - intros i Hi. do 6 (destruct i as [|i]; [reflexivity|]). simpl in Hi. lia.
Defined.

(** ** Date normalisation *)

Section DateFacts.
Variable strptime : string -> string -> result Z.
Variable today : Z.
Hypothesis today_ok : clock_date today.

Lemma today_min : 1 <= today.
Proof. destruct today_ok as [Hlo _]. change (ymd2ord 1000 1 1) with 364878 in Hlo. lia. Qed.

Lemma today_max : today + 7 <= MAXORDINAL.
Proof. apply today_ok. Qed.

Lemma digit_char_is_digit n : is_digit (digit_char (n mod 10)) = true.
Proof.
  pose proof (Z.mod_pos_bound n 10 ltac:(lia)) as Hr.
  assert (Hcases : n mod 10 = 0 \/ n mod 10 = 1 \/ n mod 10 = 2 \/ n mod 10 = 3
                   \/ n mod 10 = 4 \/ n mod 10 = 5 \/ n mod 10 = 6 \/ n mod 10 = 7
                   \/ n mod 10 = 8 \/ n mod 10 = 9) by lia.
  repeat (destruct Hcases as [->|Hcases]; [reflexivity|]). now rewrite Hcases.
Qed.

(** [strftime] writes every date in the shape [YYYY-MM-DD] *)
Lemma strftime_ymd_shape d : iso_shape (strftime_ymd d) = true.
Proof.
  unfold strftime_ymd. destruct (ord2ymd d) as [[y m] dd].
  cbv [zpad String.append iso_shape]. rewrite !digit_char_is_digit. reflexivity.
Qed.

Lemma weekday_range d : 0 <= weekday d <= 6.
Proof. unfold weekday. pose proof (Z.mod_pos_bound (d + 6) 7). lia. Qed.

Lemma days_ahead_range idx : 0 <= idx <= 6 -> 1 <= days_ahead today idx <= 7.
Proof.
  intros Hidx. unfold days_ahead.
  pose proof (Z.mod_pos_bound (idx - weekday today + 7) 7 ltac:(lia)).
  destruct (Z.eqb_spec ((idx - weekday today + 7) mod 7) 0); lia.
Qed.

(** the day reached is the weekday that was asked for *)
Lemma weekday_days_ahead idx :
  0 <= idx <= 6 -> weekday (today + days_ahead today idx) = idx.
Proof.
  intros Hidx. unfold days_ahead, weekday.
  pose proof (Z.mod_pos_bound (today + 6) 7 ltac:(lia)) as Hw.
  pose proof (Z.div_mod (today + 6) 7 ltac:(lia)) as Hq.
  set (w := (today + 6) mod 7) in *. set (q := (today + 6) / 7) in *.
  destruct (Z_le_gt_dec w idx) as [Hle|Hgt].
  - (* the day is still to come this week, or is today *)
    replace ((idx - w + 7) mod 7) with (idx - w)
      by (apply (Z.mod_unique _ _ 1); lia).
    destruct (Z.eqb_spec (idx - w) 0) as [H0|H0].
    + symmetry. apply (Z.mod_unique _ _ (q + 1)); lia.
    + symmetry. apply (Z.mod_unique _ _ q); lia.
  - replace ((idx - w + 7) mod 7) with (idx - w + 7)
      by (apply (Z.mod_unique _ _ 0); lia).
    destruct (Z.eqb_spec (idx - w + 7) 0) as [H0|H0]; [lia|].
    symmetry. apply (Z.mod_unique _ _ (q + 1)); lia.
Qed.

Lemma days_ahead_same_day idx : weekday today = idx -> days_ahead today idx = 7.
Proof.
  intros <-. unfold days_ahead.
  replace (weekday today - weekday today + 7) with (1 * 7) by lia.
  rewrite Z.mod_mul by lia. reflexivity.
Qed.

(** two days with the same weekday are at least a week apart *)
Lemma same_weekday_gap d d' : d < d' -> weekday d = weekday d' -> d + 7 <= d'.
Proof.
  unfold weekday. intros Hlt Heq.
  pose proof (Z.div_mod (d + 6) 7 ltac:(lia)).
  pose proof (Z.div_mod (d' + 6) 7 ltac:(lia)).
  lia.
Qed.

Lemma add_days_ok n : 1 <= today + n <= MAXORDINAL -> add_days today n = Ok (today + n).
Proof.
  intros Hr. unfold add_days.
  destruct (Z.leb_spec 1 (today + n)); [|lia].
  destruct (Z.leb_spec (today + n) MAXORDINAL); [reflexivity|lia].
Qed.

Lemma find_day_weekdays prefix idx :
  find_day prefix weekdays 0 = Some idx -> 0 <= idx <= 6.
Proof.
  unfold weekdays. cbn [find_day].
  repeat (destruct (startswith _ prefix); [intros [= <-]; lia|]).
  discriminate.
Qed.

(** the [try] block on a "next <weekday>" phrase *)
Lemma parse_date_body_next (s : string) (idx : Z) :
  lower (strip s) <> "tomorrow" ->
  startswith (lower (strip s)) "next " = true ->
  find_day (str_take 3 (strip (str_drop 5 (lower (strip s))))) weekdays 0 = Some idx ->
  parse_date_body strptime today s = Ok (strftime_ymd (today + days_ahead today idx)).
Proof.
  intros Hneq Hnext Hday. pose proof today_min. pose proof today_max.
  unfold parse_date_body. cbv zeta.
  rewrite (proj2 (String.eqb_neq _ _) Hneq), Hnext, Hday.
  pose proof (days_ahead_range idx (find_day_weekdays _ _ Hday)).
  rewrite add_days_ok by lia. reflexivity.
Qed.

(** the [try] block answers with a date, or raises *)
Lemma parse_date_body_cases (s : string) :
  (exists d, parse_date_body strptime today s = Ok (strftime_ymd d))
  \/ (exists e, parse_date_body strptime today s = Raise e).
Proof.
  unfold parse_date_body. cbv zeta.
  match goal with
  | |- context [mbind _ ?m] => destruct m as [d|e] eqn:Hm
  end; [left; exists d | right; exists e]; reflexivity.
Qed.

Lemma try_formats_none date_str fmts :
  (forall fmt d, In fmt fmts -> strptime date_str fmt <> Ok d) ->
  try_formats strptime date_str fmts = Ok None
  \/ exists e, try_formats strptime date_str fmts = Raise e.
Proof.
  induction fmts as [|fmt fmts IH]; intros Hno; cbn [try_formats].
  - left; reflexivity.
  - destruct (strptime date_str fmt) as [d|e] eqn:Hp.
    + exfalso. apply (Hno fmt d); [left; reflexivity | exact Hp].
    + destruct (is_ValueError e); [|right; eauto].
      apply IH. intros f d Hin. apply Hno. right; exact Hin.
Qed.

(** "next monday" is answered with the day [days_ahead today 0] from now *)
Lemma parse_date_next_monday :
  parse_date strptime today "next monday"
  = Ok (strftime_ymd (today + days_ahead today 0)).
Proof.
  unfold parse_date.
  rewrite (parse_date_body_next "next monday" 0); [reflexivity | discriminate | reflexivity..].
Qed.

(** C3: whatever day today is, "next monday" parses to a Monday that lies
    strictly after today, and to today + 7 when today is a Monday. *)
Theorem next_monday_is_strictly_later :
  exists d,
    parse_date strptime today "next monday" = Ok (strftime_ymd d)
    /\ weekday d = 0
    /\ today < d <= today + 7
    /\ (weekday today = 0 -> d = today + 7).
Proof.
  exists (today + days_ahead today 0).
  pose proof (days_ahead_range 0 ltac:(lia)) as Hr.
  repeat split.
  - apply parse_date_next_monday.
  - apply weekday_days_ahead. lia.
  - lia.
  - lia.
  - intros Hw. now rewrite days_ahead_same_day.
Qed.

(** a date read by the loop over the formats was read by one of them *)
Lemma try_formats_some date_str fmts d :
  try_formats strptime date_str fmts = Ok (Some d) ->
  exists fmt, In fmt fmts /\ strptime date_str fmt = Ok d.
Proof.
  induction fmts as [|fmt fmts IH]; cbn [try_formats]; [discriminate|].
  destruct (strptime date_str fmt) as [d'|e] eqn:Hp.
  - intros [= <-]. exists fmt. split; [now left | exact Hp].
  - destruct (is_ValueError e); [|discriminate].
    intros H. destruct (IH H) as (f & Hin & Hf). exists f. split; [now right | exact Hf].
Qed.

(** [parse_date] always answers *)
Lemma parse_date_total (s : string) :
  exists out, parse_date strptime today s = Ok out.
Proof.
  pose proof today_min. pose proof today_max. unfold parse_date.
  destruct (parse_date_body_cases s) as [[d ->]|[e ->]]; [eauto|].
  rewrite add_days_ok by lia. eauto.
Qed.

(** when no format reads the text as a date before the year 1000, the
    answer is the rendering of a date from the year 1000 on *)
Lemma parse_date_in_range (s : string) :
  (forall fmt d, In fmt date_formats -> strptime (lower (strip s)) fmt = Ok d ->
                 ymd2ord 1000 1 1 <= d) ->
  exists d, parse_date strptime today s = Ok (strftime_ymd d) /\ ymd2ord 1000 1 1 <= d.
Proof.
  intros Hbound. pose proof today_min. pose proof today_max.
  destruct today_ok as [Hlo _].
  assert (Hweek : exists d, (d ← add_days today 7; Ok (strftime_ymd d)) = Ok (strftime_ymd d)
                            /\ ymd2ord 1000 1 1 <= d).
  { exists (today + 7). rewrite add_days_ok by lia. split; [reflexivity|lia]. }
  unfold parse_date, parse_date_body. cbv zeta.
  destruct (String.eqb (lower (strip s)) "tomorrow").
  { rewrite add_days_ok by lia. exists (today + 1). split; [reflexivity|lia]. }
  destruct (startswith (lower (strip s)) "next ").
  { destruct (find_day _ weekdays 0) as [idx|] eqn:Hday.
    - pose proof (days_ahead_range idx (find_day_weekdays _ _ Hday)).
      rewrite add_days_ok by lia. exists (today + days_ahead today idx).
      split; [reflexivity|lia].
    - rewrite add_days_ok by lia. exists (today + 7). split; [reflexivity|lia]. }
  destruct (try_formats strptime (lower (strip s)) date_formats) as [[d|]|e] eqn:Htry;
    cbn [mbind result_bind].
  - destruct (try_formats_some _ _ _ Htry) as (fmt & Hin & Hfmt).
    exists d. split; [reflexivity | exact (Hbound fmt d Hin Hfmt)].
  - rewrite add_days_ok by lia. exists (today + 7). split; [reflexivity|lia].
  - exact Hweek.
Qed.

(** C4: [parse_date] never raises, it always answers with a string; the
    string is the ISO form [YYYY-MM-DD] of a date whenever no format reads
    the text as a date before the year 1000; and a text that is not
    "tomorrow", is no recognised "next <weekday>" phrase and parses under
    none of the formats is answered with today + 7. *)
Theorem parse_date_degrades_to_a_week_ahead :
  (forall s, exists out, parse_date strptime today s = Ok out)
  /\ (forall s,
        (forall fmt d, In fmt date_formats -> strptime (lower (strip s)) fmt = Ok d ->
                       ymd2ord 1000 1 1 <= d) ->
        exists d,
          parse_date strptime today s = Ok (strftime_ymd d)
          /\ ymd2ord 1000 1 1 <= d
          /\ iso_shape (strftime_ymd d) = true)
  /\ (forall s,
        lower (strip s) <> "tomorrow" ->
        (startswith (lower (strip s)) "next " = true ->
         find_day (str_take 3 (strip (str_drop 5 (lower (strip s))))) weekdays 0 = None) ->
        (forall fmt d, In fmt date_formats -> strptime (lower (strip s)) fmt <> Ok d) ->
        parse_date strptime today s = Ok (strftime_ymd (today + 7))).
Proof.
  pose proof today_min. pose proof today_max. split; [exact parse_date_total|]. split.
  - intros s Hbound. destruct (parse_date_in_range s Hbound) as (d & Hd & Hlo).
    exists d. auto using strftime_ymd_shape.
  - intros s Hneq Hnext Hfmt. unfold parse_date.
    destruct (parse_date_body strptime today s) as [out|e] eqn:Hbody.
    + revert Hbody. unfold parse_date_body. cbv zeta.
      rewrite (proj2 (String.eqb_neq _ _) Hneq).
      destruct (startswith (lower (strip s)) "next ") eqn:Hn.
      * rewrite (Hnext eq_refl), add_days_ok by lia. now intros [= <-].
      * destruct (try_formats_none _ _ Hfmt) as [->|[e ->]]; [|discriminate].
        cbn [mbind result_bind]. rewrite add_days_ok by lia. now intros [= <-].
    + rewrite add_days_ok by lia. reflexivity.
Qed.

End DateFacts.

(** Monday 2026-11-02 is day 739922. *)
Lemma next_monday_is_strictly_later_witness :
  (clock_date 739922 /\ weekday 739922 = 0)
  /\ exists d,
       parse_date Reference.strptime 739922 "next monday" = Ok (strftime_ymd d)
       /\ weekday d = 0
       /\ 739922 < d <= 739922 + 7
       /\ (weekday 739922 = 0 -> d = 739922 + 7).
Proof.
  split; [split; [split; vm_compute; discriminate | reflexivity]|].
  apply (next_monday_is_strictly_later Reference.strptime 739922).
  split; vm_compute; discriminate.
Defined.

Example next_monday_on_a_monday :
  parse_date Reference.strptime (ymd2ord 2026 11 2) "next monday" = Ok "2026-11-09".
Proof. reflexivity. Qed.

Example next_monday_on_a_wednesday :
  parse_date Reference.strptime (ymd2ord 2026 11 4) "Next Monday" = Ok "2026-11-09".
Proof. reflexivity. Qed.

Lemma parse_date_degrades_to_a_week_ahead_witness :
  parse_date Reference.strptime 739924 "someday"
  = Ok (strftime_ymd (739924 + 7)).
Proof.
  apply (proj2 (proj2 (parse_date_degrades_to_a_week_ahead Reference.strptime 739924
                         ltac:(split; vm_compute; discriminate)))).
  - discriminate.
  - discriminate.
  - intros fmt d Hin. simpl in Hin.
    repeat (destruct Hin as [<-|Hin]; [vm_compute; discriminate|]).
    contradiction.
Defined.

Example unparsable_date_is_a_week_ahead :
  parse_date Reference.strptime (ymd2ord 2026 11 4) "31/31/2026" = Ok "2026-11-11".
Proof. reflexivity. Qed.

(** outside [clock_date]: in the last week of the year 9999 the fallback
    itself leaves the range of [datetime] *)
Example fallback_overflows_at_date_max :
  parse_date Reference.strptime MAXORDINAL "someday"
  = Raise (Exn OverflowError "date value out of range").
Proof. reflexivity. Qed.

Example parsable_date_is_kept :
  parse_date Reference.strptime (ymd2ord 2026 11 4) "Dec 25, 2026" = Ok "2026-12-25".
Proof. reflexivity. Qed.

(** ** Compiling a booking command *)

Section BookingFacts.
Variable strptime : string -> string -> result Z.
Variable today : Z.
Hypothesis today_ok : clock_date today.

(** what the loop of [handle_book_flight] does on the first pattern that
    matches *)
Lemma book_flight_loop_match command pattern rest m from_city to_city date_str :
  re_search true pattern command = Some m ->
  group m 1 = Some from_city ->
  group m 2 = Some to_city ->
  group m 3 = Some date_str ->
  book_flight_loop strptime today command (pattern :: rest)
  = (formatted_date ← parse_date strptime today (strip date_str);
     Ok [dict [("action", PStr "book_flight");
               ("from", PStr (normalize_city (strip (collapse_spaces (strip from_city)))));
               ("to", PStr (normalize_city (strip (collapse_spaces (strip to_city)))));
               ("date", PStr formatted_date)]]).
Proof.
  intros Hm H1 H2 H3. cbn [book_flight_loop]. unfold group_text.
  rewrite Hm, H1, H2, H3. reflexivity.
Qed.

(** the first flight pattern matches the command and captures the two
    cities and the date phrase *)
Lemma nyc_london_match :
  exists m,
    re_search true flight_pattern_1 "book a flight from nyc to london next monday" = Some m
    /\ group m 1 = Some "nyc"
    /\ group m 2 = Some "london"
    /\ group m 3 = Some "next monday".
Proof. eexists. split; [vm_compute; reflexivity|]. repeat split; vm_compute; reflexivity. Qed.

Lemma nyc_london_plan :
  parse_command strptime today "book a flight from nyc to london next monday"
  = match parse_date strptime today "next monday" with
    | Ok formatted_date =>
        Some [dict [("action", PStr "book_flight"); ("from", PStr "New York");
                    ("to", PStr "London"); ("date", PStr formatted_date)]]
    | Raise _ => None
    end.
Proof.
  destruct nyc_london_match as (m & Hm & H1 & H2 & H3).
  unfold parse_command.
  change (strip (lower "book a flight from nyc to london next monday"))
    with "book a flight from nyc to london next monday".
  replace (detect_intent "book a flight from nyc to london next monday")
    with (Some "book_flight", (∅ : gmap string pyval)) by (vm_compute; reflexivity).
  change (table_get (HANDLER_REGISTRY strptime today) "book_flight")
    with (Some (handle_book_flight strptime today)).
  unfold handle_book_flight, flight_patterns.
  rewrite (book_flight_loop_match _ _ _ m "nyc" "london" "next monday" Hm H1 H2 H3).
  change (strip "next monday") with "next monday".
  change (normalize_city (strip (collapse_spaces (strip "nyc")))) with "New York".
  change (normalize_city (strip (collapse_spaces (strip "london")))) with "London".
  destruct (parse_date strptime today "next monday"); reflexivity.
Qed.

(** C2: "book a flight from nyc to london next monday" compiles to exactly
    one action, a book_flight from "New York" (the alias of nyc) to
    "London" (the alias of london) on the ISO date of the first Monday
    strictly after today. *)
Theorem book_flight_nyc_to_london :
  exists d,
    parse_command strptime today "book a flight from nyc to london next monday"
    = Some [dict [("action", PStr "book_flight"); ("from", PStr "New York");
                  ("to", PStr "London"); ("date", PStr (strftime_ymd d))]]
    /\ table_get CITY_MAPPING "nyc" = Some "New York"
    /\ table_get CITY_MAPPING "london" = Some "London"
    /\ weekday d = 0
    /\ today < d
    /\ (forall d', today < d' -> weekday d' = 0 -> d <= d').
Proof.
  pose proof (days_ahead_range today 0 ltac:(lia)) as Hrange.
  pose proof (weekday_days_ahead today 0 ltac:(lia)) as Hmon.
  exists (today + days_ahead today 0).
  rewrite nyc_london_plan, (parse_date_next_monday strptime today today_ok).
  repeat split; try reflexivity; try lia; try assumption.
  intros d' Hlater Hmon'. set (d := today + days_ahead today 0) in *.
  destruct (Z_le_gt_dec d d') as [|Hgt]; [assumption|].
  pose proof (same_weekday_gap d' d ltac:(lia) ltac:(congruence)). lia.
Qed.

End BookingFacts.

Lemma book_flight_nyc_to_london_witness :
  exists d,
    parse_command Reference.strptime 739924 "book a flight from nyc to london next monday"
    = Some [dict [("action", PStr "book_flight"); ("from", PStr "New York");
                  ("to", PStr "London"); ("date", PStr (strftime_ymd d))]]
    /\ table_get CITY_MAPPING "nyc" = Some "New York"
    /\ table_get CITY_MAPPING "london" = Some "London"
    /\ weekday d = 0
    /\ 739924 < d
    /\ (forall d', 739924 < d' -> weekday d' = 0 -> d <= d').
Proof.
  apply (book_flight_nyc_to_london Reference.strptime 739924).
  split; vm_compute; discriminate.
Defined.

Example book_flight_nyc_to_london_today :
  parse_command Reference.strptime (ymd2ord 2026 11 4)
    "book a flight from nyc to london next monday"
  = Some [dict [("action", PStr "book_flight"); ("from", PStr "New York");
                ("to", PStr "London"); ("date", PStr "2026-11-09")]]
  /\ validate_actions Reference.fromisoformat
       [dict [("action", PStr "book_flight"); ("from", PStr "New York");
              ("to", PStr "London"); ("date", PStr "2026-11-09")]]
     = Ok [BookFlightAction "New York" "London" "2026-11-09"].
Proof. split; reflexivity. Qed.

(** ** The executor loop *)

Section ExecutorFacts.
Context {B : Type} `{Session B}.

Lemma attempted_app (l1 l2 : list event) :
  attempted (l1 ++ l2) = attempted l1 ++ attempted l2.
Proof. apply omap_app. Qed.

Lemma quiet_ret {A : Type} (a : A) : quiet (mret a : @M B A).
Proof. intros b. reflexivity. Qed.

Lemma quiet_raise {A : Type} (e : exn) : quiet (raise e : @M B A).
Proof. intros b. reflexivity. Qed.

Lemma quiet_lift {A : Type} (op : B -> result A * B) : quiet (lift op).
Proof. intros b. unfold lift. destruct (op b). reflexivity. Qed.

Lemma quiet_emit (e : event) : (forall a, e <> EStart a) -> quiet (B:=B) (emit e).
Proof. intros Hne b. destruct e; try reflexivity. now destruct (Hne a). Qed.

Lemma quiet_bind {A C : Type} (m : @M B A) (f : A -> @M B C) :
  quiet m -> (forall a, quiet (f a)) -> quiet (m ≫= f).
Proof.
  intros Hm Hf b. specialize (Hm b). unfold mbind, M_bind.
  destruct (m b) as [[[a|e] b'] l1]; simpl in *; [|exact Hm].
  specialize (Hf a b'). destruct (f a b') as [[r b''] l2]; simpl in *.
  now rewrite attempted_app, Hm, Hf.
Qed.

Lemma quiet_try_except {A : Type} (m : @M B A) (h : exn -> @M B A) :
  quiet m -> (forall e, quiet (h e)) -> quiet (try_except m h).
Proof.
  intros Hm Hh b. specialize (Hm b). unfold try_except.
  destruct (m b) as [[[a|e] b'] l1]; simpl in *; [exact Hm|].
  specialize (Hh e b'). destruct (h e b') as [[r b''] l2]; simpl in *.
  now rewrite attempted_app, Hm, Hh.
Qed.

Lemma quiet_if {A : Type} (c : bool) (m1 m2 : @M B A) :
  quiet m1 -> quiet m2 -> quiet (if c then m1 else m2).
Proof. now destruct c. Qed.

Create HintDb quiet.
Hint Resolve quiet_ret quiet_raise quiet_lift quiet_bind quiet_try_except quiet_if : quiet.

Lemma quiet_first_selector (selectors : list string) : quiet (first_selector selectors).
Proof. induction selectors; cbn [first_selector]; auto with quiet. Qed.

Lemma quiet_youtube_settle (value : string) : quiet (youtube_settle value).
Proof.
  unfold youtube_settle.
  repeat first
    [ apply quiet_try_except | apply quiet_bind | apply quiet_if | apply quiet_lift
    | apply quiet_ret | apply quiet_first_selector | apply quiet_emit; discriminate
    | intros ? ].
Qed.

(** an action prints its first line, and nothing else that looks like one *)
Lemma attempted_started (a : Action) (m : @M B unit) (b : B) :
  quiet m -> attempted ((emit (EStart a);; m) b).2 = [a].
Proof.
  intros Hm. specialize (Hm b). unfold mbind, M_bind, emit.
  destruct (m b) as [[r b'] l]; simpl in *. now rewrite Hm.
Qed.

Lemma attempted_run_action (a : Action) (b : B) : attempted (run_action a b).2 = [a].
Proof.
  destruct a; cbn [run_action]; apply attempted_started;
    repeat first
      [ apply quiet_bind | apply quiet_try_except | apply quiet_if | apply quiet_lift
      | apply quiet_ret | apply quiet_raise | apply quiet_youtube_settle
      | apply quiet_emit; discriminate | intros ? ].
Qed.

(** one turn of the loop: the action under its [try] *)
Lemma guarded_action_ok (a : Action) (b : B) :
  (try_except (run_action a) (fun e => emit (EError a e)) b).1.1 = Ok tt.
Proof.
  unfold try_except. destruct (run_action a b) as [[[[]|e] b'] l]; reflexivity.
Qed.

Lemma run_plan_cons (a : Action) (rest : list Action) (b : B) :
  run_plan (a :: rest) b
  = match run_action a b with
    | (Ok _, b', l) =>
        let '(r, b'', l') := run_plan rest b' in (r, b'', l ++ l')
    | (Raise e, b', l) =>
        let '(r, b'', l') := run_plan rest b' in (r, b'', (l ++ [EError a e]) ++ l')
    end.
Proof.
  cbn [run_plan]. unfold mbind, M_bind, try_except, emit.
  destruct (run_action a b) as [[[[]|e] b'] l]; reflexivity.
Qed.

(** the loop itself never raises *)
Lemma run_plan_ok (actions : list Action) : forall b, (run_plan actions b).1.1 = Ok tt.
Proof.
  induction actions as [|a rest IH]; intros b; [reflexivity|].
  rewrite run_plan_cons.
  destruct (run_action a b) as [[[[]|e] b'] l];
    specialize (IH b'); destruct (run_plan rest b') as [[r b''] l']; exact IH.
Qed.

(** every action of the plan is entered, in order *)
Lemma run_plan_attempted (actions : list Action) :
  forall b, attempted (run_plan actions b).2 = actions.
Proof.
  induction actions as [|a rest IH]; intros b; [reflexivity|].
  rewrite run_plan_cons. pose proof (attempted_run_action a b) as Ha.
  destruct (run_action a b) as [[[[]|e] b'] l];
    specialize (IH b'); destruct (run_plan rest b') as [[r b''] l']; simpl in *;
    rewrite ?attempted_app, Ha, IH; reflexivity.
Qed.

Lemma run_plan_app (pre post : list Action) : forall b,
  run_plan (pre ++ post) b
  = let '(r, b', l) := run_plan post (run_plan pre b).1.2 in
    (r, b', (run_plan pre b).2 ++ l).
Proof.
  induction pre as [|a pre IH]; intros b.
  - simpl. now destruct (run_plan post b) as [[r b'] l].
  - change ((a :: pre) ++ post) with (a :: (pre ++ post)).
    rewrite !run_plan_cons.
    destruct (run_action a b) as [[[[]|e] b'] l]; rewrite IH;
      destruct (run_plan pre b') as [[r1 b1] l1]; simpl;
      destruct (run_plan post b1) as [[r2 b2] l2]; simpl;
      now rewrite <- ?app_assoc.
Qed.

(** C8: when the runner of one action of the plan fails, the failure is
    printed, the actions before it have been entered, and every action
    after it is still entered, starting from the browser the failure left
    behind: the plan is never cut short. *)
Theorem failed_action_does_not_stop_the_plan
    (pre post : list Action) (a : Action) (b : B) (e : exn) (bk : B) (lk : list event) :
  run_action a (run_plan pre b).1.2 = (Raise e, bk, lk) ->
  (run_plan (pre ++ a :: post) b).1.1 = Ok tt
  /\ (run_plan (pre ++ a :: post) b).2
     = (run_plan pre b).2 ++ lk ++ [EError a e] ++ (run_plan post bk).2
  /\ (run_plan (pre ++ a :: post) b).1.2 = (run_plan post bk).1.2
  /\ attempted (run_plan (pre ++ a :: post) b).2 = pre ++ a :: post.
Proof.
  intros Hfail. split; [apply run_plan_ok|]. split; [|split; [|apply run_plan_attempted]].
  - rewrite run_plan_app, run_plan_cons, Hfail.
    destruct (run_plan post bk) as [[r b'] l]; simpl. now rewrite <- !app_assoc.
  - rewrite run_plan_app, run_plan_cons, Hfail.
    now destruct (run_plan post bk) as [[r b'] l].
Qed.

(** a plan that fails validation: nothing is launched, nothing runs, and
    the call returns as a completed one does *)
Lemma execute_actions_invalid fromisoformat (actions_data : list (gmap string pyval)) e :
  validate_actions fromisoformat actions_data = Raise e ->
  execute_actions fromisoformat actions_data = Run (Ok tt) [EInvalidPlan e] None.
Proof.
  intros Hv. unfold execute_actions. rewrite Hv.
  now rewrite (validate_from_raises fromisoformat actions_data O e Hv).
Qed.

(** C9, on the plan [[{"action": "goto", "value": "invalid-url"}]]:
    validation rejects the plan, no browser is launched and no action is
    entered, but [execute_actions] swallows the error and returns
    normally instead of raising it to its caller. *)
Theorem invalid_plan_error_is_swallowed fromisoformat :
  (exists e, validate_actions fromisoformat [goto_action "invalid-url"] = Raise e
             /\ exn_cls e = ValueError
             /\ execute_actions fromisoformat [goto_action "invalid-url"]
                = Run (Ok tt) [EInvalidPlan e] None)
  /\ outcome (execute_actions fromisoformat [goto_action "invalid-url"]) = Ok tt
  /\ browser (execute_actions fromisoformat [goto_action "invalid-url"]) = None
  /\ attempted (printed (execute_actions fromisoformat [goto_action "invalid-url"])) = [].
Proof.
  assert (Hv : validate_actions fromisoformat [goto_action "invalid-url"]
               = value_error ("Invalid goto action at index 0: "
                              +:+ "URL must start with http:// or https://"))
    by reflexivity.
  split.
  - eexists. split; [exact Hv|]. split; [reflexivity|].
    now apply execute_actions_invalid.
  - rewrite (execute_actions_invalid _ _ _ Hv). repeat split.
Qed.

End ExecutorFacts.

(** the plan of the repository's test [test_action_sequence_with_errors],
    run on the simulated browser: the fill fails, the screenshot is taken *)
Lemma failed_action_does_not_stop_the_plan_witness :
  attempted
    (run_plan [GotoAction "https://httpbin.org/html";
               FillAction "input.invalid" "should fail";
               ScreenshotAction "error_recovery_test.png"]
              (Reference.Sim "about:blank" [])).2
  = [GotoAction "https://httpbin.org/html";
     FillAction "input.invalid" "should fail";
     ScreenshotAction "error_recovery_test.png"]
  /\ In (EError (FillAction "input.invalid" "should fail")
                (Exn SessionError "Timeout 10000ms exceeded"))
        (run_plan [GotoAction "https://httpbin.org/html";
                   FillAction "input.invalid" "should fail";
                   ScreenshotAction "error_recovery_test.png"]
                  (Reference.Sim "about:blank" [])).2
  /\ Reference.sim_files
       (run_plan [GotoAction "https://httpbin.org/html";
                  FillAction "input.invalid" "should fail";
                  ScreenshotAction "error_recovery_test.png"]
                 (Reference.Sim "about:blank" [])).1.2
     = ["screenshots/error_recovery_test.png"].
Proof.
  destruct (@failed_action_does_not_stop_the_plan _ Reference.sim_session
              [GotoAction "https://httpbin.org/html"]
              [ScreenshotAction "error_recovery_test.png"]
              (FillAction "input.invalid" "should fail")
              (Reference.Sim "about:blank" [])
              (Exn SessionError "Timeout 10000ms exceeded")
              (Reference.Sim "https://httpbin.org/html" [])
              [EStart (FillAction "input.invalid" "should fail")]
              ltac:(vm_compute; reflexivity))
    as (_ & Hlog & Hb & Hatt).
  cbn [app] in Hlog, Hb, Hatt.
  split; [exact Hatt|].
  split; [rewrite Hlog | rewrite Hb]; vm_compute; tauto.
Defined.

Example completed_plan_returns_the_same :
  outcome (execute_actions Reference.fromisoformat [goto_action "https://httpbin.org/html"]) = Ok tt
  /\ outcome (execute_actions Reference.fromisoformat [goto_action "invalid-url"]) = Ok tt.
Proof. split; reflexivity. Qed.

(** ** The city-suggestion stage *)

Section SuggestionFacts.

(** options that no pattern matches are passed over without a click *)
Lemma scan_options_no_match (patterns : list string) (opts : list suggestion) :
  (forall o text, In o opts -> opt_text o = Some text ->
                  matches_any patterns (lower (strip text)) = false) ->
  forall i, scan_options patterns i opts = (false, []).
Proof.
  induction opts as [|o opts IH]; intros Hno i; cbn [scan_options]; [reflexivity|].
  assert (Hrest : forall i, scan_options patterns i opts = (false, []))
    by (apply IH; intros o' text Hin; apply Hno; right; exact Hin).
  destruct (opt_visible o); cbn [negb]; [|apply Hrest].
  destruct (opt_text o) as [text|] eqn:Htext; [|apply Hrest].
  destruct (String.eqb text EmptyString); [apply Hrest|].
  rewrite (Hno o text (or_introl eq_refl) Htext). apply Hrest.
Qed.

Lemma select_city_no_match (city : string) (opts : list suggestion) :
  (forall patterns o text,
      city_patterns city = Ok patterns -> In o opts -> opt_text o = Some text ->
      matches_any patterns (lower (strip text)) = false) ->
  select_city_from_suggestions city opts = (false, []).
Proof.
  intros Hno. unfold select_city_from_suggestions.
  destruct (city_patterns city) as [patterns|e] eqn:Hp; [|reflexivity].
  apply scan_options_no_match. intros o text Hin.
  apply (Hno patterns o text eq_refl).
  rewrite <- (firstn_skipn 10 opts). apply in_or_app. left; exact Hin.
Qed.

(** C7: in a city stage that has reached its suggestion list (the input
    was found and typed into, the network and the page settled, the listbox
    and its first option are visible), if no matching pattern is found in
    any option, the stage selects the first option and completes instead of
    aborting: provided the click on that option, the two waits after it and
    the check of the input go through, it clicks the first option and no
    other, presses no key, takes no screenshot, and answers [True]. *)
Theorem unmatched_city_falls_back_to_first_option
    (field : string) (pg : city_page) (city : string)
    (first_option : suggestion) (others : list suggestion) :
  input_found pg = true ->
  input_typable pg = true ->
  network_idle pg = true ->
  returns pg SettlePause = true ->
  listbox_visible pg = true ->
  options pg = first_option :: others ->
  opt_visible first_option = true ->
  (forall patterns o text,
      city_patterns city = Ok patterns -> In o (options pg) -> opt_text o = Some text ->
      matches_any patterns (lower (strip text)) = false) ->
  opt_clickable first_option = true ->
  returns pg FallbackPause = true ->
  returns pg UiPause = true ->
  returns pg ValueCheck = true ->
  set_city field pg city
  = (Ok true, [TypeCity city; Pause 500; ClickOption 0; Pause 1000; Pause 1000]).
Proof.
  intros Hfound Htyp Hidle Hsettle Hbox Hopts Hvis Hno Hclick Hpause Hui Hcheck.
  unfold set_city, choose_suggestion.
  rewrite Hfound, Htyp, Hidle, Hsettle, Hbox,
    (select_city_no_match city (options pg) Hno), Hopts, Hvis, Hclick, Hpause, Hui, Hcheck.
  reflexivity.
Qed.

End SuggestionFacts.

Lemma unmatched_city_falls_back_to_first_option_witness :
  set_departure_city
    (CityPage true true true true
       [Suggestion true (Some "Paris (CDG)") true; Suggestion true (Some "Parma") true]
       (fun _ => true))
    "Tokyo, Japan (HND)"
  = (Ok true, [TypeCity "Tokyo, Japan (HND)"; Pause 500; ClickOption 0; Pause 1000;
               Pause 1000]).
Proof.
  apply (unmatched_city_falls_back_to_first_option "departure"
           (CityPage true true true true
              [Suggestion true (Some "Paris (CDG)") true; Suggestion true (Some "Parma") true]
              (fun _ => true))
           "Tokyo, Japan (HND)"
           (Suggestion true (Some "Paris (CDG)") true)
           [Suggestion true (Some "Parma") true]); try reflexivity.
  intros patterns o text Hp Hin Htext.
  injection Hp as <-. simpl in Hin.
  destruct Hin as [<-|[<-|[]]]; injection Htext as <-; reflexivity.
Defined.

Example blank_city_falls_back_too :
  set_destination_city
    (CityPage true true true true [Suggestion true (Some "Paris (CDG)") true] (fun _ => true))
    "   "
  = (Ok true, [TypeCity "   "; Pause 500; ClickOption 0; Pause 1000; Pause 1000]).
Proof. reflexivity. Qed.

(** when the click on the first option raises, the stage presses Enter
    instead and still completes *)
Example failed_first_click_presses_enter :
  set_departure_city
    (CityPage true true true true [Suggestion true (Some "Paris (CDG)") false] (fun _ => true))
    "Tokyo"
  = (Ok true, [TypeCity "Tokyo"; Pause 500; ClickOption 0;
               Shot "no_suggestions_departure.png"; PressEnter; Pause 1000]).
Proof. reflexivity. Qed.

(** and when the key press of the handler raises as well, the stage raises *)
Example failed_recovery_aborts_the_stage :
  set_departure_city
    (CityPage true true true true [Suggestion true (Some "Paris (CDG)") false]
       (fun a => match a with RecoveryEnter => false | _ => true end))
    "Tokyo"
  = (Raise (session_error "key press failed"),
     [TypeCity "Tokyo"; Pause 500; ClickOption 0; Shot "no_suggestions_departure.png";
      PressEnter; Shot "departure_error.png"]).
Proof. reflexivity. Qed.

(* ===================================================================== *)
(** * Further properties of the compiler                                  *)
(* ===================================================================== *)

(** ** Intent detection: range and priorities *)

Section IntentFacts.

Ltac split_ifs :=
  repeat match goal with
         | |- context [if ?c then _ else _] => destruct c eqn:?
         end.

Lemma detect_intent_range
    (strptime : string -> string -> result Z) (today : Z)
    (command intent : string) (entities : gmap string pyval) :
  detect_intent command = (Some intent, entities) ->
  In intent ["book_flight"; "play"; "search"; "navigate"; "fill"; "click"; "wait";
             "screenshot"]
  /\ exists handler, table_get (HANDLER_REGISTRY strptime today) intent = Some handler.
Proof.
  unfold detect_intent. cbv zeta. intros Hd.
  assert (Hclick : any_in command (keywords "click") = false ->
                   contains command "press" && contains command "in" = true -> False).
  { change (keywords "click") with ["click"; "press"; "tap"].
    unfold any_in. cbn [existsb]. intros Hno Hpress.
    destruct (contains command "press"); [|discriminate].
    now rewrite orb_true_r in Hno. }
  revert Hd. split_ifs; intros [= <- <-];
    (split; [simpl; tauto | eexists; reflexivity || (exfalso; eauto)]).
Qed.

(** [detect_intent] answers with one of eight intents, and every one of
    them has a handler in the registry: [parse_command] never meets an
    intent it cannot dispatch. *)
Theorem detected_intent_has_handler
    (strptime : string -> string -> result Z) (today : Z)
    (command intent : string) (entities : gmap string pyval) :
  detect_intent command = (Some intent, entities) ->
  In intent ["book_flight"; "play"; "search"; "navigate"; "fill"; "click"; "wait";
             "screenshot"]
  /\ exists handler, table_get (HANDLER_REGISTRY strptime today) intent = Some handler.
Proof. exact (detect_intent_range strptime today command intent entities). Qed.

Lemma detected_intent_has_handler_witness :
  In "click" ["book_flight"; "play"; "search"; "navigate"; "fill"; "click"; "wait";
              "screenshot"]
  /\ exists handler,
       table_get (HANDLER_REGISTRY Reference.strptime 739924) "click" = Some handler.
Proof.
  apply (detected_intent_has_handler Reference.strptime 739924
           "press enter in the name field" "click" ∅).
  vm_compute. reflexivity.
Defined.

(** The press_key intent is never detected: a command that holds "press"
    is caught by the click keywords, which are tested first, so
    [handle_press_key] is out of reach of [parse_command]. *)
Theorem press_key_is_never_detected (command : string) :
  (detect_intent command).1 <> Some "press_key".
Proof.
  destruct (detect_intent command) as [[intent|] entities] eqn:Hd; [|discriminate].
  destruct (detect_intent_range (fun _ _ => Ok 0) 0 command intent entities Hd)
    as [Hin _].
  simpl in Hin. cbn [fst]. intros [= ->].
  repeat (destruct Hin as [Hin|Hin]; [discriminate|]). contradiction.
Qed.

(** A command that holds a keyword of the navigate, search, click, wait,
    screenshot, book_flight or play lists is always given an intent. *)
Theorem keyword_gives_an_intent (command kind kw : string) :
  In kind ["navigate"; "search"; "click"; "wait"; "screenshot"; "book_flight"; "play"] ->
  In kw (keywords kind) ->
  contains command kw = true ->
  (detect_intent command).1 <> None.
Proof.
  intros Hkind Hkw Hc.
  assert (Hany : any_in command (keywords kind) = true)
    by (apply existsb_exists; eauto).
  unfold detect_intent. cbv zeta.
  split_ifs; cbn [fst]; try discriminate.
  simpl in Hkind.
  repeat (destruct Hkind as [<-|Hkind]; [congruence|]). contradiction.
Qed.

Lemma keyword_gives_an_intent_witness :
  (detect_intent "please pause").1 <> None.
Proof.
  apply (keyword_gives_an_intent "please pause" "wait" "pause");
    [simpl; tauto | simpl; tauto | reflexivity].
Defined.

End IntentFacts.

(** ** Site names *)

Section SiteFacts.

Lemma startswith_app_l (a b : string) : forall s,
  startswith s (a +:+ b) = true -> startswith s a = true.
Proof.
  induction a as [|c a IH]; intros s; [now destruct s|].
  change (String c a +:+ b) with (String c (a +:+ b)).
  destruct s as [|c' s]; cbn [startswith]; [discriminate|].
  destruct (Ascii.eqb c c'); [apply IH|discriminate].
Qed.

Lemma contains_app_l (a b : string) : forall s,
  contains s (a +:+ b) = true -> contains s a = true.
Proof.
  induction s as [|c s IH]; cbn [contains]; intros H.
  - rewrite orb_false_r in *. now apply startswith_app_l in H.
  - apply orb_true_iff in H as [H|H]; apply orb_true_iff.
    + left. now apply startswith_app_l in H.
    + right. now apply IH.
Qed.

(** the scan of a table of sites answers with the first key, in the order
    of the table, that the command holds *)
Lemma first_site_some (sites : list (string * string)) (command website : string) :
  first_site sites command = Some website ->
  exists pre url post,
    sites = pre ++ (website, url) :: post
    /\ contains command website = true
    /\ forall k, In k (map fst pre) -> contains command k = false.
Proof.
  induction sites as [|[k u] sites IH]; cbn [first_site]; [discriminate|].
  destruct (contains command k) eqn:Hk.
  - intros [= <-]. exists [], u, sites. repeat split; [exact Hk | intros ? []].
  - intros H. destruct (IH H) as (pre & url & post & -> & Hw & Hpre).
    exists ((k, u) :: pre), url, post. repeat split; [exact Hw|].
    intros k' [<-|Hin]; [exact Hk | now apply Hpre].
Qed.

Lemma first_site_none (sites : list (string * string)) (command : string) :
  first_site sites command = None <->
  forall k, In k (map fst sites) -> contains command k = false.
Proof.
  induction sites as [|[k u] sites IH]; cbn [first_site map fst In].
  - split; [intros _ ? [] | reflexivity].
  - destruct (contains command k) eqn:Hk.
    + split; [discriminate|]. intros H. specialize (H k (or_introl eq_refl)). congruence.
    + rewrite IH. split.
      * intros H k' [<-|Hin]; [exact Hk | now apply H].
      * intros H k' Hin. apply H. now right.
Qed.

(** [extract_website] finds the first site name of [WEBSITE_MAP] that
    occurs in the command, and nothing when none occurs. *)
Theorem extract_website_first_match (command : string) :
  (forall website,
      extract_website command = Some website ->
      exists pre url post,
        WEBSITE_MAP = pre ++ (website, url) :: post
        /\ contains command website = true
        /\ forall k, In k (map fst pre) -> contains command k = false)
  /\ (extract_website command = None <->
      forall k, In k (map fst WEBSITE_MAP) -> contains command k = false).
Proof. split; [intros w; apply first_site_some | apply first_site_none]. Qed.

Lemma extract_website_first_match_witness :
  exists pre url post,
    WEBSITE_MAP = pre ++ ("github", url) :: post
    /\ contains "open github and reddit" "github" = true
    /\ forall k, In k (map fst pre) -> contains "open github and reddit" k = false.
Proof.
  apply (proj1 (extract_website_first_match "open github and reddit") "github").
  reflexivity.
Defined.

(** The dotted keys of [WEBSITE_MAP] are never the answer: each one holds
    the bare name declared before it, which is found first.  So a command
    that names "amazon.com" is given the site "amazon". *)
Theorem extract_website_answers_bare_names (command website : string) :
  extract_website command = Some website ->
  In website ["google"; "youtube"; "github"; "stackoverflow"; "reddit"; "wikipedia";
              "amazon"; "twitter"; "linkedin"; "facebook"].
Proof.
  unfold extract_website, WEBSITE_MAP. cbn [first_site].
  repeat match goal with
         | |- context [if contains command ?k then _ else _] =>
             destruct (contains command k) eqn:?
         end;
    intros [= <-]; try (simpl; tauto); exfalso;
    match goal with
    | Hdot : contains command ?k = true, Hbare : contains command ?b = false |- _ =>
        match k with
        | context [(".")%char] => idtac
        end;
        first
          [ apply (contains_app_l b ".com") in Hdot; congruence
          | apply (contains_app_l b ".org") in Hdot; congruence
          | apply (contains_app_l b ".in") in Hdot; congruence ]
    end.
Qed.

Lemma extract_website_answers_bare_names_witness :
  extract_website "find shoes on amazon.com" = Some "amazon"
  /\ In "amazon" ["google"; "youtube"; "github"; "stackoverflow"; "reddit"; "wikipedia";
                  "amazon"; "twitter"; "linkedin"; "facebook"].
Proof.
  split; [reflexivity|].
  apply (extract_website_answers_bare_names "find shoes on amazon.com"). reflexivity.
Defined.

End SiteFacts.

(** ** Case and outer whitespace of a command *)

Section NormalisationFacts.
Variable strptime : string -> string -> result Z.
Variable today : Z.

Lemma is_space_lower_char (c : ascii) : is_space (lower_char c) = is_space c.
Proof. destruct c as [[] [] [] [] [] [] [] []]; reflexivity. Qed.

Lemma lower_empty (s : string) : lower s = EmptyString <-> s = EmptyString.
Proof. destruct s; cbn [lower]; split; congruence. Qed.

Lemma lstrip_lower (s : string) : lstrip (lower s) = lower (lstrip s).
Proof.
  induction s as [|c s IH]; cbn [lower lstrip]; [reflexivity|].
  rewrite is_space_lower_char. destruct (is_space c); [exact IH|reflexivity].
Qed.

Lemma rstrip_lower (s : string) : rstrip (lower s) = lower (rstrip s).
Proof.
  induction s as [|c s IH]; cbn [lower rstrip]; [reflexivity|].
  rewrite IH, is_space_lower_char.
  destruct (rstrip s) as [|c' r]; cbn [lower]; [|reflexivity].
  destruct (is_space c); reflexivity.
Qed.

Lemma strip_lower (s : string) : strip (lower s) = lower (strip s).
Proof. unfold strip. now rewrite lstrip_lower, rstrip_lower. Qed.

(** the test for a blank command looks at the normalised command only *)
Lemma blank_command (command : string) :
  String.eqb command EmptyString || String.eqb (strip command) EmptyString
  = String.eqb (strip (lower command)) EmptyString.
Proof.
  rewrite strip_lower. destruct command as [|c s]; [reflexivity|].
  cbn [String.eqb orb]. now destruct (strip (String c s)).
Qed.

(** The entry point of [intent_parser.py] answers as the refactored parser
    does, and both look at a command only through its lower-cased, stripped
    form: two commands that differ in case or in outer whitespace compile
    to the same plan. *)
Theorem parse_command_reads_the_normal_form (c1 c2 : string) :
  strip (lower c1) = strip (lower c2) ->
  IntentParser.parse_command strptime today c1 = parse_command strptime today c1
  /\ parse_command strptime today c1 = parse_command strptime today c2.
Proof.
  intros Hn. split.
  - unfold IntentParser.parse_command. rewrite blank_command.
    unfold parse_command. rewrite blank_command.
    now destruct (String.eqb (strip (lower c1)) EmptyString).
  - unfold parse_command. now rewrite !blank_command, Hn.
Qed.

End NormalisationFacts.

Lemma parse_command_reads_the_normal_form_witness :
  IntentParser.parse_command Reference.strptime 739924 "  Open GitHub "
  = parse_command Reference.strptime 739924 "  Open GitHub "
  /\ parse_command Reference.strptime 739924 "  Open GitHub "
     = parse_command Reference.strptime 739924 "open github".
Proof.
  apply (parse_command_reads_the_normal_form Reference.strptime 739924). reflexivity.
Defined.

(** ** Plans of the handlers pass the schema *)

Section PlanFacts.
Variable fromisoformat : string -> result Z.

Lemma table_get_In {V : Type} (t : list (string * V)) (k : string) (v : V) :
  table_get t k = Some v -> In (k, v) t.
Proof.
  induction t as [|[k' v'] t IH]; cbn [table_get]; [discriminate|].
  destruct (String.eqb_spec k' k) as [->|_]; [intros [= ->]; now left | right; auto].
Qed.

(** every URL of the site table is absolute *)
Lemma website_urls_are_absolute (k url : string) :
  table_get WEBSITE_MAP k = Some url -> startswith url "https://" = true.
Proof.
  intros Hget. apply table_get_In in Hget.
  assert (Hall : forallb (fun kv : string * string => startswith kv.2 "https://") WEBSITE_MAP
                 = true) by reflexivity.
  rewrite forallb_forall in Hall. exact (Hall _ Hget).
Qed.

Lemma valid_goto i data url :
  data !! "action" = Some (PStr "goto") ->
  data !! "value" = Some (PStr url) ->
  startswith url "http://" || startswith url "https://" = true ->
  validate_action fromisoformat i data = Ok (GotoAction url).
Proof.
  intros Ha Hv Hs. unfold validate_action. rewrite Ha.
  cbn [truthy negb String.eqb Ascii.eqb Bool.eqb].
  change (table_get (action_models fromisoformat) "goto") with (Some make_goto).
  unfold make_goto, str_field. rewrite Hv. unfold validate_url.
  cbn [mbind result_bind]. now rewrite Hs.
Qed.

Lemma valid_fill i data selector value :
  data !! "action" = Some (PStr "fill") ->
  data !! "selector" = Some (PStr selector) ->
  data !! "value" = Some (PStr value) ->
  validate_action fromisoformat i data = Ok (FillAction selector value).
Proof.
  intros Ha Hs Hv. unfold validate_action. rewrite Ha.
  cbn [truthy negb String.eqb Ascii.eqb Bool.eqb].
  change (table_get (action_models fromisoformat) "fill") with (Some make_fill).
  unfold make_fill, str_field. now rewrite Hs, Hv.
Qed.

Lemma valid_press i data selector key :
  data !! "action" = Some (PStr "press") ->
  data !! "selector" = Some (PStr selector) ->
  data !! "key" = Some (PStr key) ->
  validate_action fromisoformat i data = Ok (PressAction selector key).
Proof.
  intros Ha Hs Hk. unfold validate_action. rewrite Ha.
  cbn [truthy negb String.eqb Ascii.eqb Bool.eqb].
  change (table_get (action_models fromisoformat) "press") with (Some make_press).
  unfold make_press, str_field. now rewrite Hs, Hk.
Qed.

Lemma valid_click i data selector :
  data !! "action" = Some (PStr "click") ->
  data !! "selector" = Some (PStr selector) ->
  validate_action fromisoformat i data = Ok (ClickAction selector).
Proof.
  intros Ha Hs. unfold validate_action. rewrite Ha.
  cbn [truthy negb String.eqb Ascii.eqb Bool.eqb].
  change (table_get (action_models fromisoformat) "click") with (Some make_click).
  unfold make_click, str_field. now rewrite Hs.
Qed.

Lemma valid_wait i data timeout :
  data !! "action" = Some (PStr "wait") ->
  data !! "timeout" = Some (PInt timeout) ->
  validate_action fromisoformat i data = Ok (WaitAction timeout).
Proof.
  intros Ha Ht. unfold validate_action. rewrite Ha.
  cbn [truthy negb String.eqb Ascii.eqb Bool.eqb].
  change (table_get (action_models fromisoformat) "wait") with (Some make_wait).
  unfold make_wait. now rewrite Ht.
Qed.

Lemma validate_from_cons i data rest a acts :
  validate_action fromisoformat i data = Ok a ->
  validate_from fromisoformat (S i) rest = Ok acts ->
  validate_from fromisoformat i (data :: rest) = Ok (a :: acts).
Proof. intros Ha Hr. cbn [validate_from]. now rewrite Ha, Hr. Qed.

Lemma handle_navigate_validates (command : string) (entities : gmap string pyval) :
  exists url,
    handle_navigate command entities = Ok [goto_action url]
    /\ startswith url "http://" || startswith url "https://" = true
    /\ validate_actions fromisoformat [goto_action url] = Ok [GotoAction url].
Proof.
  assert (Hvalid : forall url,
             startswith url "http://" || startswith url "https://" = true ->
             validate_actions fromisoformat [goto_action url] = Ok [GotoAction url]).
  { intros url Hs. apply validate_from_cons; [|reflexivity].
    now apply valid_goto. }
  unfold handle_navigate. cbv zeta.
  set (url_part := strip (remove_all command ["go to"; "navigate to"; "open"; "visit"])).
  destruct (table_get WEBSITE_MAP (lower url_part)) as [u|] eqn:Hsite.
  - exists u. apply website_urls_are_absolute in Hsite.
    assert (Hs : startswith u "http://" || startswith u "https://" = true)
      by (rewrite Hsite; apply orb_true_r).
    auto.
  - destruct (startswith url_part "http://" || startswith url_part "https://") eqn:Hs.
    + exists url_part. auto.
    + exists ("https://www." +:+ url_part).
      assert (Hs' : startswith ("https://www." +:+ url_part) "http://"
                    || startswith ("https://www." +:+ url_part) "https://" = true)
        by (cbv [String.append]; reflexivity).
      auto.
Qed.

(** [handle_navigate] always builds one goto action, and its URL is
    absolute whatever the command was: the plan passes [validate_actions]
    unchanged. *)
Theorem navigate_plan_is_valid (command : string) (entities : gmap string pyval) :
  exists url,
    handle_navigate command entities = Ok [goto_action url]
    /\ startswith url "http://" || startswith url "https://" = true
    /\ validate_actions fromisoformat [goto_action url] = Ok [GotoAction url].
Proof. exact (handle_navigate_validates command entities). Qed.

End PlanFacts.

Section HandlerPlanFacts.
Variable fromisoformat : string -> result Z.

Lemma valid_screenshot i data filename validated :
  data !! "action" = Some (PStr "screenshot") ->
  data !! "filename" = Some (PStr filename) ->
  validate_filename filename = Ok validated ->
  validate_action fromisoformat i data = Ok (ScreenshotAction validated).
Proof.
  intros Ha Hf Hv. unfold validate_action. rewrite Ha.
  cbn [truthy negb String.eqb Ascii.eqb Bool.eqb].
  change (table_get (action_models fromisoformat) "screenshot") with (Some make_screenshot).
  unfold make_screenshot, str_field. rewrite Hf. cbn [mbind result_bind]. now rewrite Hv.
Qed.

Lemma valid_click_result i data :
  data !! "action" = Some (PStr "click_result") ->
  validate_action fromisoformat i data = Ok ClickResultAction.
Proof.
  intros Ha. unfold validate_action. rewrite Ha. reflexivity.
Qed.

Lemma handle_search_validates (command : string) (entities : gmap string pyval) :
  exists url selector term,
    handle_search command entities
    = Ok ([ goto_action url;
            dict [("action", PStr "fill"); ("selector", PStr selector); ("value", PStr term)];
            dict [("action", PStr "press"); ("selector", PStr selector);
                  ("key", PStr "Enter")] ]
          ++ if match entities !! "screenshot" with Some v => truthy v | None => false end
             then [dict [("action", PStr "screenshot"); ("filename", PStr "search_results.png")]]
             else [])
    /\ In url (map snd WEBSITE_MAP)
    /\ validate_actions fromisoformat
         ([ goto_action url;
            dict [("action", PStr "fill"); ("selector", PStr selector); ("value", PStr term)];
            dict [("action", PStr "press"); ("selector", PStr selector);
                  ("key", PStr "Enter")] ]
          ++ if match entities !! "screenshot" with Some v => truthy v | None => false end
             then [dict [("action", PStr "screenshot"); ("filename", PStr "search_results.png")]]
             else [])
       = Ok ([GotoAction url; FillAction selector term; PressAction selector "Enter"]
             ++ if match entities !! "screenshot" with Some v => truthy v | None => false end
                then [ScreenshotAction "search_results.png"] else []).
Proof.
  unfold handle_search. cbv zeta.
  set (shot := match entities !! "screenshot" with Some v => truthy v | None => false end).
  set (website := match entities !! "website" with
                  | Some (PStr w) => Some w
                  | Some _ => None
                  | None => Some "google"
                  end).
  set (config := default google_config (website ≫= table_get WEBSITE_CONFIGS)).
  set (term := strip _).
  assert (Hurl : exists k, table_get WEBSITE_MAP k
                           = Some (default "https://www.google.com"
                                     (website ≫= table_get WEBSITE_MAP))).
  { destruct website as [w|]; cbn [mbind option_bind default]; [|now exists "google"].
    destruct (table_get WEBSITE_MAP w) eqn:Hw; cbn [default]; [now exists w | now exists "google"]. }
  destruct Hurl as [k Hk].
  set (url := default "https://www.google.com" (website ≫= table_get WEBSITE_MAP)) in *.
  exists url, (search_selector config), term.
  split; [now destruct shot|]. split.
  - apply table_get_In in Hk. now apply (in_map snd) in Hk.
  - apply website_urls_are_absolute in Hk.
    assert (Hs : startswith url "http://" || startswith url "https://" = true)
      by (rewrite Hk; apply orb_true_r).
    unfold validate_actions. destruct shot; cbn [app];
      repeat (apply validate_from_cons);
      first [ now apply valid_goto | now apply valid_fill | now apply valid_press
            | now apply (valid_screenshot _ _ "search_results.png") | reflexivity ].
Qed.

(** [handle_search] builds goto, fill and press on one site of the table
    (Google when the entities name no known site), followed by a
    screenshot exactly when the screenshot entity is set; the plan passes
    [validate_actions] whatever the command and the entities are. *)
Theorem search_plan_is_valid (command : string) (entities : gmap string pyval) :
  exists url selector term,
    handle_search command entities
    = Ok ([ goto_action url;
            dict [("action", PStr "fill"); ("selector", PStr selector); ("value", PStr term)];
            dict [("action", PStr "press"); ("selector", PStr selector);
                  ("key", PStr "Enter")] ]
          ++ if match entities !! "screenshot" with Some v => truthy v | None => false end
             then [dict [("action", PStr "screenshot"); ("filename", PStr "search_results.png")]]
             else [])
    /\ In url (map snd WEBSITE_MAP)
    /\ validate_actions fromisoformat
         ([ goto_action url;
            dict [("action", PStr "fill"); ("selector", PStr selector); ("value", PStr term)];
            dict [("action", PStr "press"); ("selector", PStr selector);
                  ("key", PStr "Enter")] ]
          ++ if match entities !! "screenshot" with Some v => truthy v | None => false end
             then [dict [("action", PStr "screenshot"); ("filename", PStr "search_results.png")]]
             else [])
       = Ok ([GotoAction url; FillAction selector term; PressAction selector "Enter"]
             ++ if match entities !! "screenshot" with Some v => truthy v | None => false end
                then [ScreenshotAction "search_results.png"] else []).
Proof. exact (handle_search_validates command entities). Qed.

Lemma handle_play_validates (command : string) (entities : gmap string pyval) :
  exists term plan,
    handle_play command entities = Ok plan
    /\ validate_actions fromisoformat plan
       = Ok [ GotoAction "https://www.youtube.com";
              FillAction "input[name='search_query']" term;
              PressAction "input[name='search_query']" "Enter";
              WaitAction 3000;
              ClickAction
                "ytd-video-renderer a#video-title[href*='watch']:not([href*='shorts'])" ].
Proof.
  unfold handle_play. cbv zeta. set (term := strip _).
  exists term. eexists. split; [reflexivity|].
  unfold validate_actions.
  repeat (apply validate_from_cons);
    first [ now apply valid_goto | now apply valid_fill | now apply valid_press
          | now apply valid_wait | now apply valid_click | reflexivity ].
Qed.

(** [handle_play] always builds the same five steps on YouTube, whatever
    the entities say; only the search term comes from the command, and the
    plan passes [validate_actions]. *)
Theorem play_plan_is_valid (command : string) (entities : gmap string pyval) :
  exists term plan,
    handle_play command entities = Ok plan
    /\ validate_actions fromisoformat plan
       = Ok [ GotoAction "https://www.youtube.com";
              FillAction "input[name='search_query']" term;
              PressAction "input[name='search_query']" "Enter";
              WaitAction 3000;
              ClickAction
                "ytd-video-renderer a#video-title[href*='watch']:not([href*='shorts'])" ].
Proof. exact (handle_play_validates command entities). Qed.

Lemma single_action_handlers_validate
    (handler : string -> gmap string pyval -> result (list (gmap string pyval)))
    (command : string) (entities : gmap string pyval) :
  In handler [handle_fill; handle_click; handle_press_key] ->
  handler command entities = Ok []
  \/ exists data action,
       handler command entities = Ok [data]
       /\ validate_actions fromisoformat [data] = Ok [action].
Proof.
  assert (Hone : forall data action,
             validate_action fromisoformat O data = Ok action ->
             validate_actions fromisoformat [data] = Ok [action])
    by (intros; now apply validate_from_cons).
  intros [<-|[<-|[<-|[]]]].
  - unfold handle_fill. destruct (re_search false fill_pattern command); [|now left].
    right. do 2 eexists. split; [reflexivity|]. apply Hone. now apply valid_fill.
  - unfold handle_click. destruct (contains command "first").
    + right. do 2 eexists. split; [reflexivity|]. apply Hone. now apply valid_click_result.
    + destruct (re_search false click_pattern command); [|now left].
      right. do 2 eexists. split; [reflexivity|]. apply Hone. now apply valid_click.
  - unfold handle_press_key. destruct (re_search false press_pattern command); [|now left].
    right. do 2 eexists. split; [reflexivity|]. apply Hone. now apply valid_press.
Qed.

(** the three outcomes of [handle_wait], each with its cause *)
Lemma handle_wait_outcome (command : string) (entities : gmap string pyval) :
  match re_search false wait_pattern command with
  | None => handle_wait command entities = Ok []
  | Some m =>
      if MAX_STR_DIGITS <? Z.of_nat (String.length (group_text m 1))
      then exists msg, handle_wait command entities = Raise (Exn ValueError msg)
      else exists timeout,
             handle_wait command entities
             = Ok [dict [("action", PStr "wait"); ("timeout", PInt timeout)]]
             /\ validate_actions fromisoformat
                  [dict [("action", PStr "wait"); ("timeout", PInt timeout)]]
                = Ok [WaitAction timeout]
  end.
Proof.
  unfold handle_wait, py_int.
  destruct (re_search false wait_pattern command) as [m|]; [|reflexivity].
  destruct (MAX_STR_DIGITS <? Z.of_nat (String.length (group_text m 1))).
  - eexists. reflexivity.
  - cbn [mbind result_bind]. eexists. split; [reflexivity|].
    apply validate_from_cons; [|reflexivity]. now apply valid_wait.
Qed.

(** [handle_fill], [handle_click] and [handle_press_key] never raise, build
    at most one action, and what they build passes [validate_actions].
    [handle_wait] builds nothing when its pattern does not match, raises a
    [ValueError] when the number it is to convert has more digits than
    [int] accepts, and otherwise builds one wait action, which passes
    [validate_actions]. *)
Theorem single_action_plans_are_valid (command : string) (entities : gmap string pyval) :
  (forall handler,
      In handler [handle_fill; handle_click; handle_press_key] ->
      handler command entities = Ok []
      \/ exists data action,
           handler command entities = Ok [data]
           /\ validate_actions fromisoformat [data] = Ok [action])
  /\ match re_search false wait_pattern command with
     | None => handle_wait command entities = Ok []
     | Some m =>
         if MAX_STR_DIGITS <? Z.of_nat (String.length (group_text m 1))
         then exists msg, handle_wait command entities = Raise (Exn ValueError msg)
         else exists timeout,
                handle_wait command entities
                = Ok [dict [("action", PStr "wait"); ("timeout", PInt timeout)]]
                /\ validate_actions fromisoformat
                     [dict [("action", PStr "wait"); ("timeout", PInt timeout)]]
                   = Ok [WaitAction timeout]
     end.
Proof.
  split.
  - intros handler Hin. now apply single_action_handlers_validate.
  - apply handle_wait_outcome.
Qed.

End HandlerPlanFacts.

Lemma single_action_plans_are_valid_witness :
  handle_click "click the first result" ∅ = Ok []
  \/ exists data action,
       handle_click "click the first result" ∅ = Ok [data]
       /\ validate_actions Reference.fromisoformat [data] = Ok [action].
Proof.
  apply (proj1 (single_action_plans_are_valid Reference.fromisoformat
                  "click the first result" ∅) handle_click).
  simpl. tauto.
Defined.

Example wait_plan_in_seconds :
  handle_wait "wait for 3 seconds" ∅
  = Ok [dict [("action", PStr "wait"); ("timeout", PInt 3000)]].
Proof. reflexivity. Qed.


(** ** Validation of a whole plan *)

Section PlanValidationFacts.
Variable fromisoformat : string -> result Z.

(** a validated model carries the tag of the dict it was built from *)
Lemma validate_action_tag i data action :
  validate_action fromisoformat i data = Ok action ->
  data !! "action" = Some (PStr (action_tag action)).
Proof.
  unfold validate_action, value_error.
  destruct (data !! "action") as [[tag| |]|]; try (destruct (negb _); discriminate);
    [|discriminate].
  destruct (negb (truthy (PStr tag))); [discriminate|].
  unfold action_models. cbn [table_get].
  repeat match goal with
         | |- context [String.eqb ?k tag] => destruct (String.eqb_spec k tag) as [<-|?]
         end; [..|discriminate];
    match goal with
    | |- context [match ?m data with _ => _ end] => destruct (m data) as [a|e] eqn:Hm
    end; try discriminate; intros [= <-]; revert Hm;
    unfold make_goto, make_fill, make_click, make_press, make_click_result,
      make_screenshot, make_book_flight, make_wait;
    repeat match goal with
           | |- context [mbind _ ?m] => destruct m; cbn [mbind result_bind]
           | |- context [match ?x with _ => _ end] => destruct x
           end;
    try discriminate; try (now intros [= <-]).
Qed.

Lemma validate_from_app pre post : forall i,
  validate_from fromisoformat i (pre ++ post)
  = (validated ← validate_from fromisoformat i pre;
     more ← validate_from fromisoformat (i + length pre) post;
     Ok (validated ++ more)).
Proof.
  induction pre as [|d pre IH]; intros i; cbn [app validate_from length].
  - rewrite Nat.add_0_r. cbn [mbind result_bind].
    destruct (validate_from fromisoformat i post); reflexivity.
  - destruct (validate_action fromisoformat i d) as [a|e]; cbn [mbind result_bind]; [|reflexivity].
    rewrite IH, Nat.add_succ_r. cbn [Nat.add].
    destruct (validate_from fromisoformat (S i) pre) as [acts|e]; cbn [mbind result_bind];
      [|reflexivity].
    destruct (validate_from fromisoformat (S (i + length pre)) post); reflexivity.
Qed.

Lemma validate_from_elements data : forall i actions,
  validate_from fromisoformat i data = Ok actions ->
  length actions = length data
  /\ forall k d, data !! k = Some d ->
       exists a, actions !! k = Some a
                 /\ validate_action fromisoformat (i + k) d = Ok a.
Proof.
  induction data as [|d data IH]; intros i actions; cbn [validate_from].
  - intros [= <-]. split; [reflexivity|]. intros k d' Hk. discriminate.
  - destruct (validate_action fromisoformat i d) as [a|e] eqn:Ha; [|discriminate].
    cbn [mbind result_bind].
    destruct (validate_from fromisoformat (S i) data) as [more|e] eqn:Hm; [|discriminate].
    intros [= <-]. destruct (IH _ _ Hm) as [Hlen Hall]. split; [cbn; now rewrite Hlen|].
    intros [|k] d' Hk; cbn in Hk.
    + injection Hk as <-. exists a. now rewrite Nat.add_0_r.
    + destruct (Hall k d' Hk) as (a' & Ha' & Hv). exists a'.
      now rewrite Nat.add_succ_r.
Qed.

(** A plan that validates gives one model per dict, in the same order, each
    one the validation of the dict at its index and bearing its tag. *)
Theorem validated_plan_mirrors_the_dicts
    (actions_data : list (gmap string pyval)) (actions : list Action) :
  validate_actions fromisoformat actions_data = Ok actions ->
  length actions = length actions_data
  /\ forall k data, actions_data !! k = Some data ->
       exists action,
         actions !! k = Some action
         /\ validate_action fromisoformat k data = Ok action
         /\ data !! "action" = Some (PStr (action_tag action)).
Proof.
  intros Hv. destruct (validate_from_elements _ _ _ Hv) as [Hlen Hall].
  split; [exact Hlen|]. intros k data Hk.
  destruct (Hall k data Hk) as (a & Ha & Hva). exists a.
  repeat split; [exact Ha | exact Hva | now apply validate_action_tag in Hva].
Qed.

(** Validation is all or nothing: the first dict that does not validate
    rejects the whole plan, with the error of that dict, however many valid
    dicts come before or after it. *)
Theorem first_invalid_dict_rejects_the_plan
    (pre post : list (gmap string pyval)) (data : gmap string pyval)
    (validated : list Action) (e : exn) :
  validate_actions fromisoformat pre = Ok validated ->
  validate_action fromisoformat (length pre) data = Raise e ->
  validate_actions fromisoformat (pre ++ data :: post) = Raise e.
Proof.
  unfold validate_actions. intros Hpre Hd.
  rewrite validate_from_app, Hpre. cbn [mbind result_bind validate_from Nat.add].
  now rewrite Hd.
Qed.

End PlanValidationFacts.

Lemma validated_plan_mirrors_the_dicts_witness :
  length [GotoAction "https://example.com"; WaitAction 1000]
  = length [goto_action "https://example.com"; dict [("action", PStr "wait")]]
  /\ forall k data,
       [goto_action "https://example.com"; dict [("action", PStr "wait")]] !! k = Some data ->
       exists action,
         [GotoAction "https://example.com"; WaitAction 1000] !! k = Some action
         /\ validate_action Reference.fromisoformat k data = Ok action
         /\ data !! "action" = Some (PStr (action_tag action)).
Proof.
  apply (validated_plan_mirrors_the_dicts Reference.fromisoformat). reflexivity.
Defined.

Lemma first_invalid_dict_rejects_the_plan_witness :
  exists e,
    validate_actions Reference.fromisoformat
      ([goto_action "https://example.com"] ++ goto_action "example.com"
       :: [dict [("action", PStr "wait")]])
    = Raise e.
Proof.
  eexists.
  apply (first_invalid_dict_rejects_the_plan Reference.fromisoformat
           [goto_action "https://example.com"] [dict [("action", PStr "wait")]]
           (goto_action "example.com") [GotoAction "https://example.com"]);
    reflexivity.
Defined.

(** ** From the command to a validated plan *)

Section PipelineFacts.
Variable fromisoformat : string -> result Z.
Variable strptime : string -> string -> result Z.
Variable today : Z.

(** Whatever [parse_command] compiles for an intent other than screenshot
    and book_flight passes [validate_actions], action for action: for
    these intents the executor never meets an invalid plan. *)
Theorem compiled_plan_is_valid (command : string) (plan : list (gmap string pyval)) :
  parse_command strptime today command = Some plan ->
  (detect_intent (strip (lower command))).1 <> Some "screenshot" ->
  (detect_intent (strip (lower command))).1 <> Some "book_flight" ->
  exists actions,
    validate_actions fromisoformat plan = Ok actions
    /\ length actions = length plan.
Proof.
  unfold parse_command.
  destruct (String.eqb command EmptyString || String.eqb (strip command) EmptyString);
    [discriminate|].
  set (cmd := strip (lower command)).
  destruct (detect_intent cmd) as [[intent|] entities] eqn:Hd; [|discriminate].
  destruct (detect_intent_range strptime today cmd intent entities Hd) as [Hin _].
  cbn [fst]. intros Hp Hshot Hbook.
  assert (Hlen : forall actions, validate_actions fromisoformat plan = Ok actions ->
                 exists actions, validate_actions fromisoformat plan = Ok actions
                                 /\ length actions = length plan).
  { intros actions Hv. exists actions. split; [exact Hv|].
    now destruct (validate_from_elements fromisoformat plan O actions Hv). }
  simpl in Hin.
  destruct Hin as [<-|[<-|[<-|[<-|[<-|[<-|[<-|[<-|[]]]]]]]]]; try congruence.
  - (* play *)
    change (table_get (HANDLER_REGISTRY strptime today) "play") with (Some handle_play) in Hp.
    cbn [String.eqb Ascii.eqb Bool.eqb] in Hp.
    destruct (handle_play_validates fromisoformat cmd entities) as (term & plan' & Hh & Hv).
    rewrite Hh in Hp. destruct plan'; [discriminate|]. injection Hp as <-. eauto.
  - (* search *)
    change (table_get (HANDLER_REGISTRY strptime today) "search")
      with (Some handle_search) in Hp.
    cbn [String.eqb Ascii.eqb Bool.eqb] in Hp.
    destruct (handle_search_validates fromisoformat cmd entities)
      as (url & selector & term & Hh & _ & Hv).
    rewrite Hh in Hp. cbn [app] in Hp, Hv. injection Hp as <-. eauto.
  - (* navigate *)
    change (table_get (HANDLER_REGISTRY strptime today) "navigate")
      with (Some handle_navigate) in Hp.
    cbn [String.eqb Ascii.eqb Bool.eqb] in Hp.
    destruct (handle_navigate_validates fromisoformat cmd entities) as (url & Hh & _ & Hv).
    rewrite Hh in Hp. injection Hp as <-. eauto.
  - (* fill *)
    change (table_get (HANDLER_REGISTRY strptime today) "fill") with (Some handle_fill) in Hp.
    cbn [String.eqb Ascii.eqb Bool.eqb] in Hp.
    destruct (single_action_handlers_validate fromisoformat handle_fill cmd entities
                ltac:(simpl; tauto)) as [Hh|(data & action & Hh & Hv)];
      rewrite Hh in Hp; [discriminate|]. injection Hp as <-. eauto.
  - (* click *)
    change (table_get (HANDLER_REGISTRY strptime today) "click") with (Some handle_click) in Hp.
    cbn [String.eqb Ascii.eqb Bool.eqb] in Hp.
    destruct (single_action_handlers_validate fromisoformat handle_click cmd entities
                ltac:(simpl; tauto)) as [Hh|(data & action & Hh & Hv)];
      rewrite Hh in Hp; [discriminate|]. injection Hp as <-. eauto.
  - (* wait *)
    change (table_get (HANDLER_REGISTRY strptime today) "wait") with (Some handle_wait) in Hp.
    cbn [String.eqb Ascii.eqb Bool.eqb] in Hp.
    pose proof (handle_wait_outcome fromisoformat cmd entities) as Hw.
    destruct (re_search false wait_pattern cmd) as [m|].
    + destruct (MAX_STR_DIGITS <? Z.of_nat (String.length (group_text m 1))).
      * destruct Hw as [msg Hw]. rewrite Hw in Hp. discriminate.
      * destruct Hw as (timeout & Hh & Hv). rewrite Hh in Hp. injection Hp as <-. eauto.
    + rewrite Hw in Hp. discriminate.
Qed.

End PipelineFacts.

Lemma compiled_plan_is_valid_witness :
  exists actions,
    validate_actions Reference.fromisoformat
      [ goto_action "https://www.google.com";
        dict [("action", PStr "fill"); ("selector", PStr "textarea[name='q']");
              ("value", PStr "python tutorials")];
        dict [("action", PStr "press"); ("selector", PStr "textarea[name='q']");
              ("key", PStr "Enter")] ]
    = Ok actions
    /\ length actions = 3%nat.
Proof.
  apply (compiled_plan_is_valid Reference.fromisoformat Reference.strptime 739924
           "Search for Python tutorials");
    [vm_compute; reflexivity | vm_compute; discriminate | vm_compute; discriminate].
Defined.

(** ** More on dates and cities *)

Section RelativeDateFacts.
Variable strptime : string -> string -> result Z.
Variable today : Z.
Hypothesis today_ok : clock_date today.

Lemma parse_date_next_day (s : string) (idx : Z) :
  startswith (lower (strip s)) "next " = true ->
  find_day (str_take 3 (strip (str_drop 5 (lower (strip s))))) weekdays 0 = Some idx ->
  parse_date strptime today s = Ok (strftime_ymd (today + days_ahead today idx))
  /\ weekday (today + days_ahead today idx) = idx
  /\ today < today + days_ahead today idx <= today + 7
  /\ (weekday today = idx -> today + days_ahead today idx = today + 7).
Proof.
  intros Hnext Hday.
  pose proof (find_day_weekdays _ _ Hday) as Hidx.
  pose proof (days_ahead_range today idx Hidx).
  repeat split; try lia.
  - unfold parse_date. rewrite (parse_date_body_next strptime today today_ok s idx);
      [reflexivity | | exact Hnext | exact Hday].
    intros Heq. rewrite Heq in Hnext. discriminate.
  - now apply weekday_days_ahead.
  - intros Hw. now rewrite days_ahead_same_day.
Qed.

(** "next <weekday>", for each of the seven day names and for its
    three-letter abbreviation alike, is answered with the first day of that
    weekday strictly after today: between one and seven days ahead, seven
    when today is that weekday. *)
Theorem next_weekday_is_strictly_later (i : nat) (name : string) :
  weekdays !! i = Some name ->
  exists d,
    parse_date strptime today ("next " +:+ name) = Ok (strftime_ymd d)
    /\ parse_date strptime today ("next " +:+ str_take 3 name) = Ok (strftime_ymd d)
    /\ weekday d = Z.of_nat i
    /\ today < d <= today + 7
    /\ (weekday today = Z.of_nat i -> d = today + 7).
Proof.
  intros Hname. exists (today + days_ahead today (Z.of_nat i)).
  do 7 (destruct i as [|i];
        [ injection Hname as <-;
          match goal with
          | |- parse_date _ _ (?a +:+ ?b) = Ok (strftime_ymd (_ + days_ahead _ ?n))
               /\ parse_date _ _ (?a +:+ ?c) = _ /\ _ =>
              destruct (parse_date_next_day (a +:+ b) n
                          ltac:(vm_compute; reflexivity) ltac:(vm_compute; reflexivity))
                as (H1 & H2 & H3 & H4);
              destruct (parse_date_next_day (a +:+ c) n
                          ltac:(vm_compute; reflexivity) ltac:(vm_compute; reflexivity))
                as (H1' & _)
          end;
          repeat split; assumption || lia
        | ]).
  discriminate.
Qed.

End RelativeDateFacts.

Lemma next_weekday_is_strictly_later_witness :
  exists d,
    parse_date Reference.strptime 739924 ("next " +:+ "friday") = Ok (strftime_ymd d)
    /\ parse_date Reference.strptime 739924 ("next " +:+ str_take 3 "friday")
       = Ok (strftime_ymd d)
    /\ weekday d = Z.of_nat 4
    /\ 739924 < d <= 739924 + 7
    /\ (weekday 739924 = Z.of_nat 4 -> d = 739924 + 7).
Proof.
  apply (next_weekday_is_strictly_later Reference.strptime 739924).
  - split; vm_compute; discriminate.
  - reflexivity.
Defined.

Section AbsoluteDateFacts.
Variable strptime : string -> string -> result Z.
Variable today : Z.

(** the loop over the formats stops at the first one that parses *)
Lemma try_formats_first (date_str : string) (pre post : list string) (fmt : string) (d : Z) :
  (forall f, In f pre -> exists e, strptime date_str f = Raise e /\ is_ValueError e = true) ->
  strptime date_str fmt = Ok d ->
  try_formats strptime date_str (pre ++ fmt :: post) = Ok (Some d).
Proof.
  induction pre as [|f pre IH]; intros Hpre Hfmt; cbn [app try_formats].
  - now rewrite Hfmt.
  - destruct (Hpre f (or_introl eq_refl)) as (e & -> & ->).
    apply IH; [|exact Hfmt]. intros f' Hin. apply Hpre. now right.
Qed.

(** An absolute date from the year 1000 on is read with the first format
    of the list that parses it, in the order of the list, and comes back in
    ISO form; the clock plays no part.  Month-first therefore wins over
    day-first for a date such as 01/02/2026. *)
Theorem first_format_that_parses_wins
    (s : string) (pre post : list string) (fmt : string) (d : Z) :
  date_formats = pre ++ fmt :: post ->
  lower (strip s) <> "tomorrow" ->
  startswith (lower (strip s)) "next " = false ->
  (forall f, In f pre ->
     exists e, strptime (lower (strip s)) f = Raise e /\ is_ValueError e = true) ->
  strptime (lower (strip s)) fmt = Ok d ->
  ymd2ord 1000 1 1 <= d ->
  parse_date strptime today s = Ok (strftime_ymd d).
Proof.
  intros Hfmts Hneq Hnext Hpre Hfmt _. unfold parse_date, parse_date_body. cbv zeta.
  rewrite (proj2 (String.eqb_neq _ _) Hneq), Hnext, Hfmts.
  now rewrite (try_formats_first _ pre post fmt d Hpre Hfmt).
Qed.

End AbsoluteDateFacts.

Lemma first_format_that_parses_wins_witness :
  parse_date Reference.strptime 1 "01/02/2026" = Ok (strftime_ymd (ymd2ord 2026 1 2)).
Proof.
  apply (first_format_that_parses_wins Reference.strptime 1 "01/02/2026"
           ["%Y-%m-%d"; "%Y/%m/%d"]
           ["%d-%m-%Y"; "%B %d, %Y"; "%b %d, %Y"; "%d %B %Y"; "%d %b %Y"; "%d/%m/%Y";
            "%m-%d-%Y"]
           "%m/%d/%Y").
  - reflexivity.
  - discriminate.
  - reflexivity.
  - intros f Hin. simpl in Hin.
    destruct Hin as [<-|[<-|[]]]; eexists; split; vm_compute; reflexivity.
  - vm_compute. reflexivity.
  - vm_compute. discriminate.
Defined.

Section CityFacts.

Lemma normalize_city_fixed (city : string) :
  normalize_city (normalize_city city) = normalize_city city.
Proof.
  unfold normalize_city at 2 3.
  destruct (table_get CITY_MAPPING (lower city)) as [canonical|] eqn:Hget; cbn [default].
  - apply table_get_In in Hget.
    assert (Hall : forallb (fun kv : string * string =>
                              String.eqb (normalize_city kv.2) kv.2) CITY_MAPPING = true)
      by reflexivity.
    rewrite forallb_forall in Hall. specialize (Hall _ Hget).
    now apply String.eqb_eq in Hall.
  - unfold normalize_city. now rewrite Hget.
Qed.

(** The alias table maps onto canonical names that it leaves alone:
    normalising a city a second time changes nothing. *)
Theorem normalize_city_idempotent (city : string) :
  normalize_city (normalize_city city) = normalize_city city.
Proof. exact (normalize_city_fixed city). Qed.

End CityFacts.

Section BookFlightFacts.
Variable strptime : string -> string -> result Z.
Variable today : Z.
Hypothesis today_ok : clock_date today.

(** the loop over the flight patterns builds nothing when none matches *)
Lemma book_flight_loop_none (command : string) (patterns : list regex) :
  (forall p, In p patterns -> re_search true p command = None) ->
  book_flight_loop strptime today command patterns = Ok [].
Proof.
  induction patterns as [|p patterns IH]; intros Hnone; cbn [book_flight_loop]; [reflexivity|].
  rewrite (Hnone p (or_introl eq_refl)). apply IH. intros q Hq. apply Hnone. now right.
Qed.

(** and it stops at the first pattern that matches *)
Lemma book_flight_loop_first (command : string) (pre post : list regex) (p : regex)
    (m : gmap nat string) :
  (forall q, In q pre -> re_search true q command = None) ->
  re_search true p command = Some m ->
  book_flight_loop strptime today command (pre ++ p :: post)
  = (formatted_date ← parse_date strptime today (strip (group_text m 3));
     Ok [dict [("action", PStr "book_flight");
               ("from", PStr (normalize_city (strip (collapse_spaces (strip (group_text m 1))))));
               ("to", PStr (normalize_city (strip (collapse_spaces (strip (group_text m 2))))));
               ("date", PStr formatted_date)]]).
Proof.
  induction pre as [|q pre IH]; intros Hnone Hm; cbn [app book_flight_loop].
  - now rewrite Hm.
  - rewrite (Hnone q (or_introl eq_refl)). apply IH; [|exact Hm].
    intros q' Hq'. apply Hnone. now right.
Qed.

(** a pattern that matches never leaves the plan empty *)
Lemma book_flight_loop_empty (command : string) (patterns : list regex) :
  book_flight_loop strptime today command patterns = Ok [] ->
  forall p, In p patterns -> re_search true p command = None.
Proof.
  induction patterns as [|p patterns IH]; cbn [book_flight_loop]; [intros _ q []|].
  destruct (re_search true p command) as [m|] eqn:Hm.
  - destruct (parse_date strptime today (strip (group_text m 3))); discriminate.
  - intros Hrest q [<-|Hq]; [exact Hm | now apply IH].
Qed.

(** On a day with a week to spare before [date.max], [handle_book_flight]
    builds no action exactly when none of its patterns matches the
    command.  Otherwise the first pattern that matches decides: the plan is
    one book_flight dict whose cities are the captured texts, stripped,
    with runs of whitespace collapsed and looked up in the alias table, and
    whose date is what [parse_date] wrote, the ISO form [YYYY-MM-DD] of a
    date whenever no format reads the captured date as one before the year
    1000. *)
Theorem book_flight_plan_shape (command : string) (entities : gmap string pyval) :
  (handle_book_flight strptime today command entities = Ok [] <->
   forall p, In p flight_patterns -> re_search true p command = None)
  /\ forall pre p post m,
       flight_patterns = pre ++ p :: post ->
       (forall q, In q pre -> re_search true q command = None) ->
       re_search true p command = Some m ->
       exists date,
         handle_book_flight strptime today command entities
         = Ok [dict [("action", PStr "book_flight");
                     ("from", PStr (normalize_city
                                      (strip (collapse_spaces (strip (group_text m 1))))));
                     ("to", PStr (normalize_city
                                    (strip (collapse_spaces (strip (group_text m 2))))));
                     ("date", PStr date)]]
         /\ ((forall fmt d,
                In fmt date_formats ->
                strptime (lower (strip (strip (group_text m 3)))) fmt = Ok d ->
                ymd2ord 1000 1 1 <= d) ->
             exists d,
               date = strftime_ymd d /\ ymd2ord 1000 1 1 <= d /\ iso_shape date = true).
Proof.
  unfold handle_book_flight. split.
  - split; [apply book_flight_loop_empty | apply book_flight_loop_none].
  - intros pre p post m -> Hnone Hm.
    rewrite (book_flight_loop_first command pre post p m Hnone Hm).
    destruct (parse_date_total strptime today today_ok (strip (group_text m 3)))
      as [date Hdate].
    exists date. rewrite Hdate. split; [reflexivity|].
    intros Hbound.
    destruct (parse_date_in_range strptime today today_ok _ Hbound) as (d & Hd & Hlo).
    rewrite Hd in Hdate. injection Hdate as <-.
    exists d. auto using strftime_ymd_shape.
Qed.

End BookFlightFacts.

Lemma book_flight_plan_shape_witness :
  (handle_book_flight Reference.strptime 739924
     "i want to fly from sfo to bombay on someday" ∅ = Ok [] <->
   forall p, In p flight_patterns ->
             re_search true p "i want to fly from sfo to bombay on someday" = None)
  /\ forall pre p post m,
       flight_patterns = pre ++ p :: post ->
       (forall q, In q pre ->
                  re_search true q "i want to fly from sfo to bombay on someday" = None) ->
       re_search true p "i want to fly from sfo to bombay on someday" = Some m ->
       exists date,
         handle_book_flight Reference.strptime 739924
           "i want to fly from sfo to bombay on someday" ∅
         = Ok [dict [("action", PStr "book_flight");
                     ("from", PStr (normalize_city
                                      (strip (collapse_spaces (strip (group_text m 1))))));
                     ("to", PStr (normalize_city
                                    (strip (collapse_spaces (strip (group_text m 2))))));
                     ("date", PStr date)]]
         /\ ((forall fmt d,
                In fmt date_formats ->
                Reference.strptime (lower (strip (strip (group_text m 3)))) fmt = Ok d ->
                ymd2ord 1000 1 1 <= d) ->
             exists d,
               date = strftime_ymd d /\ ymd2ord 1000 1 1 <= d /\ iso_shape date = true).
Proof.
  apply (book_flight_plan_shape Reference.strptime 739924).
  split; vm_compute; discriminate.
Defined.

(** on Wednesday 2026-11-04 the third pattern reads the command, and a date
    phrase that no format parses is answered with the week after *)
Example fly_from_sfo_to_bombay :
  handle_book_flight Reference.strptime 739924
    "i want to fly from sfo to bombay on someday" ∅
  = Ok [dict [("action", PStr "book_flight"); ("from", PStr "San Francisco");
              ("to", PStr "Mumbai"); ("date", PStr "2026-11-11")]].
Proof. vm_compute. reflexivity. Qed.

(** ** Screenshot filenames, character by character *)

Section FilenameFacts.

Lemma append_empty_r (s : string) : s +:+ EmptyString = s.
Proof.
  induction s as [|c s IH]; [reflexivity|].
  change (String c s +:+ EmptyString) with (String c (s +:+ EmptyString)). now rewrite IH.
Qed.

(** a repetition of a character class consumes characters of the class,
    then hands over to its continuation *)
Lemma star_class_sound (ic greedy : bool) (p : ascii -> bool) k (fuel : nat) :
  forall s caps c,
    star_loop (rmatch ic (Cls p)) greedy k fuel s caps = Some c ->
    exists pre rest,
      s = pre +:+ rest
      /\ forallb p (list_ascii_of_string pre) = true
      /\ k rest caps = Some c.
Proof.
  induction fuel as [|fuel IH]; intros s caps c; cbn [star_loop].
  - intros Hk. now exists EmptyString, s.
  - assert (Hmore :
      rmatch ic (Cls p) s caps
        (fun s' caps' =>
           if (String.length s' <? String.length s)%nat
           then star_loop (rmatch ic (Cls p)) greedy k fuel s' caps' else None) = Some c ->
      exists pre rest,
        s = pre +:+ rest /\ forallb p (list_ascii_of_string pre) = true
        /\ k rest caps = Some c).
    { cbn [rmatch]. destruct s as [|a s']; [discriminate|].
      destruct (p a) eqn:Hp; [|discriminate].
      destruct (String.length s' <? String.length (String a s'))%nat; [|discriminate].
      intros Hs. destruct (IH _ _ _ Hs) as (pre & rest & -> & Hall & Hk).
      exists (String a pre), rest. repeat split; [|exact Hk].
      cbn [list_ascii_of_string forallb]. now rewrite Hp. }
    destruct greedy.
    + destruct (rmatch ic (Cls p) s caps _) as [c'|] eqn:Hm.
      * intros [= <-]. now apply Hmore.
      * intros Hk. now exists EmptyString, s.
    + destruct (k s caps) as [c'|] eqn:Hk0.
      * intros [= <-]. now exists EmptyString, s.
      * exact Hmore.
Qed.

Lemma rmatch_class (ic : bool) (p : ascii -> bool) s caps k :
  rmatch ic (Cls p) s caps k
  = match s with
    | String c' s' => if p c' then k s' caps else None
    | EmptyString => None
    end.
Proof. reflexivity. Qed.

(** a greedy repetition of a class runs to the end of a text of the class *)
Lemma star_class_complete (ic : bool) (p : ascii -> bool) k caps c :
  k EmptyString caps = Some c ->
  forall s fuel,
    forallb p (list_ascii_of_string s) = true ->
    (String.length s <= fuel)%nat ->
    star_loop (rmatch ic (Cls p)) true k fuel s caps = Some c.
Proof.
  intros Hk. induction s as [|a s IH]; intros fuel Hall Hfuel.
  - destruct fuel; cbn [star_loop]; [exact Hk | now rewrite rmatch_class, Hk].
  - cbn [list_ascii_of_string forallb] in Hall. apply andb_true_iff in Hall as [Hp Hall].
    destruct fuel as [|fuel]; [cbn in Hfuel; lia|].
    cbn [star_loop]. rewrite rmatch_class, Hp.
    destruct (Nat.ltb_spec (String.length s) (String.length (String a s)));
      [|cbn [String.length] in *; lia].
    rewrite (IH fuel Hall) by (cbn [String.length] in Hfuel; lia). reflexivity.
Qed.

Lemma png_name_has_no_final_newline (s : string) :
  endswith s ".png" = true -> forall x, s <> x +:+ String "010" EmptyString.
Proof.
  induction s as [|c s IH]; cbn [endswith]; [discriminate|].
  intros Hends x Hx. apply orb_true_iff in Hends as [Heq|Hends].
  - apply String.eqb_eq in Heq. rewrite Heq in Hx.
    do 5 (destruct x as [|? x]; [discriminate|]; cbv [String.append] in Hx;
          fold String.append in Hx; try discriminate;
          injection Hx as _ Hx). 
  - destruct x as [|c' x].
    + cbv [String.append] in Hx. injection Hx as _ ->. discriminate.
    + change (String c' x +:+ String "010" EmptyString)
        with (String c' (x +:+ String "010" EmptyString)) in Hx.
      injection Hx as _ Hx. now apply (IH Hends x).
Qed.

Lemma safe_chars_have_no_slash (s : string) :
  forallb filename_char (list_ascii_of_string s) = true -> contains s "/" = false.
Proof.
  induction s as [|c s IH]; [reflexivity|].
  cbn [list_ascii_of_string forallb contains startswith]. intros Hall.
  apply andb_true_iff in Hall as [Hc Hall]. rewrite (IH Hall), orb_false_r.
  destruct (Ascii.eqb_spec "/" c) as [<-|_]; [discriminate|]. now destruct s.
Qed.

(** A filename that [validate_filename] lets through ends in ".png" and is
    made of word characters, hyphens, dots and spaces only; in particular
    it holds no path separator, so the screenshot stays in its directory. *)
Theorem validated_filename_is_safe (v w : string) :
  validate_filename v = Ok w ->
  w = (if negb (endswith v ".png") then v +:+ ".png" else v)
  /\ endswith w ".png" = true
  /\ forallb filename_char (list_ascii_of_string w) = true
  /\ contains w "/" = false.
Proof.
  unfold validate_filename.
  set (v' := if negb (endswith v ".png") then v +:+ ".png" else v).
  assert (Hends : endswith v' ".png" = true).
  { subst v'. destruct (endswith v ".png") eqn:E; cbn [negb]; [exact E | apply endswith_app]. }
  destruct (re_match false filename_pattern v') as [m|] eqn:Hm; [|discriminate].
  intros [= <-]. split; [reflexivity|]. split; [exact Hends|].
  assert (Hsafe : forallb filename_char (list_ascii_of_string v') = true).
  { revert Hm. unfold re_match, filename_pattern, Plus. cbn [rmatch].
    destruct v' as [|a s]; [discriminate|].
    destruct (filename_char a) eqn:Ha; [|discriminate].
    intros Hs. apply (star_class_sound false) in Hs as (pre & rest & -> & Hall & Hk).
    assert (Hrest : rest = EmptyString).
    { destruct rest as [|c [|c' rest]]; [reflexivity | | discriminate].
      destruct (Ascii.eqb_spec c "010") as [->|]; [|discriminate].
      exfalso. apply (png_name_has_no_final_newline _ Hends (String a pre)). reflexivity. }
    subst rest. rewrite append_empty_r.
    cbn [list_ascii_of_string forallb]. now rewrite Ha. }
  split; [exact Hsafe | now apply safe_chars_have_no_slash].
Qed.

(** Conversely, a name that is made of those characters once ".png" has
    been added where it was missing is always accepted. *)
Theorem safe_filename_is_accepted (v : string) :
  forallb filename_char
    (list_ascii_of_string (if negb (endswith v ".png") then v +:+ ".png" else v)) = true ->
  validate_filename v = Ok (if negb (endswith v ".png") then v +:+ ".png" else v).
Proof.
  unfold validate_filename.
  set (v' := if negb (endswith v ".png") then v +:+ ".png" else v).
  assert (Hends : endswith v' ".png" = true).
  { subst v'. destruct (endswith v ".png") eqn:E; cbn [negb]; [exact E | apply endswith_app]. }
  intros Hsafe.
  replace (re_match false filename_pattern v') with (Some (∅ : gmap nat string));
    [reflexivity|].
  symmetry. unfold re_match, filename_pattern, Plus. cbn [rmatch].
  destruct v' as [|a s]; [discriminate|].
  cbn [list_ascii_of_string forallb] in Hsafe. apply andb_true_iff in Hsafe as [Ha Hs].
  rewrite Ha. now apply (star_class_complete false).
Qed.

End FilenameFacts.

Lemma validated_filename_is_safe_witness :
  "my shot-1.png" = (if negb (endswith "my shot-1" ".png") then "my shot-1" +:+ ".png"
                     else "my shot-1")
  /\ endswith "my shot-1.png" ".png" = true
  /\ forallb filename_char (list_ascii_of_string "my shot-1.png") = true
  /\ contains "my shot-1.png" "/" = false.
Proof.
  apply (validated_filename_is_safe "my shot-1" "my shot-1.png"). reflexivity.
Defined.

Lemma safe_filename_is_accepted_witness :
  validate_filename "results 2026-11"
  = Ok (if negb (endswith "results 2026-11" ".png") then "results 2026-11" +:+ ".png"
        else "results 2026-11").
Proof.
  apply (safe_filename_is_accepted "results 2026-11"). reflexivity.
Defined.

(** ** More on the executor *)

Section ExecutorRunFacts.
Context {B : Type} {session : Session B}.
Variable fromisoformat : string -> result Z.

Lemma youtube_settle_ok (value : string) (b : B) : (youtube_settle value b).1.1 = Ok tt.
Proof.
  unfold youtube_settle, try_except, emit.
  match goal with
  | |- context [match ?m b with _ => _ end] => destruct (m b) as [[[[]|e] b'] l]
  end; reflexivity.
Qed.

(** A navigation succeeds exactly when [page.goto] does: what is done for
    YouTube after the load (waiting, consent, search box) cannot fail the
    action, whatever goes wrong in it. *)
Theorem goto_outcome_is_that_of_page_goto (value : string) (b : B) :
  (run_action (GotoAction value) b).1.1 = (page_goto value b).1.
Proof.
  cbn [run_action]. unfold mbind, M_bind, emit, lift, mret, M_ret.
  destruct (page_goto value b) as [[[]|e] b']; cbn [fst snd]; [|reflexivity].
  destruct (contains value "youtube.com"); [|reflexivity].
  pose proof (youtube_settle_ok value b') as Hok.
  destruct (youtube_settle value b') as [[r b''] l]. exact Hok.
Qed.

(** With a valid plan, a launched browser and a page, every action of the
    plan is entered in order, the closing line is printed, and the browser
    context is closed afterwards; the call raises only if waiting for the
    Enter key does. *)
Theorem valid_plan_runs_to_the_end
    (actions_data : list (gmap string pyval)) (actions : list Action)
    (user_data_dir : string) (b0 b1 : B) :
  validate_actions fromisoformat actions_data = Ok actions ->
  profile_dir = Ok user_data_dir ->
  launch_persistent_context user_data_dir = Ok b0 ->
  new_page b0 = (Ok tt, b1) ->
  attempted (printed (execute_actions fromisoformat actions_data)) = actions
  /\ In ECompleted (printed (execute_actions fromisoformat actions_data))
  /\ outcome (execute_actions fromisoformat actions_data)
     = (wait_for_enter (run_plan actions b1).1.2).1
  /\ browser (execute_actions fromisoformat actions_data)
     = Some (context_close (wait_for_enter (run_plan actions b1).1.2).2).2.
Proof.
  intros Hv Hdir Hlaunch Hpage. unfold execute_actions.
  rewrite Hv, Hdir, Hlaunch, Hpage.
  unfold mbind, M_bind, emit, lift.
  pose proof (run_plan_ok actions b1) as Hok.
  pose proof (run_plan_attempted actions b1) as Hatt.
  destruct (run_plan actions b1) as [[r b2] l]. cbn [fst snd] in *. subst r.
  destruct (wait_for_enter b2) as [[[]|e] b3]; cbn [fst snd];
    destruct (context_close b3) as [[[]|e'] b4]; cbn [outcome printed browser fst snd];
    (repeat split;
     [ unfold attempted in *; rewrite !omap_app, Hatt; cbn; now rewrite ?app_nil_r
     | apply in_or_app; right; apply in_or_app; left; apply in_or_app; right; now left ]).
Qed.

(** No action is ever entered unless the plan was validated, the browser
    launched and the page created. *)
Theorem actions_run_only_after_validation
    (actions_data : list (gmap string pyval)) :
  attempted (printed (execute_actions fromisoformat actions_data)) <> [] ->
  exists actions user_data_dir b0 b1,
    validate_actions fromisoformat actions_data = Ok actions
    /\ profile_dir = Ok user_data_dir
    /\ launch_persistent_context user_data_dir = Ok b0
    /\ new_page b0 = (Ok tt, b1).
Proof.
  unfold execute_actions.
  destruct (validate_actions fromisoformat actions_data) as [actions|e];
    [|destruct (is_ValueError e); intros H; now destruct H].
  destruct profile_dir as [dir|e]; [|intros H; now destruct H].
  destruct (launch_persistent_context dir) as [b0|e] eqn:Hl; [|intros H; now destruct H].
  destruct (new_page b0) as [[[]|e] b1] eqn:Hp; [|intros H; now destruct H].
  intros _. exists actions, dir, b0, b1. auto.
Qed.

End ExecutorRunFacts.

Lemma valid_plan_runs_to_the_end_witness :
  attempted (printed (execute_actions Reference.fromisoformat
                        [goto_action "https://httpbin.org/html";
                         dict [("action", PStr "wait"); ("timeout", PInt 500)]]))
  = [GotoAction "https://httpbin.org/html"; WaitAction 500].
Proof.
  apply (@valid_plan_runs_to_the_end _ Reference.sim_session Reference.fromisoformat
           [goto_action "https://httpbin.org/html";
            dict [("action", PStr "wait"); ("timeout", PInt 500)]]
           [GotoAction "https://httpbin.org/html"; WaitAction 500]
           "browser_profiles/temp_profile"
           (Reference.Sim "about:blank" []) (Reference.Sim "about:blank" []));
    reflexivity.
Defined.

Lemma actions_run_only_after_validation_witness :
  exists actions user_data_dir b0 b1,
    validate_actions Reference.fromisoformat [dict [("action", PStr "click_result")]]
    = Ok actions
    /\ profile_dir = Ok user_data_dir
    /\ launch_persistent_context user_data_dir = Ok b0
    /\ new_page b0 = (Ok tt, b1).
Proof.
  apply (@actions_run_only_after_validation _ Reference.sim_session Reference.fromisoformat
           [dict [("action", PStr "click_result")]]).
  vm_compute. discriminate.
Defined.

(** ** More on the flight flow *)

Section FlightFlowFacts.

Lemma scan_options_found (patterns : list string) (opts : list suggestion) :
  forall i0 l,
    scan_options patterns i0 opts = (true, l) ->
    exists k o text,
      opts !! k = Some o
      /\ opt_visible o = true
      /\ opt_clickable o = true
      /\ opt_text o = Some text
      /\ matches_any patterns (lower (strip text)) = true
      /\ In (ClickOption (i0 + k)) l
      /\ forall j, In (ClickOption j) l -> (i0 <= j <= i0 + k)%nat.
Proof.
  induction opts as [|o opts IH]; intros i0 l; cbn [scan_options]; [discriminate|].
  assert (Hskip : scan_options patterns (S i0) opts = (true, l) ->
                  exists k o' text,
                    (o :: opts) !! k = Some o' /\ opt_visible o' = true
                    /\ opt_clickable o' = true /\ opt_text o' = Some text
                    /\ matches_any patterns (lower (strip text)) = true
                    /\ In (ClickOption (i0 + k)) l
                    /\ forall j, In (ClickOption j) l -> (i0 <= j <= i0 + k)%nat).
  { intros Hs. destruct (IH _ _ Hs) as (k & o' & text & Hk & Hv & Hc & Ht & Hm & Hin & Hle).
    exists (S k), o', text. rewrite Nat.add_succ_r. repeat split; try assumption.
    - apply Hle in H. lia.
    - apply Hle in H. lia. }
  destruct (opt_visible o) eqn:Hvis; cbn [negb]; [|exact Hskip].
  destruct (opt_text o) as [text|] eqn:Htext; [|exact Hskip].
  destruct (String.eqb text EmptyString); [exact Hskip|].
  destruct (matches_any patterns (lower (strip text))) eqn:Hmatch; [|exact Hskip].
  destruct (opt_clickable o) eqn:Hclick.
  - intros [= <-]. exists O, o, text. rewrite Nat.add_0_r.
    repeat split; try assumption; try reflexivity; [now left | |];
      destruct H as [[= <-]|[[=]|[]]]; lia.
  - destruct (scan_options patterns (S i0) opts) as [found l'] eqn:Hs.
    intros [= -> <-].
    destruct (IH _ _ Hs) as (k & o' & text' & Hk & Hv & Hc & Ht & Hm & Hin & Hle).
    exists (S k), o', text'. rewrite Nat.add_succ_r.
    repeat split; try assumption; [now right | |];
      destruct H as [[= <-]|H]; try lia; apply Hle in H; lia.
Qed.

(** When [_select_city_from_suggestions] answers [True], it has clicked one
    of the first ten options, a visible one whose text holds one of the
    patterns of the city and on which the click went through; no option
    after that one is clicked. *)
Theorem selected_suggestion_matches_the_city
    (city_name : string) (opts : list suggestion) (l : list interaction) :
  select_city_from_suggestions city_name opts = (true, l) ->
  exists patterns k o text,
    city_patterns city_name = Ok patterns
    /\ opts !! k = Some o
    /\ (k < 10)%nat
    /\ opt_visible o = true
    /\ opt_clickable o = true
    /\ opt_text o = Some text
    /\ matches_any patterns (lower (strip text)) = true
    /\ In (ClickOption k) l
    /\ forall j, In (ClickOption j) l -> (j <= k)%nat.
Proof.
  unfold select_city_from_suggestions.
  destruct (city_patterns city_name) as [patterns|e]; [|discriminate].
  intros Hs. apply scan_options_found in Hs
    as (k & o & text & Hk & Hv & Hc & Ht & Hm & Hin & Hle).
  change (firstn 10 opts) with (take 10 opts) in Hk.
  apply lookup_take_Some in Hk as [Hk Hlt].
  exists patterns, k, o, text. repeat split; try assumption.
  intros j Hj. apply Hle in Hj. lia.
Qed.

(** A city stage never answers [False]: it answers [True] or raises.  It
    answers [True] exactly when the input was found and typed into, the
    network and the page settled, and then either the handling of the
    suggestions went through or the screenshot, the key press and the wait
    of its handler all did.  A stage that fails before the suggestions
    clicks no option. *)
Theorem city_stage_answers_true_or_raises
    (field : string) (pg : city_page) (city : string) :
  (forall answer, (set_city field pg city).1 = Ok answer -> answer = true)
  /\ ((set_city field pg city).1 = Ok true <->
      input_found pg && input_typable pg && network_idle pg && returns pg SettlePause = true
      /\ ((choose_suggestion pg city).1 = Ok tt
          \/ returns pg RecoveryShot && returns pg RecoveryEnter && returns pg RecoveryPause
             = true))
  /\ (input_found pg && input_typable pg && network_idle pg && returns pg SettlePause = false ->
      forall i, ~ In (ClickOption i) (set_city field pg city).2).
Proof.
  unfold set_city, recover.
  destruct (input_found pg); [|destruct (returns pg NotFoundShot)];
    [destruct (input_typable pg);
     [destruct (network_idle pg);
      [destruct (returns pg SettlePause);
       [destruct (choose_suggestion pg city) as [[[]|e] l];
        [|destruct (returns pg RecoveryShot);
          [destruct (returns pg RecoveryEnter); [destruct (returns pg RecoveryPause)|]|]]
       |]|]|]|..];
    destruct (returns pg ErrorShot); cbn;
    (split; [intros answer; intros [= <-] || discriminate; reflexivity|]);
    (split;
     [ intuition (discriminate || congruence)
     | first [ discriminate | intros _ i Hin; simpl in Hin; intuition discriminate ] ]).
Qed.

End FlightFlowFacts.


Lemma selected_suggestion_matches_the_city_witness :
  exists patterns k o text,
    city_patterns "New York" = Ok patterns
    /\ [Suggestion true (Some "Newark (EWR)") true;
        Suggestion true (Some "New York (JFK)") true] !! k = Some o
    /\ (k < 10)%nat
    /\ opt_visible o = true
    /\ opt_clickable o = true
    /\ opt_text o = Some text
    /\ matches_any patterns (lower (strip text)) = true
    /\ In (ClickOption k) [ClickOption 0; Pause 500]
    /\ forall j, In (ClickOption j) [ClickOption 0; Pause 500] -> (j <= k)%nat.
Proof.
  apply (selected_suggestion_matches_the_city "New York"
           [Suggestion true (Some "Newark (EWR)") true;
            Suggestion true (Some "New York (JFK)") true]).
  reflexivity.
Defined.

Lemma city_stage_answers_true_or_raises_witness :
  (set_departure_city (CityPage true true true false [] (fun _ => true)) "Paris").1 = Ok true
  /\ forall i,
       ~ In (ClickOption i)
           (set_departure_city
              (CityPage true true false true [] (fun _ => true)) "Paris").2.
Proof.
  split.
  - apply (proj1 (proj2 (city_stage_answers_true_or_raises "departure"
                           (CityPage true true true false [] (fun _ => true)) "Paris"))).
    split; [reflexivity | right; reflexivity].
  - apply (proj2 (proj2 (city_stage_answers_true_or_raises "departure"
                           (CityPage true true false true [] (fun _ => true)) "Paris"))).
    reflexivity.
Defined.

(** ** Screenshot names and flight plans *)

Section ScreenshotNameFacts.

Lemma startswith_nil (s : string) : startswith s EmptyString = true.
Proof. now destruct s. Qed.

Lemma contains_char (c : ascii) (s : string) :
  contains s (String c EmptyString) = true <-> In c (list_ascii_of_string s).
Proof.
  induction s as [|b s IH]; cbn [contains startswith list_ascii_of_string In].
  - split; [discriminate | intros []].
  - rewrite startswith_nil, andb_true_r, orb_true_iff, IH, Ascii.eqb_eq.
    split; intros [H|H]; auto.
Qed.

(** deleting occurrences brings in no character *)
Lemma replace_from_keeps (old : string) : forall s skip c,
  In c (list_ascii_of_string (replace_from old EmptyString skip s)) ->
  In c (list_ascii_of_string s).
Proof.
  induction s as [|b s IH]; intros skip c; cbn [replace_from]; [auto|].
  destruct skip as [|n].
  - destruct (startswith (String b s) old).
    + cbv [String.append]. cbn [list_ascii_of_string In]. intros H. right. eapply IH, H.
    + cbn [list_ascii_of_string In]. intros [H|H]; [now left | right; eapply IH, H].
  - cbn [list_ascii_of_string In]. intros H. right. eapply IH, H.
Qed.

(** deleting a one-character string leaves none of it *)
Lemma replace_char_gone (c : ascii) (s : string) :
  ~ In c (list_ascii_of_string (replace s (String c EmptyString) EmptyString)).
Proof.
  unfold replace. induction s as [|b s IH]; cbn [replace_from]; [simpl; tauto|].
  cbn [startswith]. rewrite startswith_nil, andb_true_r.
  destruct (Ascii.eqb c b) eqn:E.
  - cbn [String.length Nat.pred]. cbv [String.append]. exact IH.
  - cbn [list_ascii_of_string In]. intros [->|H]; [|auto].
    rewrite Ascii.eqb_refl in E. discriminate.
Qed.

Lemma lstrip_keeps (c : ascii) (s : string) :
  In c (list_ascii_of_string (lstrip s)) -> In c (list_ascii_of_string s).
Proof.
  induction s as [|b s IH]; cbn [lstrip]; [auto|].
  destruct (is_space b); [|auto]. intros H. right. auto.
Qed.

Lemma rstrip_keeps (c : ascii) (s : string) :
  In c (list_ascii_of_string (rstrip s)) -> In c (list_ascii_of_string s).
Proof.
  induction s as [|b s IH]; cbn [rstrip]; [auto|].
  destruct (rstrip s) as [|b' r].
  - destruct (is_space b); cbn [list_ascii_of_string In]; tauto.
  - cbn [list_ascii_of_string In] in *. tauto.
Qed.

(** [handle_screenshot] deletes the word "a" wherever it stands, also
    inside other words: a filename read from the command never holds the
    letter a. *)
Theorem screenshot_name_never_holds_an_a (command : string) (entities : gmap string pyval) :
  re_search false screenshot_pattern command <> None ->
  exists filename,
    handle_screenshot command entities
    = Ok [dict [("action", PStr "screenshot"); ("filename", PStr filename)]]
    /\ contains filename "a" = false.
Proof.
  intros Hm. unfold handle_screenshot.
  destruct (re_search false screenshot_pattern command) as [m|]; [|congruence].
  eexists. split; [reflexivity|].
  apply not_true_is_false. rewrite contains_char. intros H.
  apply rstrip_keeps, lstrip_keeps in H.
  unfold remove_all in H. cbn [fold_left] in H.
  apply (replace_from_keeps "the") in H.
  now apply replace_char_gone in H.
Qed.

End ScreenshotNameFacts.

Lemma screenshot_name_never_holds_an_a_witness :
  exists filename,
    handle_screenshot "capture of banana page" ∅
    = Ok [dict [("action", PStr "screenshot"); ("filename", PStr filename)]]
    /\ contains filename "a" = false.
Proof.
  apply (screenshot_name_never_holds_an_a "capture of banana page" ∅).
  vm_compute. discriminate.
Defined.

Section BookFlightValidationFacts.
Variable fromisoformat : string -> result Z.
Variable strptime : string -> string -> result Z.
Variable today : Z.
Hypothesis today_ok : clock_date today.

Lemma valid_book_flight i data from_city to_city date d :
  data !! "action" = Some (PStr "book_flight") ->
  data !! "from" = Some (PStr from_city) ->
  data !! "to" = Some (PStr to_city) ->
  data !! "date" = Some (PStr date) ->
  fromisoformat date = Ok d ->
  validate_action fromisoformat i data = Ok (BookFlightAction from_city to_city date).
Proof.
  intros Ha Hf Ht Hd Hiso. unfold validate_action. rewrite Ha.
  cbn [truthy negb String.eqb Ascii.eqb Bool.eqb].
  change (table_get (action_models fromisoformat) "book_flight")
    with (Some (make_book_flight fromisoformat)).
  unfold make_book_flight, str_field, validate_date. rewrite Hf, Ht, Hd.
  cbn [mbind result_bind]. now rewrite Hiso.
Qed.

Lemma invalid_book_flight_date i data from_city to_city date e :
  data !! "action" = Some (PStr "book_flight") ->
  data !! "from" = Some (PStr from_city) ->
  data !! "to" = Some (PStr to_city) ->
  data !! "date" = Some (PStr date) ->
  fromisoformat date = Raise e ->
  exists msg, validate_action fromisoformat i data = Raise (Exn ValueError msg).
Proof.
  intros Ha Hf Ht Hd Hiso. unfold validate_action. rewrite Ha.
  cbn [truthy negb String.eqb Ascii.eqb Bool.eqb].
  change (table_get (action_models fromisoformat) "book_flight")
    with (Some (make_book_flight fromisoformat)).
  unfold make_book_flight, str_field, validate_date. rewrite Hf, Ht, Hd.
  cbn [mbind result_bind]. rewrite Hiso. cbn [mbind result_bind value_error].
  eexists. reflexivity.
Qed.

(** What [handle_book_flight] builds on the first pattern that matches
    carries every field the [BookFlightAction] model asks for: the plan is
    accepted by [validate_actions], cities and date unchanged, when
    [date.fromisoformat] accepts the date that [parse_date] wrote, and is
    rejected with a [ValueError] when it refuses that date. *)
Theorem book_flight_plan_stands_or_falls_with_its_date
    (command : string) (entities : gmap string pyval)
    (pre post : list regex) (p : regex) (m : gmap nat string) :
  flight_patterns = pre ++ p :: post ->
  (forall q, In q pre -> re_search true q command = None) ->
  re_search true p command = Some m ->
  let from_city := normalize_city (strip (collapse_spaces (strip (group_text m 1)))) in
  let to_city := normalize_city (strip (collapse_spaces (strip (group_text m 2)))) in
  exists date,
    handle_book_flight strptime today command entities
    = Ok [dict [("action", PStr "book_flight"); ("from", PStr from_city);
                ("to", PStr to_city); ("date", PStr date)]]
    /\ (forall d, fromisoformat date = Ok d ->
        validate_actions fromisoformat
          [dict [("action", PStr "book_flight"); ("from", PStr from_city);
                 ("to", PStr to_city); ("date", PStr date)]]
        = Ok [BookFlightAction from_city to_city date])
    /\ (forall e, fromisoformat date = Raise e ->
        exists msg,
          validate_actions fromisoformat
            [dict [("action", PStr "book_flight"); ("from", PStr from_city);
                   ("to", PStr to_city); ("date", PStr date)]]
          = Raise (Exn ValueError msg)).
Proof.
  intros Hpatterns Hnone Hm from_city to_city. unfold handle_book_flight.
  rewrite Hpatterns, (book_flight_loop_first strptime today command pre post p m Hnone Hm).
  destruct (parse_date_total strptime today today_ok (strip (group_text m 3)))
    as [date ->].
  exists date. split; [reflexivity|]. split.
  - intros d Hiso. unfold validate_actions. apply validate_from_cons; [|reflexivity].
    now apply (valid_book_flight _ _ from_city to_city date d).
  - intros e Hiso. unfold validate_actions. cbn [validate_from].
    edestruct (invalid_book_flight_date O) as [msg ->];
      [ | | | | exact Hiso | exists msg; reflexivity ]; reflexivity.
Qed.

End BookFlightValidationFacts.

Lemma book_flight_plan_stands_or_falls_with_its_date_witness :
  exists date,
    handle_book_flight Reference.strptime 739924 "fly from blr to del on 2026-03-01" ∅
    = Ok [dict [("action", PStr "book_flight"); ("from", PStr "Bengaluru");
                ("to", PStr "Delhi"); ("date", PStr date)]]
    /\ (forall d, Reference.fromisoformat date = Ok d ->
        validate_actions Reference.fromisoformat
          [dict [("action", PStr "book_flight"); ("from", PStr "Bengaluru");
                 ("to", PStr "Delhi"); ("date", PStr date)]]
        = Ok [BookFlightAction "Bengaluru" "Delhi" date])
    /\ (forall e, Reference.fromisoformat date = Raise e ->
        exists msg,
          validate_actions Reference.fromisoformat
            [dict [("action", PStr "book_flight"); ("from", PStr "Bengaluru");
                   ("to", PStr "Delhi"); ("date", PStr date)]]
          = Raise (Exn ValueError msg)).
Proof.
  destruct (re_search true flight_pattern_4 "fly from blr to del on 2026-03-01")
    as [m|] eqn:Hm; [|vm_compute in Hm; discriminate].
  assert (Hfrom : normalize_city (strip (collapse_spaces (strip (group_text m 1))))
                  = "Bengaluru")
    by (vm_compute in Hm; injection Hm as <-; vm_compute; reflexivity).
  assert (Hto : normalize_city (strip (collapse_spaces (strip (group_text m 2)))) = "Delhi")
    by (vm_compute in Hm; injection Hm as <-; vm_compute; reflexivity).
  rewrite <- Hfrom, <- Hto.
  apply (book_flight_plan_stands_or_falls_with_its_date
           Reference.fromisoformat Reference.strptime 739924
           ltac:(split; vm_compute; discriminate)
           "fly from blr to del on 2026-03-01" ∅
           [flight_pattern_1; flight_pattern_2; flight_pattern_3] [] flight_pattern_4 m).
  - reflexivity.
  - intros q Hq. simpl in Hq.
    destruct Hq as [<-|[<-|[<-|[]]]]; vm_compute; reflexivity.
  - exact Hm.
Defined.
